(** * Beacon AI backend: a shallow embedding of [server.js] and its properties

    The development follows the ESM variant of the server (the one with the
    recommendation engine, the tracked redirect and the event log).

    - JavaScript strings are modelled as sequences of code units below 256
      (Latin-1); every string that the properties mention is ASCII.
    - JavaScript numbers are IEEE-754 binary64 values: the primitive [float].
    - The three storage tables, the DNS resolver and the mail provider are
      outside the process: a request handler is a tree of external calls
      ([prog]) whose answers come from the environment.
    - The URL constructor with a base, and the host parser on IPv6
      literals and on internationalized hosts, are taken from the platform
      as they are ([Platform]). *)

From Stdlib Require Import ZArith NArith List String Ascii Bool Lia Floats Uint63.
From Stdlib Require Import QArith.QArith_base QArith.Qround.
From stdpp Require Import gmap strings.
Import ListNotations.

(* ===================================================================== *)
(** * Part I: definitions                                                 *)
(* ===================================================================== *)

(** ** Text *)

Definition chars := list ascii.

Definition lit (s : string) : chars := list_ascii_of_string s.
Definition str (l : chars) : string := string_of_list_ascii l.

Definition code_unit (c : ascii) : nat := nat_of_ascii c.

Definition in_range (lo hi : nat) (c : ascii) : bool :=
  (lo <=? code_unit c)%nat && (code_unit c <=? hi)%nat.

Definition is_char (x : ascii) (c : ascii) : bool := Ascii.eqb c x.

Definition is_empty (l : chars) : bool :=
  match l with [] => true | _ => false end.

Fixpoint take_while (p : ascii -> bool) (l : chars) : chars :=
  match l with
  | c :: r => if p c then c :: take_while p r else []
  | [] => []
  end.

Fixpoint drop_while (p : ascii -> bool) (l : chars) : chars :=
  match l with
  | c :: r => if p c then drop_while p r else l
  | [] => []
  end.

Definition drop_while_end (p : ascii -> bool) (l : chars) : chars :=
  rev (drop_while p (rev l)).

Fixpoint starts_with (p l : chars) : bool :=
  match p, l with
  | [], _ => true
  | a :: p', b :: l' => Ascii.eqb a b && starts_with p' l'
  | _ :: _, [] => false
  end.

(** *** Character classes of the URL standard *)

Definition is_ascii_upper_alpha : ascii -> bool := in_range 65 90.
Definition is_ascii_lower_alpha : ascii -> bool := in_range 97 122.
Definition is_ascii_alpha (c : ascii) : bool :=
  is_ascii_upper_alpha c || is_ascii_lower_alpha c.
Definition is_ascii_digit : ascii -> bool := in_range 48 57.
Definition is_ascii_alphanumeric (c : ascii) : bool :=
  is_ascii_alpha c || is_ascii_digit c.
Definition is_ascii_hex_digit (c : ascii) : bool :=
  is_ascii_digit c || in_range 65 70 c || in_range 97 102 c.
Definition is_ascii_code_point : ascii -> bool := in_range 0 127.

Definition ascii_lowercase_char (c : ascii) : ascii :=
  if is_ascii_upper_alpha c then ascii_of_nat (code_unit c + 32) else c.

Definition ascii_lowercase (l : chars) : chars := map ascii_lowercase_char l.

(** *** JavaScript string methods *)

(** [WhiteSpace] and [LineTerminator] code points below 256: TAB, LF, VT,
    FF, CR, SPACE and NO-BREAK SPACE. These are also the [\s] class. *)
Definition is_js_whitespace (c : ascii) : bool :=
  in_range 9 13 c || is_char " " c || (code_unit c =? 160)%nat.

(** [String.prototype.trim]. *)
Definition trim (l : chars) : chars :=
  drop_while_end is_js_whitespace (drop_while is_js_whitespace l).

(** [String.prototype.toLowerCase] on code units below 256: A-Z and the
    Latin-1 capitals U+00C0..U+00DE except the multiplication sign. *)
Definition js_lowercase_char (c : ascii) : ascii :=
  if is_ascii_upper_alpha c || (in_range 192 222 c && negb (code_unit c =? 215)%nat)
  then ascii_of_nat (code_unit c + 32) else c.

Definition toLowerCase (l : chars) : chars := map js_lowercase_char l.

(** [String.prototype.startsWith] and [String.prototype.slice] with one
    non-negative argument. *)
Definition startsWith (l p : chars) : bool := starts_with p l.
Definition slice (l : chars) (n : nat) : chars := skipn n l.

(** [split(sep)] on a one-character separator: the list of pieces. *)
Fixpoint split_on (sep : ascii) (l : chars) : list chars :=
  match l with
  | [] => [[]]
  | c :: r =>
      if Ascii.eqb c sep then [] :: split_on sep r
      else match split_on sep r with
           | p :: ps => (c :: p) :: ps
           | [] => [[c]]
           end
  end.

(** ** The platform

    Two things are taken from the platform as they are, as functions, and
    every property below holds whatever they answer:
    - the host parser of the URL standard on the hosts that the model
      does not cover: IPv6 literals, hosts with a code point outside ASCII
      (as written or after percent-decoding), and hosts with a label that
      starts with "xn--"; they need the IPv6 parser or IDNA processing;
    - the URL constructor with a base, [new URL(input, base)]. *)

(** [new URL(input, base)]: the URL, or the text of the exception
    ([err?.message || String(err)]). *)
Inductive url_answer : Type :=
| UrlOk (href : string)
| UrlThrown (message : string).

Record Platform : Type := {
  host_beyond_model : chars -> option chars;
  new_URL : string -> string -> url_answer
}.

(** ** The URL standard, as far as [hostname] depends on it

    [new URL(input)] runs the basic URL parser of the WHATWG URL standard
    with no base URL. The model follows its states for the special schemes
    that carry an authority (http, https, ws, wss, ftp), up to the point
    where the host is known; the path, query and fragment states never
    fail and do not touch the host. The host parser is modelled on ASCII
    domains and IPv4 addresses; on every other host it is the
    platform's. *)

Module Url.

(** A leading or trailing C0 control or space is removed; every ASCII tab
    or newline is removed. *)
Definition is_c0_control_or_space (c : ascii) : bool := (code_unit c <=? 32)%nat.
Definition is_ascii_tab_or_newline (c : ascii) : bool :=
  (code_unit c =? 9)%nat || (code_unit c =? 10)%nat || (code_unit c =? 13)%nat.

Definition strip_c0_control_or_space (l : chars) : chars :=
  drop_while_end is_c0_control_or_space (drop_while is_c0_control_or_space l).

Definition remove_tab_or_newline (l : chars) : chars :=
  List.filter (fun c => negb (is_ascii_tab_or_newline c)) l.

(** Scheme start state and scheme state: an ASCII alpha, then ASCII
    alphanumerics, "+", "-" or ".", then ":". The scheme is lowercased.
    With no base URL every other input is a failure. *)
Definition is_scheme_char (c : ascii) : bool :=
  is_ascii_alphanumeric c || is_char "+" c || is_char "-" c || is_char "." c.

Fixpoint scheme_state (buffer : chars) (l : chars) : option (chars * chars) :=
  match l with
  | [] => None
  | c :: r =>
      if is_scheme_char c then scheme_state (buffer ++ [ascii_lowercase_char c]) r
      else if is_char ":" c then Some (buffer, r)
      else None
  end.

Definition scheme_start_state (l : chars) : option (chars * chars) :=
  match l with
  | c :: r => if is_ascii_alpha c then scheme_state [ascii_lowercase_char c] r else None
  | [] => None
  end.

Definition special_authority_schemes : list chars :=
  [lit "http"; lit "https"; lit "ws"; lit "wss"; lit "ftp"].

Definition is_special_authority_scheme (s : chars) : bool :=
  existsb (fun x => bool_decide (s = x)) special_authority_schemes.

(** Special authority slashes state and special authority ignore slashes
    state: every leading "/" or "\" is skipped. *)
Definition is_slash (c : ascii) : bool := is_char "/" c || is_char "\" c.

(** The authority ends at the end of input, "/", "?", "#", or (for a
    special scheme) "\". *)
Definition is_authority_end (c : ascii) : bool :=
  is_char "/" c || is_char "?" c || is_char "#" c || is_char "\" c.

(** Authority state. On "@" the buffer (credentials) is dropped; at the
    end of the authority, a seen "@" with an empty buffer is a failure;
    otherwise the host state restarts on the buffer. *)
Fixpoint authority_state (atSignSeen : bool) (buffer : chars) (l : chars)
  : option chars :=
  match l with
  | [] => if atSignSeen && is_empty buffer then None else Some buffer
  | c :: r =>
      if is_char "@" c then authority_state true [] r
      else if is_authority_end c then
        (if atSignSeen && is_empty buffer then None else Some buffer)
      else authority_state atSignSeen (buffer ++ [c]) r
  end.

(** Host state, run on the authority without credentials: the host is
    the buffer up to a ":" outside brackets, or up to the end; an empty
    host is a failure. The second component is the port text, if any. *)
Fixpoint host_state (insideBrackets : bool) (buffer : chars) (l : chars)
  : option (chars * option chars) :=
  match l with
  | [] => if is_empty buffer then None else Some (buffer, None)
  | c :: r =>
      if is_char ":" c && negb insideBrackets then
        (if is_empty buffer then None else Some (buffer, Some r))
      else
        host_state (if is_char "[" c then true
                    else if is_char "]" c then false
                    else insideBrackets)
                   (buffer ++ [c]) r
  end.

(** Value of a digit in a radix up to 16. *)
Definition digit_value (c : ascii) : N :=
  if is_ascii_digit c then N.of_nat (code_unit c - 48)
  else if in_range 65 70 c then N.of_nat (code_unit c - 55)
  else if in_range 97 102 c then N.of_nat (code_unit c - 87)
  else 0%N.

Definition is_radix_digit (R : N) (c : ascii) : bool :=
  is_ascii_hex_digit c && (digit_value c <? R)%N.

Definition radix_value (R : N) (l : chars) : N :=
  fold_left (fun acc c => (acc * R + digit_value c)%N) l 0%N.

(** Port state: ASCII digits up to the end of the authority; a non-empty
    port above 65535 is a failure. *)
Definition port_state (l : chars) : bool :=
  forallb is_ascii_digit l && (is_empty l || (radix_value 10 l <=? 65535)%N).

(** *** Host parsing *)

(** Percent-decode. *)
Fixpoint percent_decode (l : chars) : chars :=
  match l with
  | [] => []
  | c :: r =>
      if is_char "%" c then
        match r with
        | h1 :: h2 :: r' =>
            if is_ascii_hex_digit h1 && is_ascii_hex_digit h2
            then ascii_of_N (16 * digit_value h1 + digit_value h2) :: percent_decode r'
            else c :: percent_decode r
        | _ => c :: percent_decode r
        end
      else c :: percent_decode r
  end.

(** Forbidden host code points, and forbidden domain code points: those,
    the C0 controls, "%" and DELETE. *)
Definition is_forbidden_host_code_point (c : ascii) : bool :=
  existsb (fun n => (code_unit c =? n)%nat)
          [0; 9; 10; 13; 32; 35; 47; 58; 60; 62; 63; 64; 91; 92; 93; 94; 124]%nat.

Definition is_forbidden_domain_code_point (c : ascii) : bool :=
  is_forbidden_host_code_point c || (code_unit c <=? 31)%nat
  || is_char "%" c || (code_unit c =? 127)%nat.

(** IPv4 number parser: hexadecimal after "0x" or "0X", octal after a
    leading "0", decimal otherwise. *)
Definition ipv4_number_parser (input : chars) : option N :=
  match input with
  | [] => None
  | _ =>
      let '(input, R) :=
        match input with
        | z :: x :: r =>
            if is_char "0" z && (is_char "x" x || is_char "X" x) then (r, 16%N)
            else if is_char "0" z then (x :: r, 8%N)
            else (input, 10%N)
        | _ => (input, 10%N)
        end in
      if is_empty input then Some 0%N
      else if forallb (is_radix_digit R) input then Some (radix_value R input)
      else None
  end.

(** The parts of a host: it is split on "."; one empty last part is
    dropped unless it is the only part. *)
Definition drop_empty_last (parts : list chars) : list chars :=
  match rev parts with
  | [] :: (_ :: _) as rest => rev rest
  | _ => parts
  end.

(** Ends-in-a-number checker: the last part is made of digits, or the
    IPv4 number parser accepts it. *)
Definition numeric_part (last : chars) : bool :=
  (negb (is_empty last) && forallb is_ascii_digit last)
  || (match ipv4_number_parser last with Some _ => true | None => false end).

Definition ends_in_a_number (input : chars) : bool :=
  let parts := split_on "." input in
  match rev parts with
  | [[]] => false
  | _ =>
      match rev (drop_empty_last parts) with
      | last :: _ => numeric_part last
      | [] => false
      end
  end.

Fixpoint parse_all (parts : list chars) : option (list N) :=
  match parts with
  | [] => Some []
  | p :: ps =>
      match ipv4_number_parser p, parse_all ps with
      | Some n, Some ns => Some (n :: ns)
      | _, _ => None
      end
  end.

(** IPv4 parser: at most four numbers, all but the last below 256, the
    last below 256^(5 - count); the address is the last number plus the
    others as the leading bytes. *)
Definition ipv4_parser (input : chars) : option N :=
  let parts := drop_empty_last (split_on "." input) in
  if (4 <? length parts)%nat then None
  else
    match parse_all parts with
    | None => None
    | Some numbers =>
        match rev numbers with
        | [] => None
        | last :: others_rev =>
            let others := rev others_rev in
            if existsb (fun n => (255 <? n)%N) others then None
            else if (256 ^ (5 - N.of_nat (length numbers)) <=? last)%N then None
            else
              Some (fold_left (fun acc '(n, i) => (acc + n * 256 ^ (3 - N.of_nat i))%N)
                              (combine others (seq 0 (length others))) last)
        end
    end.

(** Decimal text of a number below 1000 (enough for one address byte). *)
Definition digit_char (n : N) : ascii := ascii_of_N (48 + n).

Definition decimal_text (n : N) : chars :=
  let h := (n / 100)%N in
  let t := ((n / 10) mod 10)%N in
  let u := (n mod 10)%N in
  if (0 <? h)%N then [digit_char h; digit_char t; digit_char u]
  else if (0 <? t)%N then [digit_char t; digit_char u]
  else [digit_char u].

(** IPv4 serializer: the four bytes in decimal, separated by dots. *)
Definition dotted (a b c d : N) : chars :=
  decimal_text a ++ lit "." ++ decimal_text b ++ lit "." ++
  decimal_text c ++ lit "." ++ decimal_text d.

Definition ipv4_serializer (address : N) : chars :=
  dotted ((address / 16777216) mod 256) ((address / 65536) mod 256)
         ((address / 256) mod 256) (address mod 256).

(** Some label of the domain starts with "xn--". *)
Definition has_xn_label (domain : chars) : bool :=
  existsb (starts_with (lit "xn--")) (split_on "." domain).

(** The hosts of the model: not an IPv6 literal, ASCII after
    percent-decoding, and without a label that starts with "xn--" in any
    letter case. On these, domain to ASCII is ASCII lowercasing. *)
Definition host_in_model (input : chars) : bool :=
  negb (starts_with (lit "[") input)
  && forallb is_ascii_code_point (percent_decode input)
  && negb (has_xn_label (ascii_lowercase (percent_decode input))).

(** Host parser for a special scheme, followed by the host serializer. *)
Definition host_parser (pf : Platform) (input : chars) : option chars :=
  if host_in_model input then
    let asciiDomain := ascii_lowercase (percent_decode input) in
    if is_empty asciiDomain then None
    else if existsb is_forbidden_domain_code_point asciiDomain then None
    else if ends_in_a_number asciiDomain then
      option_map ipv4_serializer (ipv4_parser asciiDomain)
    else Some asciiDomain
  else host_beyond_model pf input.

(** From the authority to the serialized host. *)
Definition authority_hostname (pf : Platform) (l : chars) : option chars :=
  match authority_state false [] l with
  | None => None
  | Some hostport =>
      match host_state false [] hostport with
      | None => None
      | Some (buffer, port) =>
          match host_parser pf buffer with
          | None => None
          | Some host =>
              match port with
              | Some p => if port_state p then Some host else None
              | None => Some host
              end
          end
      end
  end.

(** [new URL(input).hostname]; [None] when the constructor throws. *)
Definition hostname (pf : Platform) (input : chars) : option chars :=
  let input := remove_tab_or_newline (strip_c0_control_or_space input) in
  match scheme_start_state input with
  | None => None
  | Some (scheme, rest) =>
      if is_special_authority_scheme scheme
      then authority_hostname pf (drop_while is_slash rest)
      else None
  end.

(** The text that the host parser is given, when the parser gets as far
    as the host. *)
Definition authority_host_text (l : chars) : option chars :=
  match authority_state false [] l with
  | None => None
  | Some hostport => option_map fst (host_state false [] hostport)
  end.

Definition host_text (input : chars) : option chars :=
  let input := remove_tab_or_newline (strip_c0_control_or_space input) in
  match scheme_start_state input with
  | None => None
  | Some (scheme, rest) =>
      if is_special_authority_scheme scheme
      then authority_host_text (drop_while is_slash rest)
      else None
  end.

(** The host of the URL, if the parser reaches one, is a host of the
    model. *)
Definition in_model (input : chars) : bool :=
  match host_text input with
  | Some buffer => host_in_model buffer
  | None => true
  end.

End Url.

(** ** Identity Normalizer *)

(** [/^https?:\/\//i.test(url)]. *)
Fixpoint starts_with_ci (p l : chars) : bool :=
  match p, l with
  | [], _ => true
  | a :: p', b :: l' =>
      Ascii.eqb (ascii_lowercase_char a) (ascii_lowercase_char b) && starts_with_ci p' l'
  | _ :: _, [] => false
  end.

Definition test_http_scheme (url : chars) : bool :=
  starts_with_ci (lit "http://") url || starts_with_ci (lit "https://") url.

Definition normalizeUrl_chars (pf : Platform) (input : chars) : option chars :=
  let url := trim input in
  if is_empty url then None
  else
    let url := if test_http_scheme url then url else lit "https://" ++ url in
    match Url.hostname pf url with
    | Some hostname =>
        let host := toLowerCase hostname in
        Some (if startsWith host (lit "www.") then slice host 4 else host)
    | None => None
    end.

(** [normalizeUrl(input)]: [None] is the [null] result. *)
Definition normalizeUrl (pf : Platform) (input : string) : option string :=
  option_map str (normalizeUrl_chars pf (lit input)).

(** The URL that [normalizeUrl] hands to the URL constructor, and the raw
    inputs whose host is a host of the model. *)
Definition prepared (input : chars) : chars :=
  let url := trim input in
  if test_http_scheme url then url else lit "https://" ++ url.

Definition modelled (raw : string) : bool := Url.in_model (prepared (lit raw)).

(** *** Notions used to state and prove the properties of the normalizer *)

(** A character that a domain may hold, and a host made of them. *)
Definition host_char (c : ascii) : bool :=
  is_ascii_code_point c && negb (Url.is_forbidden_domain_code_point c).

Definition plain_host (h : chars) : bool := negb (is_empty h) && forallb host_char h.

(** What follows the host of a raw URL: nothing, or a path, query or
    fragment. *)
Definition rest_ok (rest : chars) : bool :=
  match rest with [] => true | c :: _ => Url.is_authority_end c end.

(** The URL parser after "http://" or "https://". *)
Definition after_scheme (pf : Platform) (t : chars) : option chars :=
  Url.authority_hostname pf
    (drop_while Url.is_slash
       (Url.remove_tab_or_newline (drop_while_end Url.is_c0_control_or_space t))).

(** The last lines of [normalizeUrl]: lowercase, then one "www." off. *)
Definition finish (h : option chars) : option chars :=
  match h with
  | Some hostname =>
      let host := toLowerCase hostname in
      Some (if startsWith host (lit "www.") then slice host 4 else host)
  | None => None
  end.

Definition scheme_spellings : list chars := [[]; lit "http://"; lit "https://"].

Definition class_respects_case (p : ascii -> bool) : Prop :=
  forall c, p (ascii_lowercase_char c) = p c.



Definition digit_or_dot (c : ascii) : bool := is_ascii_digit c || is_char "." c.

Definition byte_check (n : N) : bool :=
  let t := Url.decimal_text n in
  forallb is_ascii_digit t && negb (is_empty t)
  && match Url.ipv4_number_parser t with Some m => (m =? n)%N | None => false end.

(** A host in its final form: plain characters, lowercase, and parsed to
    itself by the model. *)
Definition settled (h : chars) : Prop :=
  plain_host h = true /\ ascii_lowercase h = h /\
  Url.host_in_model h = true /\ forall pf, Url.host_parser pf h = Some h.

(** ** Fingerprint: SHA-256 (FIPS 180-4) over the UTF-8 bytes, in hex *)

Module Sha256.
Local Open Scope N_scope.

Definition mask32 : N := 0xFFFFFFFF.
Definition add32 (x y : N) : N := N.land (x + y) mask32.
Definition not32 (x : N) : N := N.lxor x mask32.
Definition rotr (n x : N) : N :=
  N.land (N.lor (N.shiftr x n) (N.shiftl x (32 - n))) mask32.

Definition Ch (x y z : N) : N := N.lxor (N.land x y) (N.land (not32 x) z).
Definition Maj (x y z : N) : N :=
  N.lxor (N.lxor (N.land x y) (N.land x z)) (N.land y z).
Definition Sigma0 (x : N) : N := N.lxor (N.lxor (rotr 2 x) (rotr 13 x)) (rotr 22 x).
Definition Sigma1 (x : N) : N := N.lxor (N.lxor (rotr 6 x) (rotr 11 x)) (rotr 25 x).
Definition sigma0 (x : N) : N := N.lxor (N.lxor (rotr 7 x) (rotr 18 x)) (N.shiftr x 3).
Definition sigma1 (x : N) : N := N.lxor (N.lxor (rotr 17 x) (rotr 19 x)) (N.shiftr x 10).

(** The round constants are the first 32 bits of the fractional parts of
    the cube roots of the first sixty-four primes; the initial hash value
    is made the same way from the square roots of the first eight. *)
Definition is_prime (n : nat) : bool :=
  (1 <? n)%nat && forallb (fun d => negb (n mod d =? 0)%nat) (seq 2 (n - 2)).

Definition first_primes (count : nat) : list N :=
  map N.of_nat (firstn count (List.filter is_prime (seq 2 400))).

(** The integer part of the [k]-th root, one bit at a time. *)
Definition integer_root (k : N) (x : N) : N :=
  fold_left (fun r i => let r' := r + 2 ^ N.of_nat i in
                        if r' ^ k <=? x then r' else r)
            (rev (seq 0 48)) 0.

Definition fractional_bits (k : N) (p : N) : N :=
  N.land (integer_root k (p * 2 ^ (32 * k))) mask32.

Definition K : list N := Eval vm_compute in map (fractional_bits 3) (first_primes 64).

(** Padding: the bit 1, zeros up to 56 mod 64 bytes, the bit length in
    eight big-endian bytes. *)
Definition be_bytes (count : nat) (x : N) : list N :=
  map (fun i => N.land (N.shiftr x (8 * N.of_nat i)) 0xFF) (rev (seq 0 count)).

Definition pad (msg : list N) : list N :=
  let len := length msg in
  let zeros := ((64 - (len + 9) mod 64) mod 64)%nat in
  msg ++ [0x80] ++ repeat 0 zeros ++ be_bytes 8 (8 * N.of_nat len).

Fixpoint words (fuel : nat) (bytes : list N) : list N :=
  match fuel, bytes with
  | S fuel', a :: b :: c :: d :: r =>
      (N.shiftl a 24 + N.shiftl b 16 + N.shiftl c 8 + d) :: words fuel' r
  | _, _ => []
  end.

(** Message schedule: sixteen words of the block, extended to sixty-four. *)
Fixpoint extend (count : nat) (w : list N) : list N :=
  match count with
  | O => w
  | S count' =>
      let t := length w in
      let at_ i := nth (t - i) w 0 in
      extend count' (w ++ [add32 (add32 (sigma1 (at_ 2%nat)) (at_ 7%nat))
                                 (add32 (sigma0 (at_ 15%nat)) (at_ 16%nat))])
  end.

Definition state : Type := N * N * N * N * N * N * N * N.

Definition H0 : state :=
  match map (fractional_bits 2) (first_primes 8) with
  | [a; b; c; d; e; f; g; h] => (a, b, c, d, e, f, g, h)
  | _ => (0, 0, 0, 0, 0, 0, 0, 0)
  end.

Definition round (s : state) (kw : N * N) : state :=
  let '(a, b, c, d, e, f, g, h) := s in
  let '(k, w) := kw in
  let T1 := add32 (add32 (add32 h (Sigma1 e)) (add32 (Ch e f g) k)) w in
  let T2 := add32 (Sigma0 a) (Maj a b c) in
  (add32 T1 T2, a, b, c, add32 d T1, e, f, g).

Definition compress (s : state) (block : list N) : state :=
  let '(a, b, c, d, e, f, g, h) := s in
  let '(a', b', c', d', e', f', g', h') :=
    fold_left round (combine K (extend 48 block)) s in
  (add32 a a', add32 b b', add32 c c', add32 d d',
   add32 e e', add32 f f', add32 g g', add32 h h').

Fixpoint blocks (fuel : nat) (s : state) (ws : list N) : state :=
  match fuel, ws with
  | S fuel', _ :: _ => blocks fuel' (compress s (firstn 16 ws)) (skipn 16 ws)
  | _, _ => s
  end.

Definition digest (msg : list N) : list N :=
  let ws := let p := pad msg in words (length p) p in
  let '(a, b, c, d, e, f, g, h) := blocks (length ws) H0 ws in
  flat_map (be_bytes 4) [a; b; c; d; e; f; g; h].

Definition hex_digit (n : N) : ascii :=
  if n <? 10 then ascii_of_N (48 + n) else ascii_of_N (87 + n).

Definition hex (bytes : list N) : chars :=
  flat_map (fun b => [hex_digit (b / 16); hex_digit (b mod 16)]) bytes.

(** UTF-8 encoding of code units below 256. *)
Definition utf8 (l : chars) : list N :=
  flat_map (fun c => let n := N_of_ascii c in
                     if n <? 128 then [n]
                     else [N.lor 0xC0 (N.shiftr n 6); N.lor 0x80 (N.land n 0x3F)]) l.

End Sha256.

(** [crypto.createHash("sha256").update(s).digest("hex")]. *)
Definition hashString (s : string) : string :=
  str (Sha256.hex (Sha256.digest (Sha256.utf8 (lit s)))).

(** ** Email Validator *)

(** The class [[^\s@]]. *)
Definition not_space_at (c : ascii) : bool :=
  negb (is_js_whitespace c) && negb (is_char "@" c).

(** Some "." of the text has a character before it and one after it. *)
Definition has_inner_dot (l : chars) : bool :=
  match l with
  | [] => false
  | _ :: r => existsb (is_char ".") (removelast r)
  end.

(** [/^[^\s@]+@[^\s@]+\.[^\s@]+$/.test(email)] on the trimmed value. *)
Definition isValidEmailFormat_chars (value : chars) : bool :=
  let email := trim value in
  let local_part := take_while not_space_at email in
  match drop_while not_space_at email with
  | c :: domain_part =>
      is_char "@" c && negb (is_empty local_part)
      && forallb not_space_at domain_part && has_inner_dot domain_part
  | [] => false
  end.

Definition isValidEmailFormat (value : string) : bool :=
  isValidEmailFormat_chars (lit value).

(** [email.split("@")[1]] of the trimmed, lowercased value; [None] when it
    is [undefined] or empty. *)
Definition mx_domain (value : string) : option string :=
  match split_on "@" (toLowerCase (trim (lit value))) with
  | _ :: d :: _ => if is_empty d then None else Some (str d)
  | _ => None
  end.

(** ** Numbers *)

(** A JSON scalar that is not a string: what [report.score] and the
    [refresh] flag can hold ([JUndefined] for a missing field). *)
Inductive js_scalar : Type :=
| JUndefined
| JNull
| JBool (b : bool)
| JNum (x : float).

(** [Number(v)]. *)
Definition Number (v : js_scalar) : float :=
  match v with
  | JUndefined => nan
  | JNull => 0%float
  | JBool true => 1%float
  | JBool false => 0%float
  | JNum x => x
  end.

(** [Number.isFinite(x)] on a number. *)
Definition Number_isFinite (x : float) : bool := negb (is_nan x || is_infinity x).

(** [v === true]. *)
Definition is_true (v : js_scalar) : bool :=
  match v with JBool true => true | _ => false end.

(** [v ?? null]. *)
Definition or_null (v : js_scalar) : js_scalar :=
  match v with JUndefined => JNull | _ => v end.

(** The float of an integer below 2^53 in absolute value. *)
Definition float_of_Z (n : Z) : float :=
  if (n <? 0)%Z then PrimFloat.opp (PrimFloat.of_uint63 (Uint63.of_Z (- n)))
  else PrimFloat.of_uint63 (Uint63.of_Z n).

(** [Math.round(x)]: the integer nearest to [x], ties towards +infinity;
    NaN, the infinities and the zeros are returned as they are, and a
    result of zero keeps the sign of [x]. With [x = m * 2^e] and [e < 0],
    floor(x + 1/2) is floor((2 m + 2^-e) / 2^(1-e)). *)
Definition Math_round (x : float) : float :=
  match Prim2SF x with
  | S754_finite s m e =>
      if (0 <=? e)%Z then x
      else
        let num := if s then Z.neg m else Z.pos m in
        let n := ((2 * num + 2 ^ (- e)) / 2 ^ (1 - e))%Z in
        if (n =? 0)%Z then (if s then (-0)%float else 0%float)
        else float_of_Z n
  | _ => x
  end.

(** ** Recommendation Engine *)

Definition calcDiscountedPrice (price discountPercent : float) : option float :=
  let p := price in
  let d := discountPercent in
  if negb (Number_isFinite p) || negb (Number_isFinite d) then None
  else Some (Math_round (p * (1 - d / 100) * 100) / 100)%float.

Inductive Tier : Type := Starter | Business | Premium.

Definition tier_name (t : Tier) : string :=
  match t with
  | Starter => "Starter"
  | Business => "Business"
  | Premium => "Premium"
  end.

Module Package.
Record t : Type := {
  name : string;
  price : float;
  bullets : list string
}.
End Package.

Definition packages (t : Tier) : Package.t :=
  match t with
  | Starter =>
      {| Package.name := "Starter Website";
         Package.price := 299;
         Package.bullets := ["Clean, modern single page layout";
                     "Clear call to action and lead capture";
                     "Mobile friendly layout and basic performance cleanup";
                     "Perfect for simple service businesses"] |}
  | Business =>
      {| Package.name := "Business Website";
         Package.price := 499;
         Package.bullets := ["Multi section or small multi page structure";
                     "Conversion focused layout with strong calls to action";
                     "Basic SEO setup and on page improvements";
                     "Ideal for most local businesses"] |}
  | Premium =>
      {| Package.name := "Premium Website";
         Package.price := 899;
         Package.bullets := ["Full custom build with multiple pages and strategy";
                     "Stronger SEO foundation and content structure";
                     "Performance and accessibility improvements";
                     "Best for competitive niches and scaling"] |}
  end.

Record Recommendation : Type := {
  tier : Tier;
  packageName : string;
  price : float;
  discountPercent : float;
  discountedPrice : option float;
  code : string;
  urgencyLine : string;
  bullets : list string
}.

(** A row of the reports table, as far as the server reads it. *)
Record Report : Type := {
  url_hash : string;
  domain : string;
  score : js_scalar;
  summary : option string
}.

(** [report?.score]. *)
Definition report_score (report : option Report) : js_scalar :=
  match report with
  | Some r => score r
  | None => JUndefined
  end.

Definition choose_tier (score : float) : Tier :=
  if Number_isFinite score then
    if (85 <=? score)%float then Starter
    else if (60 <=? score)%float then Business
    else Premium
  else Business.

Definition recommendPackageFromReport (report : option Report) : Recommendation :=
  let score := Number (report_score report) in
  let discountPercent := 15%float in
  let code := "BEACON15" in
  let urgencyLine := "Book within 48 hours to claim the discount." in
  let tier := choose_tier score in
  let selected := packages tier in
  let discountedPrice := calcDiscountedPrice (Package.price selected) discountPercent in
  {| tier := tier;
     packageName := Package.name selected;
     price := Package.price selected;
     discountPercent := discountPercent;
     discountedPrice := discountedPrice;
     code := code;
     urgencyLine := urgencyLine;
     bullets := Package.bullets selected |}.

(** ** Rows and messages *)

(** What [saveLead] inserts into the leads table. *)
Record Lead : Type := {
  lead_email : string;
  business_name : string;
  contact_name : option string;
  lead_domain : string;
  lead_url_hash : string;
  lead_score : js_scalar;
  lead_summary : option string;
  recommended_tier : option Tier;
  recommended_package_name : option string;
  recommended_price : option float;
  recommended_discount_percent : option float;
  recommended_discounted_price : option float;
  discount_code : option string;
  discount_deadline_hours : nat
}.

Record EventMeta : Type := {
  user_agent : option string;
  referer : option string
}.

(** What [logEvent] inserts into the events table. *)
Record Event : Type := {
  event_type : string;
  event_email : option string;
  event_url_hash : option string;
  event_domain : option string;
  event_recommended_tier : option string;
  meta : option EventMeta
}.

(** The argument of [resend.emails.send]. The text and HTML bodies are
    rendered by [buildEmailText] and [buildEmailHtml] from the three
    values kept here and from the tracked link of [buildTrackedUrl]; the
    rendered text itself is not part of the model. *)
Record Email : Type := {
  from : string;
  to : string;
  bcc : option string;
  reply_to : string;
  subject : string;
  body_report : Report;
  body_businessNameValue : string;
  body_websiteValue : string
}.

(** ** External calls *)

(** How an awaited call of a client library ends: it resolves without an
    error, resolves with an [error] object, or rejects. The text is the
    error's message. *)
Inductive outcome : Type :=
| Done
| Failed (message : string)
| Thrown (message : string).

(** How a function of the server ends: it returns, or it throws. *)
Inductive completion (A : Type) : Type :=
| Returned (a : A)
| Threw (message : string).

Arguments Returned {A} a.
Arguments Threw {A} message.

(** The answer of [select("*").eq("url_hash", h).maybeSingle()]. *)
Inductive select_answer : Type :=
| Found (row : Report)
| NotFound
| SelectFailed (message : string)
| SelectThrown (message : string).

(** The answer of [dnsPromises.resolveMx]: a number of records, or a
    rejection. *)
Inductive mx_answer : Type :=
| MxRecords (count : nat)
| MxThrown.

(** An asynchronous function of the server: the calls it awaits, each with
    the rest of the function as a continuation of the answer. *)
Inductive prog (A : Type) : Type :=
| Ret (a : A)
| ResolveMx (mx_host : string) (k : mx_answer -> prog A)
| SelectReport (urlHash : string) (k : select_answer -> prog A)
| InsertReport (row : Report) (k : outcome -> prog A)
| InsertLead (row : Lead) (k : outcome -> prog A)
| InsertEvent (row : Event) (k : outcome -> prog A)
| SendEmail (message : Email) (k : outcome -> prog A).

Arguments Ret {A} a.
Arguments ResolveMx {A} mx_host k.
Arguments SelectReport {A} urlHash k.
Arguments InsertReport {A} row k.
Arguments InsertLead {A} row k.
Arguments InsertEvent {A} row k.
Arguments SendEmail {A} message k.

Fixpoint bind {A B : Type} (p : prog A) (f : A -> prog B) : prog B :=
  match p with
  | Ret a => f a
  | ResolveMx d k => ResolveMx d (fun x => bind (k x) f)
  | SelectReport h k => SelectReport h (fun x => bind (k x) f)
  | InsertReport r k => InsertReport r (fun x => bind (k x) f)
  | InsertLead r k => InsertLead r (fun x => bind (k x) f)
  | InsertEvent r k => InsertEvent r (fun x => bind (k x) f)
  | SendEmail m k => SendEmail m (fun x => bind (k x) f)
  end.

Notation "'await' x <- p 'in' q" := (bind p (fun x => q))
  (at level 10, x name, p at level 100, q at level 200).

(** ** The server's asynchronous helpers *)

(** Environment variables, trimmed. [resend] is the mail client, present
    when [RESEND_API_KEY] is not empty. *)
Record Config : Type := {
  resend : bool;
  EMAIL_FROM : string;
  INTERNAL_BCC_EMAIL : string;
  PUBLIC_BACKEND_URL : string
}.

Definition is_blank (s : string) : bool := is_empty (lit s).

(** [(value || "")] for a value that is a string or missing. *)
Definition or_empty (value : option string) : string :=
  match value with Some s => s | None => EmptyString end.

Definition trim_string (s : string) : string := str (trim (lit s)).
Definition lower_string (s : string) : string := str (toLowerCase (lit s)).

(** [x || null] on a string. *)
Definition or_none (s : string) : option string :=
  if is_blank s then None else Some s.

Definition emailHasMx (value : string) : prog bool :=
  match mx_domain value with
  | None => Ret false
  | Some d =>
      ResolveMx d (fun mx =>
        match mx with
        | MxRecords count => Ret (0 <? count)%nat
        | MxThrown => Ret false
        end)
  end.

Record LeadArgs : Type := {
  arg_email : string;
  arg_businessName : string;
  arg_name : option string;
  arg_domain : string;
  arg_urlHash : string;
  arg_score : js_scalar;
  arg_summary : option string;
  arg_recommendation : option Recommendation
}.

(** [saveLead]: one insert; an error object or an exception is logged and
    nothing is returned or thrown. *)
Definition saveLead (a : LeadArgs) : prog unit :=
  InsertLead
    {| lead_email := arg_email a;
       business_name :=
         (let b := trim_string (arg_businessName a) in
          if is_blank b then "Unknown Business" else b);
       contact_name := or_none (trim_string (or_empty (arg_name a)));
       lead_domain := arg_domain a;
       lead_url_hash := arg_urlHash a;
       lead_score := or_null (arg_score a);
       lead_summary := arg_summary a;
       recommended_tier := option_map tier (arg_recommendation a);
       recommended_package_name := option_map packageName (arg_recommendation a);
       recommended_price := option_map price (arg_recommendation a);
       recommended_discount_percent := option_map discountPercent (arg_recommendation a);
       recommended_discounted_price :=
         match arg_recommendation a with
         | Some r => discountedPrice r
         | None => None
         end;
       discount_code := option_map code (arg_recommendation a);
       discount_deadline_hours := 48 |}
    (fun _ => Ret tt).

(** [buildTrackedUrl], as far as it can throw: the URL object that the
    constructor makes of "/r" and the base. The search parameters that are
    then set on it are not modelled. *)
Definition buildTrackedUrl (pf : Platform) (cfg : Config) : url_answer :=
  let base := if is_blank (PUBLIC_BACKEND_URL cfg) then "http://localhost:3001"
              else PUBLIC_BACKEND_URL cfg in
  new_URL pf "/r" base.

(** [sendBeaconReportEmail]: skipped without a recipient or without mail
    configuration. Then the two bodies are rendered, before the [try]:
    [buildEmailHtml] builds the tracked link, and an exception of the URL
    constructor leaves the function. A failure of the send itself is
    logged, not thrown. *)
Definition sendBeaconReportEmail (pf : Platform) (cfg : Config) (to_ : string)
    (subject_ : string) (report : Report) (businessNameValue websiteValue : string)
    : prog (completion unit) :=
  if is_blank to_ then Ret (Returned tt)
  else if negb (resend cfg) || is_blank (EMAIL_FROM cfg) then Ret (Returned tt)
  else
    match buildTrackedUrl pf cfg with
    | UrlThrown message => Ret (Threw message)
    | UrlOk _ =>
        SendEmail
          {| from := EMAIL_FROM cfg;
             to := to_;
             bcc := or_none (INTERNAL_BCC_EMAIL cfg);
             reply_to := "support@shorelinedevco.com";
             subject := subject_;
             body_report := report;
             body_businessNameValue := businessNameValue;
             body_websiteValue := websiteValue |}
          (fun _ => Ret (Returned tt))
    end.

(** [logEvent]: one insert; an error object or an exception is logged and
    nothing is returned or thrown. *)
Definition logEvent (eventType : string) (email urlHash domain_ tier_ : option string)
    (meta_ : option EventMeta) : prog unit :=
  InsertEvent
    {| event_type := eventType;
       event_email := match email with Some e => or_none e | None => None end;
       event_url_hash := match urlHash with Some e => or_none e | None => None end;
       event_domain := match domain_ with Some e => or_none e | None => None end;
       event_recommended_tier := match tier_ with Some e => or_none e | None => None end;
       meta := meta_ |}
    (fun _ => Ret tt).

(** ** Routes *)

Inductive Body : Type :=
| ErrorBody (error : string)
| ReportBody (cached : bool) (report : Report).

(** [res.status(n).json(body)], [res.status(n).send(text)] and
    [res.redirect(n, location)]. *)
Inductive Response : Type :=
| Json (status : nat) (body : Body)
| Text (status : nat) (text : string)
| Redirect (status : nat) (location : string).

(** A value of [req.query]: missing, a string, a repeated parameter (an
    array of strings), or a nested object. *)
Inductive query_value : Type :=
| QAbsent
| QString (s : string)
| QArray (items : list string)
| QObject.

Fixpoint join_comma (items : list string) : string :=
  match items with
  | [] => EmptyString
  | [x] => x
  | x :: rest => x +:+ "," +:+ join_comma rest
  end.

(** [String(v || "").trim()]. *)
Definition safeString (v : query_value) : string :=
  trim_string
    match v with
    | QAbsent => EmptyString
    | QString s => s
    | QArray items => join_comma items
    | QObject => "[object Object]"
    end.

Record RedirectRequest : Type := {
  query_to : query_value;
  query_e : query_value;
  query_h : query_value;
  query_d : query_value;
  query_t : query_value;
  header_user_agent : option string;
  header_referer : option string
}.

(** [GET /r]. *)
Definition get_r (req : RedirectRequest) : prog Response :=
  let to_ := safeString (query_to req) in
  let eventType :=
    (let e := safeString (query_e req) in if is_blank e then "click" else e) in
  let urlHash := safeString (query_h req) in
  let domain_ := safeString (query_d req) in
  let tier_ := safeString (query_t req) in
  if is_blank to_ || negb (test_http_scheme (lit to_)) then
    Ret (Text 400 "Bad redirect")
  else
    await _ <-
      logEvent eventType None (or_none urlHash) (or_none domain_) (or_none tier_)
        (Some {| user_agent := match header_user_agent req with
                               | Some s => or_none s | None => None end;
                 referer := match header_referer req with
                            | Some s => or_none s | None => None end |})
    in Ret (Redirect 302 to_).

(** The JSON body of [POST /api/analyze]; the text fields are strings or
    missing. *)
Record AnalyzeRequest : Type := {
  body_name : option string;
  body_email : option string;
  body_website : option string;
  body_businessName : option string;
  body_business_name : option string;
  body_refresh : js_scalar
}.

(** [a || b] on strings that may be missing. *)
Definition first_truthy (a b : option string) : option string :=
  match a with
  | Some s => if is_blank s then b else a
  | None => b
  end.

Definition error_response (status : nat) (message : string) : Response :=
  Json status (ErrorBody message).

Definition fresh_report (urlHash normalized : string) : Report :=
  {| url_hash := urlHash;
     domain := normalized;
     score := JNum 65;
     summary := Some "Solid foundation, but performance, SEO, and conversion clarity can be improved." |}.

Definition email_subject : string := "Your Beacon AI website report".

(** After a cache hit. An exception of [sendBeaconReportEmail] is caught by
    the handler's [catch] and answered 500. *)
Definition on_cache_hit (pf : Platform) (cfg : Config) (req : AnalyzeRequest)
    (cleanEmail finalBusinessName website normalized urlHash : string)
    (cachedReport : Report) : prog Response :=
  let recommendation := recommendPackageFromReport (Some cachedReport) in
  await _ <-
    saveLead {| arg_email := cleanEmail;
                arg_businessName := finalBusinessName;
                arg_name := body_name req;
                arg_domain := normalized;
                arg_urlHash := urlHash;
                arg_score := score cachedReport;
                arg_summary := summary cachedReport;
                arg_recommendation := Some recommendation |} in
  await sent <-
    (if is_true (body_refresh req) then
       sendBeaconReportEmail pf cfg cleanEmail email_subject cachedReport
         (if is_blank finalBusinessName then normalized else finalBusinessName) website
     else Ret (Returned tt)) in
  match sent with
  | Threw message => Ret (error_response 500 message)
  | Returned _ => Ret (Json 200 (ReportBody true cachedReport))
  end.

(** After a cache miss. *)
Definition on_cache_miss (pf : Platform) (cfg : Config) (req : AnalyzeRequest)
    (cleanEmail finalBusinessName website normalized urlHash : string)
    : prog Response :=
  let report := fresh_report urlHash normalized in
  InsertReport report (fun inserted =>
    match inserted with
    | Failed message => Ret (error_response 500 message)
    | Thrown message => Ret (error_response 500 message)
    | Done =>
        let recommendation := recommendPackageFromReport (Some report) in
        await _ <-
          saveLead {| arg_email := cleanEmail;
                      arg_businessName := finalBusinessName;
                      arg_name := body_name req;
                      arg_domain := normalized;
                      arg_urlHash := urlHash;
                      arg_score := score report;
                      arg_summary := summary report;
                      arg_recommendation := Some recommendation |} in
        await sent <-
          sendBeaconReportEmail pf cfg cleanEmail email_subject report
            (if is_blank finalBusinessName then normalized else finalBusinessName) website in
        match sent with
        | Threw message => Ret (error_response 500 message)
        | Returned _ => Ret (Json 200 (ReportBody false report))
        end
    end).

(** The business name after [(businessName || business_name || "").trim()]. *)
Definition final_business_name (req : AnalyzeRequest) : string :=
  trim_string (or_empty (first_truthy (body_businessName req) (body_business_name req))).

(** [String(email).trim().toLowerCase()] on a string. *)
Definition clean_email (email : string) : string := lower_string (trim_string email).

(** [POST /api/analyze]. *)
Definition post_api_analyze (pf : Platform) (cfg : Config) (req : AnalyzeRequest)
    : prog Response :=
  let finalBusinessName := final_business_name req in
  match body_email req, body_website req with
  | Some email, Some website =>
      if is_blank email || is_blank website then
        Ret (error_response 400 "Website and email are required.")
      else
        let cleanEmail := clean_email email in
        if negb (isValidEmailFormat cleanEmail) then
          Ret (error_response 400 "Invalid email. Please enter a real email address.")
        else
          await hasMx <- emailHasMx cleanEmail in
          if negb hasMx then
            Ret (error_response 400
                   "That email domain cannot receive email. Please use a real email.")
          else
            match normalizeUrl pf website with
            | None => Ret (error_response 400 "Invalid website URL.")
            | Some normalized =>
                if is_blank normalized then
                  Ret (error_response 400 "Invalid website URL.")
                else
                  let urlHash := hashString normalized in
                  SelectReport urlHash (fun looked_up =>
                    match looked_up with
                    | SelectThrown message => Ret (error_response 500 message)
                    | SelectFailed message => Ret (error_response 500 message)
                    | Found cachedReport =>
                        on_cache_hit pf cfg req cleanEmail finalBusinessName website
                                     normalized urlHash cachedReport
                    | NotFound =>
                        on_cache_miss pf cfg req cleanEmail finalBusinessName website
                                      normalized urlHash
                    end)
            end
  | _, _ => Ret (error_response 400 "Website and email are required.")
  end.

(** ** The environment of a request

    The reports table has a unique index on [url_hash]; leads and events
    are appended; [outbox] collects the mail that was accepted. An
    environment says what the resolver answers and which client calls go
    wrong ([Done] stands for a call that works). *)

Record World : Type := {
  reports : gmap string Report;
  leads : list Lead;
  events : list Event;
  outbox : list Email
}.

Record Env : Type := {
  resolveMx : string -> mx_answer;
  select_outcome : outcome;
  insert_report_outcome : outcome;
  insert_lead_outcome : outcome;
  insert_event_outcome : outcome;
  send_outcome : outcome
}.

Inductive Call : Type :=
| CResolveMx (mx_host : string)
| CSelectReport (urlHash : string)
| CInsertReport (row : Report)
| CInsertLead (row : Lead)
| CInsertEvent (row : Event)
| CSendEmail (message : Email).

Definition is_write (c : Call) : bool :=
  match c with
  | CInsertReport _ | CInsertLead _ | CInsertEvent _ => true
  | _ => false
  end.

Definition is_report_write (c : Call) : bool :=
  match c with CInsertReport _ => true | _ => false end.

Definition is_send (c : Call) : bool :=
  match c with CSendEmail _ => true | _ => false end.

Definition conflict_message : string :=
  "duplicate key value violates unique constraint".

Definition select_report (env : Env) (w : World) (urlHash : string) : select_answer :=
  match select_outcome env with
  | Done => match reports w !! urlHash with
            | Some row => Found row
            | None => NotFound
            end
  | Failed message => SelectFailed message
  | Thrown message => SelectThrown message
  end.

Definition insert_report (env : Env) (w : World) (row : Report) : outcome * World :=
  match insert_report_outcome env with
  | Done =>
      match reports w !! url_hash row with
      | Some _ => (Failed conflict_message, w)
      | None =>
          (Done, {| reports := <[url_hash row := row]> (reports w);
                    leads := leads w; events := events w; outbox := outbox w |})
      end
  | failure => (failure, w)
  end.

Definition insert_lead (env : Env) (w : World) (row : Lead) : outcome * World :=
  match insert_lead_outcome env with
  | Done => (Done, {| reports := reports w; leads := leads w ++ [row];
                      events := events w; outbox := outbox w |})
  | failure => (failure, w)
  end.

Definition insert_event (env : Env) (w : World) (row : Event) : outcome * World :=
  match insert_event_outcome env with
  | Done => (Done, {| reports := reports w; leads := leads w;
                      events := events w ++ [row]; outbox := outbox w |})
  | failure => (failure, w)
  end.

Definition send_email (env : Env) (w : World) (message : Email) : outcome * World :=
  match send_outcome env with
  | Done => (Done, {| reports := reports w; leads := leads w;
                      events := events w; outbox := outbox w ++ [message] |})
  | failure => (failure, w)
  end.

(** One awaited call: the rest of the function, the world after the call,
    and the call that was made. A finished function does not move. *)
Definition step {A : Type} (env : Env) (p : prog A) (w : World)
  : prog A * World * list Call :=
  match p with
  | Ret a => (p, w, [])
  | ResolveMx d k => (k (resolveMx env d), w, [CResolveMx d])
  | SelectReport h k => (k (select_report env w h), w, [CSelectReport h])
  | InsertReport r k =>
      let '(o, w') := insert_report env w r in (k o, w', [CInsertReport r])
  | InsertLead r k =>
      let '(o, w') := insert_lead env w r in (k o, w', [CInsertLead r])
  | InsertEvent r k =>
      let '(o, w') := insert_event env w r in (k o, w', [CInsertEvent r])
  | SendEmail m k =>
      let '(o, w') := send_email env w m in (k o, w', [CSendEmail m])
  end.

(** A request that runs alone, to its end: the result, the world it
    leaves, and the calls it made, in order. *)
Fixpoint run {A : Type} (env : Env) (p : prog A) (w : World)
  : A * World * list Call :=
  match p with
  | Ret a => (a, w, [])
  | ResolveMx d k =>
      let '(a, w', log) := run env (k (resolveMx env d)) w in
      (a, w', CResolveMx d :: log)
  | SelectReport h k =>
      let '(a, w', log) := run env (k (select_report env w h)) w in
      (a, w', CSelectReport h :: log)
  | InsertReport r k =>
      let '(o, w1) := insert_report env w r in
      let '(a, w', log) := run env (k o) w1 in (a, w', CInsertReport r :: log)
  | InsertLead r k =>
      let '(o, w1) := insert_lead env w r in
      let '(a, w', log) := run env (k o) w1 in (a, w', CInsertLead r :: log)
  | InsertEvent r k =>
      let '(o, w1) := insert_event env w r in
      let '(a, w', log) := run env (k o) w1 in (a, w', CInsertEvent r :: log)
  | SendEmail m k =>
      let '(o, w1) := send_email env w m in
      let '(a, w', log) := run env (k o) w1 in (a, w', CSendEmail m :: log)
  end.

(** The first [n] awaited calls of a request. *)
Fixpoint steps {A : Type} (n : nat) (env : Env) (p : prog A) (w : World)
  : prog A * World :=
  match n with
  | O => (p, w)
  | S n' => let '(p', w', _) := step env p w in steps n' env p' w'
  end.

(** Two requests in flight on one world: the schedule says whose awaited
    call is served next ([true] for the first request). *)
Fixpoint interleave {A : Type} (env : Env) (schedule : list bool)
    (p q : prog A) (w : World) : prog A * prog A * World :=
  match schedule with
  | [] => (p, q, w)
  | true :: rest =>
      let '(p', w', _) := step env p w in interleave env rest p' q w'
  | false :: rest =>
      let '(q', w', _) := step env q w in interleave env rest p q' w'
  end.

Definition result_of {A : Type} (p : prog A) : option A :=
  match p with Ret a => Some a | _ => None end.

Definition quiet_env (mx : string -> mx_answer) : Env :=
  {| resolveMx := mx; select_outcome := Done; insert_report_outcome := Done;
     insert_lead_outcome := Done; insert_event_outcome := Done;
     send_outcome := Done |}.

Definition empty_world : World :=
  {| reports := ∅; leads := []; events := []; outbox := [] |}.

(** A request that passes the validation of [POST /api/analyze] and so
    reaches the cache lookup: both fields present, the email well formed,
    its domain with at least one MX record, the website normalized to a
    non-empty domain. *)
Definition reaches_lookup (pf : Platform) (env : Env) (req : AnalyzeRequest)
    (email website normalized : string) : Prop :=
  body_email req = Some email /\ body_website req = Some website /\
  is_blank email = false /\ is_blank website = false /\
  isValidEmailFormat (clean_email email) = true /\
  (exists d n, mx_domain (clean_email email) = Some d /\
               resolveMx env d = MxRecords (S n)) /\
  normalizeUrl pf website = Some normalized /\ is_blank normalized = false.

(** The email of a request can be rendered: mail is not configured, so
    that nothing is rendered, or the tracked link can be built on
    [PUBLIC_BACKEND_URL]. *)
Definition renders (pf : Platform) (cfg : Config) : Prop :=
  resend cfg = false \/ is_blank (EMAIL_FROM cfg) = true \/
  exists href, buildTrackedUrl pf cfg = UrlOk href.

(** Mail is configured. *)
Definition mail_on (cfg : Config) : bool :=
  resend cfg && negb (is_blank (EMAIL_FROM cfg)).

(** The rendering of the email throws: mail is configured and the URL
    constructor rejects "/r" on [PUBLIC_BACKEND_URL], with this message. *)
Definition render_failed (pf : Platform) (cfg : Config) (message : string) : Prop :=
  mail_on cfg = true /\ buildTrackedUrl pf cfg = UrlThrown message.

(** How a request ends once its lead is written: with 200 and the report,
    or, when the rendering of the email throws, with 500 and the message
    of the exception, no email having been sent. *)
Definition answered (pf : Platform) (cfg : Config) (resp : Response) (cached : bool)
    (r : Report) (sends : list Call) : Prop :=
  resp = Json 200 (ReportBody cached r) \/
  exists message, resp = error_response 500 message /\ sends = [] /\
                  render_failed pf cfg message.

(** Cents of a price after a percentage discount, in exact arithmetic:
    base * (1 - percent/100), rounded half up to two decimals. *)
Definition half_up_cents (base percent : Z) : Z :=
  Qfloor (inject_Z base * (1 - inject_Z percent / 100) * 100 + (1 # 2))%Q.

Definition base_price (t : Tier) : Z :=
  match t with Starter => 299 | Business => 499 | Premium => 899 end.

(** ** Notions used in the statements *)

(** The tier of an integer score, by the thresholds of the spec. *)
Definition tier_of_integer (i : Z) : Tier :=
  if (85 <=? i)%Z then Starter else if (60 <=? i)%Z then Business else Premium.

(** The integers from -1000 to 1000. *)
Definition integer_scores : list Z := map (fun n => (Z.of_nat n - 1000)%Z) (seq 0 2001).

(** The row that [GET /r] hands to [logEvent]. *)
Definition redirect_event (req : RedirectRequest) : Event :=
  {| event_type := (let e := safeString (query_e req) in
                    if is_blank e then "click" else e);
     event_email := None;
     event_url_hash := or_none (safeString (query_h req));
     event_domain := or_none (safeString (query_d req));
     event_recommended_tier := or_none (safeString (query_t req));
     meta := Some {| user_agent := match header_user_agent req with
                                   | Some s => or_none s | None => None end;
                     referer := match header_referer req with
                                | Some s => or_none s | None => None end |} |}.



(** *** Sample values *)

Definition sample_config : Config :=
  {| resend := true; EMAIL_FROM := "Beacon AI <support@shorelinedevco.com>";
     INTERNAL_BCC_EMAIL := "support@shorelinedevco.com";
     PUBLIC_BACKEND_URL := "http://localhost:3001" |}.


(** A platform for the examples. It answers as Node does on what the
    examples ask: "/r" on the base "http://localhost:3001" is a URL, and
    on "localhost:3001", which the parser reads as a scheme and an opaque
    path, the constructor throws; "[::1]" is the one host beyond the model
    that the examples use. *)
Definition sample_platform : Platform :=
  {| host_beyond_model :=
       fun input => if bool_decide (input = lit "[::1]") then Some (lit "[::1]") else None;
     new_URL :=
       fun input base =>
         if bool_decide (input = "/r") && bool_decide (base = "http://localhost:3001")
         then UrlOk "http://localhost:3001/r"
         else UrlThrown "Invalid URL" |}.

Definition sample_request (refresh : js_scalar) : AnalyzeRequest :=
  {| body_name := Some "Ann"; body_email := Some " Ann@Example.org ";
     body_website := Some "https://WWW.Example.com/pricing";
     body_businessName := Some "Ann's Bakery"; body_business_name := None;
     body_refresh := refresh |}.

Definition stored_report : Report :=
  {| url_hash := (hashString "example.com"); domain := "example.com";
     score := JNum 91; summary := Some "Fast and clear." |}.

Definition world_with_report : World :=
  {| reports := {[ (hashString "example.com") := stored_report ]};
     leads := []; events := []; outbox := [] |}.

Definition lead_store_down : Env :=
  {| resolveMx := fun _ => MxRecords 1; select_outcome := Done;
     insert_report_outcome := Done;
     insert_lead_outcome := Thrown "fetch failed";
     insert_event_outcome := Done; send_outcome := Done |}.

(** ** HTML escaping *)

Definition double_quote : ascii := ascii_of_nat 34.

(** [text.replace(/c/g, replacement)] for one literal character [c]: every
    occurrence is replaced, from left to right, and the replacement text is
    not scanned again. *)
Definition replace_all (c : ascii) (replacement : chars) (text : chars) : chars :=
  flat_map (fun x => if Ascii.eqb x c then replacement else [x]) text.

(** [escapeHtml]: five replacements, one after the other, the one of "&"
    first. *)
Definition escapeHtml_chars (text : chars) : chars :=
  replace_all "'" (lit "&#039;")
    (replace_all double_quote (lit "&quot;")
       (replace_all ">" (lit "&gt;")
          (replace_all "<" (lit "&lt;")
             (replace_all "&" (lit "&amp;") text)))).

(** [escapeHtml(str)] on a string or a missing value ([str ?? ""]). *)
Definition escapeHtml (v : option string) : string :=
  str (escapeHtml_chars (lit (or_empty v))).

(** The entity that stands for one character of the source text. *)
Definition entity (c : ascii) : chars :=
  if Ascii.eqb c "&" then lit "&amp;"
  else if Ascii.eqb c "<" then lit "&lt;"
  else if Ascii.eqb c ">" then lit "&gt;"
  else if Ascii.eqb c double_quote then lit "&quot;"
  else if Ascii.eqb c "'" then lit "&#039;"
  else [c].

(** The characters that open or close a tag or an attribute value. *)
Definition is_markup_char (c : ascii) : bool :=
  is_char "<" c || is_char ">" c || is_char double_quote c || is_char "'" c.

(** A digit of lowercase hexadecimal. *)
Definition is_lower_hex (c : ascii) : bool := is_ascii_digit c || in_range 97 102 c.

(** ** Notions used in the statements about whole runs *)

(** A lead row that is the snapshot of a report, for an email and a
    normalized domain, with the recommendation made from that report. *)
Definition lead_snapshot (row : Lead) (email normalized : string) (r : Report) : Prop :=
  lead_email row = email /\ lead_domain row = normalized /\
  lead_url_hash row = hashString normalized /\
  lead_score row = or_null (score r) /\ lead_summary row = summary r /\
  recommended_tier row = Some (tier (recommendPackageFromReport (Some r))) /\
  recommended_discounted_price row
  = discountedPrice (recommendPackageFromReport (Some r)) /\
  discount_code row = Some "BEACON15" /\
  is_blank (business_name row) = false.

(** The names on a lead row, made from the business name and the contact
    name of a request. *)
Definition lead_names (row : Lead) (businessName : string) (name : option string) : Prop :=
  business_name row
  = (if is_blank (trim_string businessName) then "Unknown Business"
     else trim_string businessName) /\
  contact_name row = or_none (trim_string (or_empty name)).

(** Why a request is turned away with 400: the message, what was wrong
    with the request, and what was right with it up to there. The checks
    run in this order: both fields present and not empty, the format of
    the cleaned email, the MX records of its domain, the website. *)
Definition rejection_cause (pf : Platform) (env : Env) (req : AnalyzeRequest)
    (message : string) : Prop :=
  (message = "Website and email are required." /\
   is_blank (or_empty (body_email req)) || is_blank (or_empty (body_website req)) = true)
  \/ (exists email website,
        body_email req = Some email /\ is_blank email = false /\
        body_website req = Some website /\ is_blank website = false /\
        ((message = "Invalid email. Please enter a real email address." /\
          isValidEmailFormat (clean_email email) = false)
         \/ (isValidEmailFormat (clean_email email) = true /\
             exists d, mx_domain (clean_email email) = Some d /\
               ((message = "That email domain cannot receive email. Please use a real email." /\
                 (resolveMx env d = MxRecords 0 \/ resolveMx env d = MxThrown))
                \/ (message = "Invalid website URL." /\
                    (exists n, resolveMx env d = MxRecords (S n)) /\
                    (normalizeUrl pf website = None \/
                     normalizeUrl pf website = Some EmptyString)))))).

(** The calls made for the email of a request: none, and the outbox is as
    before; or one send, of the given report to the given address, with
    mail configured, that reaches the outbox when the send works. *)
Definition mail_sent (env : Env) (cfg : Config) (to_ : string) (r : Report)
    (sends : list Call) (before after : list Email) : Prop :=
  (sends = [] /\ after = before) \/
  exists m, sends = [CSendEmail m] /\ to m = to_ /\ body_report m = r /\
            from m = EMAIL_FROM cfg /\
            resend cfg = true /\ is_blank (EMAIL_FROM cfg) = false /\
            after = match send_outcome env with
                    | Done => before ++ [m]
                    | _ => before
                    end.

(** Every row of the reports table is stored under its own fingerprint,
    which is the hash of its domain. *)
Definition fingerprinted (w : World) : Prop :=
  forall k r, reports w !! k = Some r ->
              url_hash r = k /\ k = hashString (domain r).

Definition is_lead_write (c : Call) : bool :=
  match c with CInsertLead _ => true | _ => false end.

(** The whole numbers from 0 to [n], and the test that the discounted
    price of a whole price at a whole percent is the exact amount of
    cents, price * (100 - percent), over 100. *)
Definition whole_amounts (n : nat) : list Z := map Z.of_nat (seq 0 (S n)).

Definition discount_is_exact (p d : Z) : bool :=
  match calcDiscountedPrice (float_of_Z p) (float_of_Z d) with
  | Some x => PrimFloat.Leibniz.eqb x (float_of_Z (p * (100 - d)) / 100)%float
  | None => false
  end.

(** ** The page: the pure helpers of [App.jsx] *)

Module Ui.

(** [normalizeWebsite(input)]. *)
Definition normalizeWebsite (input : string) : string :=
  let value := trim (lit input) in
  if is_empty value then EmptyString
  else if startsWith value (lit "http://") || startsWith value (lit "https://")
       then str value
       else str (lit "https://" ++ value).

(** [isValidEmail(value)]: the expression of the server, on the trimmed
    value. *)
Definition isValidEmail (value : string) : bool :=
  let email := trim (lit value) in
  let local_part := take_while not_space_at email in
  match drop_while not_space_at email with
  | c :: domain_part =>
      is_char "@" c && negb (is_empty local_part)
      && forallb not_space_at domain_part && has_inner_dot domain_part
  | [] => false
  end.

(** The object that the page keeps in [result], as far as [buildIssues]
    reads it: two texts that may be missing, and a count that is a number,
    [null] or missing. *)
Record Result : Type := {
  title : option string;
  meta_description : option string;
  h1_count : js_scalar
}.

Inductive IssueKey : Type :=
| title_missing | meta_missing | h1_unknown | h1_missing | h1_multiple.

Inductive Severity : Type := high | medium | low.

(** The label of an issue: a fixed text, or the template of [h1_multiple]
    with the count it shows. *)
Inductive IssueLabel : Type :=
| Fixed (text : string)
| MultipleH1 (count : float).

Record Issue : Type := {
  key : IssueKey;
  label : IssueLabel;
  severity : Severity
}.

Definition key_eqb (a b : IssueKey) : bool :=
  match a, b with
  | title_missing, title_missing | meta_missing, meta_missing
  | h1_unknown, h1_unknown | h1_missing, h1_missing | h1_multiple, h1_multiple => true
  | _, _ => false
  end.

(** [buildIssues(report)]. *)
Definition buildIssues (report : Result) : list Issue :=
  let title_ := trim (lit (or_empty (title report))) in
  let meta_ := trim (lit (or_empty (meta_description report))) in
  let h1Raw := h1_count report in
  let h1 := Number h1Raw in
  (if is_empty title_
   then [{| key := title_missing; label := Fixed "Missing page title (<title>)";
            severity := high |}]
   else [])
  ++ (if is_empty meta_
      then [{| key := meta_missing; label := Fixed "Missing meta description";
               severity := medium |}]
      else [])
  ++ (if match h1Raw with JNull | JUndefined => true | _ => false end || is_nan h1
      then [{| key := h1_unknown; label := Fixed "Could not detect H1 count";
               severity := low |}]
      else if (h1 =? 0)%float
      then [{| key := h1_missing;
               label := Fixed "No H1 found (add one clear page headline)";
               severity := high |}]
      else if (1 <? h1)%float
      then [{| key := h1_multiple; label := MultipleH1 h1; severity := medium |}]
      else []).

(** [scoreFromIssues(issues)]. The running score is an integer; it is
    exact as a JavaScript number for every list of fewer than 2^48
    issues. *)
Definition scoreFromIssues (issues : list Issue) : Z :=
  let score :=
    fold_left (fun score i =>
                 match severity i with
                 | high => score - 20
                 | medium => score - 10
                 | low => score - 5
                 end)%Z
              issues 100%Z in
  Z.max 0 (Z.min 100 score).

Record ScoreInfo : Type := {
  text : string;
  tone : string
}.

(** [scoreLabel(score)]. *)
Definition scoreLabel (score : Z) : ScoreInfo :=
  if (90 <=? score)%Z then {| text := "Excellent"; tone := "good" |}
  else if (70 <=? score)%Z then {| text := "Good"; tone := "ok" |}
  else if (50 <=? score)%Z then {| text := "Needs Work"; tone := "warn" |}
  else {| text := "High Priority"; tone := "bad" |}.

Record Suggestion : Type := {
  name : string;
  reason : string;
  bullets : list string
}.

(** [recommendPackage(bn, score, issues)]. *)
Definition recommendPackage (bn : string) (score : Z) (issues : list Issue) : Suggestion :=
  let has := fun k => existsb (fun i => key_eqb (key i) k) issues in
  if (length issues =? 0)%nat && (95 <=? score)%Z then
    {| name := "Growth + Performance Tune Up";
       reason := "Your site for " +:+ bn +:+
                 " looks strong on the basics. Next wins usually come from speed, conversion clarity, and advanced SEO.";
       bullets := ["Speed and performance improvements";
                   "Conversion focused CTA and layout tweaks";
                   "Advanced SEO and tracking setup"] |}
  else if has title_missing || has meta_missing then
    {| name := "SEO Starter Fix Pack";
       reason := "Your site is missing key on page SEO fundamentals that help search engines understand and rank your pages.";
       bullets := ["Write or improve titles and meta descriptions";
                   "Heading structure cleanup (H1, H2, H3)";
                   "Basic technical SEO checks"] |}
  else if has h1_missing || has h1_multiple || has h1_unknown then
    {| name := "Content + Structure Cleanup";
       reason := "Your heading structure needs cleanup so visitors and search engines can understand the page quickly.";
       bullets := ["Add a clear main headline (single H1)";
                   "Improve section headings (H2, H3)";
                   "Tighten layout for clarity"] |}
  else
    {| name := "Website Improvement Audit";
       reason := "We found opportunities to improve performance, SEO, and conversion clarity. A short audit will tell us the best next move.";
       bullets := ["Quick technical review";
                   "Top 5 highest impact fixes";
                   "Recommended plan and package"] |}.

(** The four fields of the form; [contact] is the state [name]. *)
Record Form : Type := {
  website : string;
  businessName : string;
  contact : string;
  email : string
}.

(** What [runAnalysis] does with the form: it shows a message, or posts a
    body to [/api/analyze]. *)
Inductive Submission : Type :=
| ShowError (message : string)
| Post (payload : AnalyzeRequest).

(** [runAnalysis({ refresh })], up to the request. The body is made of
    [name], [email], [website] and [refresh]; the business name is not in
    it. *)
Definition runAnalysis (form : Form) (refresh : bool) : Submission :=
  let bn := trim_string (businessName form) in
  let em := trim_string (email form) in
  let normalizedWebsite := normalizeWebsite (website form) in
  if is_blank normalizedWebsite then ShowError "Website is required."
  else if is_blank bn then ShowError "Business name is required."
  else if is_blank em then ShowError "Email is required."
  else if negb (isValidEmail em) then ShowError "Please enter a valid email address."
  else Post {| body_name := Some (contact form);
               body_email := Some em;
               body_website := Some normalizedWebsite;
               body_businessName := None;
               body_business_name := None;
               body_refresh := JBool refresh |}.

End Ui.

(* ===================================================================== *)
(** * Part II: properties                                                 *)
(* ===================================================================== *)

(** ** Characters: facts checked on all 256 code units *)

Ltac each_char c :=
  destruct c as [[|] [|] [|] [|] [|] [|] [|] [|]]; vm_compute;
  try reflexivity; try discriminate; try (intros; discriminate);
  try (intros; reflexivity); auto.

Lemma lower_idem c : ascii_lowercase_char (ascii_lowercase_char c) = ascii_lowercase_char c.
Proof. each_char c. Qed.


Lemma case_ascii : class_respects_case is_ascii_code_point.
Proof. intros c. each_char c. Qed.
Lemma case_alpha : class_respects_case is_ascii_alpha.
Proof. intros c. each_char c. Qed.
Lemma case_forbidden : class_respects_case Url.is_forbidden_domain_code_point.
Proof. intros c. each_char c. Qed.

(** ** Lists of characters *)

Section MapClass.
Variable f : ascii -> ascii.
Variable p : ascii -> bool.
Hypothesis Hp : forall c, p (f c) = p c.

Lemma drop_while_map l : drop_while p (map f l) = map f (drop_while p l).
Proof using Hp.
  induction l as [|c l IH]; [reflexivity|]. cbn. rewrite Hp.
  destruct (p c); [exact IH|reflexivity].
Qed.

Lemma take_while_map l : take_while p (map f l) = map f (take_while p l).
Proof using Hp.
  induction l as [|c l IH]; [reflexivity|]. cbn. rewrite Hp.
  destruct (p c); [cbn; now rewrite IH|reflexivity].
Qed.

Lemma drop_while_end_map l : drop_while_end p (map f l) = map f (drop_while_end p l).
Proof using Hp.
  unfold drop_while_end. now rewrite <- map_rev, drop_while_map, map_rev.
Qed.


Lemma forallb_map_class l : forallb p (map f l) = forallb p l.
Proof using Hp.
  induction l as [|c l IH]; [reflexivity|]. cbn. now rewrite Hp, IH.
Qed.

Lemma existsb_map_class l : existsb p (map f l) = existsb p l.
Proof using Hp.
  induction l as [|c l IH]; [reflexivity|]. cbn. now rewrite Hp, IH.
Qed.
End MapClass.

Lemma is_empty_map (f : ascii -> ascii) l : is_empty (map f l) = is_empty l.
Proof. now destruct l. Qed.

Lemma is_empty_true l : is_empty l = true -> l = [].
Proof. now destruct l. Qed.

Lemma is_empty_app_cons l (c : ascii) : is_empty (l ++ [c]) = false.
Proof. now destruct l. Qed.

Lemma drop_while_app_last (p : ascii -> bool) l c :
  p c = false -> drop_while p (l ++ [c]) = drop_while p l ++ [c].
Proof.
  intros Hc. induction l as [|a l IH]; cbn; [now rewrite Hc|].
  destruct (p a); [exact IH|reflexivity].
Qed.

Lemma drop_while_end_keep (p : ascii -> bool) c l :
  p c = false -> drop_while_end p (c :: l) = c :: drop_while_end p l.
Proof.
  intros Hc. unfold drop_while_end. cbn [rev].
  rewrite drop_while_app_last by exact Hc. now rewrite rev_app_distr.
Qed.

Lemma drop_while_end_app_keep (p : ascii -> bool) l1 c l2 :
  p c = false -> drop_while_end p (l1 ++ c :: l2) = l1 ++ c :: drop_while_end p l2.
Proof.
  intros Hc. unfold drop_while_end.
  rewrite rev_app_distr. cbn [rev]. rewrite <- app_assoc. cbn [app].
  assert (H : forall x y, drop_while p (x ++ c :: y) = drop_while p x ++ c :: y).
  { intros x y. induction x as [|a x IH]; cbn; [now rewrite Hc|].
    destruct (p a); [exact IH|reflexivity]. }
  rewrite H, rev_app_distr. cbn [rev]. rewrite rev_involutive, <- app_assoc.
  reflexivity.
Qed.

Lemma drop_while_end_none (p : ascii -> bool) l :
  forallb (fun c => negb (p c)) l = true -> drop_while_end p l = l.
Proof.
  induction l as [|c l IH]; [reflexivity|]. cbn [forallb]. intros H.
  apply andb_prop in H as [Hc Hl]. apply negb_true_iff in Hc.
  rewrite drop_while_end_keep by exact Hc. now rewrite IH.
Qed.

Lemma drop_while_head (p : ascii -> bool) c l :
  p c = false -> drop_while p (c :: l) = c :: l.
Proof. intros Hc. cbn. now rewrite Hc. Qed.




(** ** The URL parser does not look at letter case *)

Module UrlCase.
Import Url.

Section OnPlatform.
Variable pf : Platform.
















End OnPlatform.
End UrlCase.

Section Normalizer.
Variable pf : Platform.




Lemma hostname_http t : Url.hostname pf (lit "http://" ++ t) = after_scheme pf t.
Proof.
  unfold Url.hostname, Url.strip_c0_control_or_space, lit.
  cbn [list_ascii_of_string app].
  rewrite drop_while_head by reflexivity.
  rewrite !drop_while_end_keep by reflexivity.
  reflexivity.
Qed.

Lemma hostname_https t : Url.hostname pf (lit "https://" ++ t) = after_scheme pf t.
Proof.
  unfold Url.hostname, Url.strip_c0_control_or_space, lit.
  cbn [list_ascii_of_string app].
  rewrite drop_while_head by reflexivity.
  rewrite !drop_while_end_keep by reflexivity.
  reflexivity.
Qed.

Lemma normalizeUrl_chars_unfold l :
  normalizeUrl_chars pf l
  = if is_empty (trim l) then None
    else finish (Url.hostname pf (if test_http_scheme (trim l) then trim l
                               else lit "https://" ++ trim l)).
Proof. reflexivity. Qed.

Lemma trim_http b :
  trim (lit "http://" ++ b) = lit "http://" ++ drop_while_end is_js_whitespace b.
Proof.
  unfold trim, lit. cbn [list_ascii_of_string app].
  rewrite drop_while_head by reflexivity.
  now rewrite !drop_while_end_keep by reflexivity.
Qed.

Lemma trim_https b :
  trim (lit "https://" ++ b) = lit "https://" ++ drop_while_end is_js_whitespace b.
Proof.
  unfold trim, lit. cbn [list_ascii_of_string app].
  rewrite drop_while_head by reflexivity.
  now rewrite !drop_while_end_keep by reflexivity.
Qed.

Lemma normalize_http b :
  normalizeUrl_chars pf (lit "http://" ++ b)
  = finish (after_scheme pf (drop_while_end is_js_whitespace b)).
Proof.
  rewrite normalizeUrl_chars_unfold, trim_http.
  change (is_empty (lit "http://" ++ _)) with false.
  change (test_http_scheme (lit "http://" ++ drop_while_end is_js_whitespace b)) with true.
  cbv iota. now rewrite hostname_http.
Qed.

Lemma normalize_https b :
  normalizeUrl_chars pf (lit "https://" ++ b)
  = finish (after_scheme pf (drop_while_end is_js_whitespace b)).
Proof.
  rewrite normalizeUrl_chars_unfold, trim_https.
  change (is_empty (lit "https://" ++ _)) with false.
  change (test_http_scheme (lit "https://" ++ drop_while_end is_js_whitespace b)) with true.
  cbv iota. now rewrite hostname_https.
Qed.



(** ** Hosts without special characters *)

Section HostChars.
Variable c : ascii.
Hypothesis Hc : host_char c = true.

Lemma host_char_not_ws : is_js_whitespace c = false.
Proof using Hc. revert Hc. each_char c. Qed.
Lemma host_char_not_c0 : Url.is_c0_control_or_space c = false.
Proof using Hc. revert Hc. each_char c. Qed.
Lemma host_char_not_tab : Url.is_ascii_tab_or_newline c = false.
Proof using Hc. revert Hc. each_char c. Qed.
Lemma host_char_not_slash : Url.is_slash c = false.
Proof using Hc. revert Hc. each_char c. Qed.
Lemma host_char_not_end : Url.is_authority_end c = false.
Proof using Hc. revert Hc. each_char c. Qed.
Lemma host_char_not_at : is_char "@" c = false.
Proof using Hc. revert Hc. each_char c. Qed.
Lemma host_char_not_colon : is_char ":" c = false.
Proof using Hc. revert Hc. each_char c. Qed.
Lemma host_char_not_open : is_char "[" c = false.
Proof using Hc. revert Hc. each_char c. Qed.
Lemma host_char_not_close : is_char "]" c = false.
Proof using Hc. revert Hc. each_char c. Qed.
Lemma host_char_not_percent : is_char "%" c = false.
Proof using Hc. revert Hc. each_char c. Qed.
Lemma host_char_ascii : is_ascii_code_point c = true.
Proof using Hc. revert Hc. each_char c. Qed.
Lemma host_char_not_forbidden : Url.is_forbidden_domain_code_point c = false.
Proof using Hc. revert Hc. each_char c. Qed.
Lemma host_char_js_lower : js_lowercase_char c = ascii_lowercase_char c.
Proof using Hc. revert Hc. each_char c. Qed.
End HostChars.

Section AuthorityEnd.
Variable c : ascii.
Hypothesis Hc : Url.is_authority_end c = true.

Lemma end_not_ws : is_js_whitespace c = false.
Proof using Hc. revert Hc. each_char c. Qed.
Lemma end_not_c0 : Url.is_c0_control_or_space c = false.
Proof using Hc. revert Hc. each_char c. Qed.
Lemma end_not_tab : Url.is_ascii_tab_or_newline c = false.
Proof using Hc. revert Hc. each_char c. Qed.
Lemma end_not_at : is_char "@" c = false.
Proof using Hc. revert Hc. each_char c. Qed.
Lemma end_not_colon : is_char ":" c = false.
Proof using Hc. revert Hc. each_char c. Qed.
Lemma end_not_alpha : is_ascii_alpha c = false.
Proof using Hc. revert Hc. each_char c. Qed.
End AuthorityEnd.


Lemma forallb_cons_inv (p : ascii -> bool) c l :
  forallb p (c :: l) = true -> p c = true /\ forallb p l = true.
Proof. cbn. intros H. now apply andb_prop in H. Qed.

Lemma forallb_negb (p q : ascii -> bool) l :
  (forall c, p c = true -> q c = false) ->
  forallb p l = true -> forallb (fun c => negb (q c)) l = true.
Proof.
  intros Hpq. induction l as [|c l IH]; [reflexivity|].
  intros H. apply forallb_cons_inv in H as [Hc Hl]. cbn.
  now rewrite (Hpq c Hc), IH.
Qed.

Lemma plain_host_inv h :
  plain_host h = true -> exists c h', h = c :: h' /\ host_char c = true /\ forallb host_char h' = true.
Proof.
  unfold plain_host. destruct h as [|c h']; [discriminate|]. cbn [is_empty negb andb].
  intros H. apply forallb_cons_inv in H as [Hc Hl]. eauto.
Qed.

Lemma plain_host_chars h : plain_host h = true -> forallb host_char h = true.
Proof. unfold plain_host. intros H. now apply andb_prop in H as [_ H]. Qed.

(** Stripping a class of characters that holds neither host characters
    nor authority ends leaves the host and the start of the rest. *)
Lemma strip_end_plain (p : ascii -> bool) h rest :
  (forall c, host_char c = true -> p c = false) ->
  (forall c, Url.is_authority_end c = true -> p c = false) ->
  forallb host_char h = true -> rest_ok rest = true ->
  exists rest', rest_ok rest' = true /\ drop_while_end p (h ++ rest) = h ++ rest'.
Proof.
  intros Hh He Hplain Hrest. destruct rest as [|c r].
  - exists []. split; [reflexivity|]. rewrite app_nil_r.
    apply drop_while_end_none, (forallb_negb host_char); assumption.
  - exists (c :: drop_while_end p r). split; [exact Hrest|].
    apply drop_while_end_app_keep, He, Hrest.
Qed.

Lemma remove_plain h rest :
  forallb host_char h = true -> rest_ok rest = true ->
  exists rest', rest_ok rest' = true /\ Url.remove_tab_or_newline (h ++ rest) = h ++ rest'.
Proof.
  intros Hplain Hrest. unfold Url.remove_tab_or_newline. rewrite List.filter_app.
  assert (Hh : List.filter (fun c => negb (Url.is_ascii_tab_or_newline c)) h = h).
  { clear Hrest. induction h as [|c h IH]; [reflexivity|].
    apply forallb_cons_inv in Hplain as [Hc Hl]. cbn.
    rewrite (host_char_not_tab c Hc). cbn. now rewrite IH. }
  rewrite Hh. destruct rest as [|c r].
  - exists []. auto.
  - exists (c :: List.filter (fun c => negb (Url.is_ascii_tab_or_newline c)) r).
    split; [exact Hrest|]. cbn. now rewrite (end_not_tab c Hrest).
Qed.

Lemma authority_state_plain h buffer rest :
  forallb host_char h = true -> rest_ok rest = true ->
  Url.authority_state false buffer (h ++ rest) = Some (buffer ++ h).
Proof.
  revert buffer. induction h as [|c h IH]; intros buffer Hplain Hrest.
  - rewrite app_nil_r. destruct rest as [|c r]; [reflexivity|]. cbn.
    rewrite (end_not_at c Hrest). cbn in Hrest. now rewrite Hrest.
  - apply forallb_cons_inv in Hplain as [Hc Hl]. cbn.
    rewrite (host_char_not_at c Hc), (host_char_not_end c Hc).
    rewrite IH by assumption. now rewrite <- app_assoc.
Qed.

Lemma host_state_plain h buffer :
  forallb host_char h = true -> is_empty (buffer ++ h) = false ->
  Url.host_state false buffer h = Some (buffer ++ h, None).
Proof.
  revert buffer. induction h as [|c h IH]; intros buffer Hplain Hne.
  - rewrite app_nil_r in *. cbn. now rewrite Hne.
  - apply forallb_cons_inv in Hplain as [Hc Hl]. cbn.
    rewrite (host_char_not_colon c Hc), (host_char_not_open c Hc),
            (host_char_not_close c Hc). cbn.
    rewrite IH; [now rewrite <- app_assoc|assumption|].
    rewrite <- app_assoc. exact Hne.
Qed.

Lemma after_scheme_plain h rest :
  plain_host h = true -> rest_ok rest = true ->
  after_scheme pf (h ++ rest) = Url.host_parser pf h.
Proof.
  intros Hplain Hrest. pose proof (plain_host_chars h Hplain) as Hchars.
  unfold after_scheme.
  destruct (strip_end_plain Url.is_c0_control_or_space h rest
              host_char_not_c0 end_not_c0 Hchars Hrest) as (r1 & Hr1 & ->).
  destruct (remove_plain h r1 Hchars Hr1) as (r2 & Hr2 & ->).
  destruct (plain_host_inv h Hplain) as (c & h' & -> & Hc & Hh').
  cbn [app]. rewrite drop_while_head by (apply host_char_not_slash, Hc).
  unfold Url.authority_hostname.
  change (c :: h' ++ r2) with ((c :: h') ++ r2).
  rewrite authority_state_plain by assumption. cbn [app].
  rewrite (host_state_plain (c :: h') []) by (assumption || reflexivity).
  cbn [app]. destruct (Url.host_parser pf (c :: h')); reflexivity.
Qed.

Lemma percent_decode_plain h :
  forallb host_char h = true -> Url.percent_decode h = h.
Proof.
  induction h as [|c h IH]; [reflexivity|]. intros H.
  apply forallb_cons_inv in H as [Hc Hl]. cbn.
  rewrite (host_char_not_percent c Hc). now rewrite IH.
Qed.

(** A plain host is a host of the model unless one of its labels starts
    with "xn--". *)
Lemma host_in_model_plain h :
  plain_host h = true ->
  Url.host_in_model h = negb (Url.has_xn_label (ascii_lowercase h)).
Proof.
  intros Hplain. pose proof (plain_host_chars h Hplain) as Hchars.
  destruct (plain_host_inv h Hplain) as (c & h' & Hh & Hc & Hh').
  unfold Url.host_in_model.
  assert (Hopen : starts_with (lit "[") h = false).
  { subst h. unfold lit. cbn [list_ascii_of_string starts_with].
    rewrite Ascii.eqb_sym. change (Ascii.eqb c "[") with (is_char "[" c).
    now rewrite (host_char_not_open c Hc). }
  rewrite Hopen, (percent_decode_plain h Hchars).
  assert (Hascii : forallb is_ascii_code_point h = true).
  { clear -Hchars. induction h as [|a h IH]; [reflexivity|].
    apply forallb_cons_inv in Hchars as [Ha Hl]. cbn [forallb].
    now rewrite (host_char_ascii a Ha), IH. }
  now rewrite Hascii.
Qed.

Lemma host_parser_plain h :
  plain_host h = true -> Url.has_xn_label (ascii_lowercase h) = false ->
  Url.host_parser pf h
  = if Url.ends_in_a_number (ascii_lowercase h)
    then option_map Url.ipv4_serializer (Url.ipv4_parser (ascii_lowercase h))
    else Some (ascii_lowercase h).
Proof.
  intros Hplain Hxn. pose proof (plain_host_chars h Hplain) as Hchars.
  destruct (plain_host_inv h Hplain) as (c & h' & Hh & Hc & Hh').
  unfold Url.host_parser.
  rewrite (host_in_model_plain h Hplain), Hxn. cbn [negb].
  rewrite (percent_decode_plain h Hchars).
  unfold ascii_lowercase at 1. rewrite is_empty_map.
  assert (Hne : is_empty h = false) by (subst h; reflexivity). rewrite Hne.
  unfold ascii_lowercase at 1.
  rewrite (existsb_map_class _ _ case_forbidden).
  assert (Hforb : existsb Url.is_forbidden_domain_code_point h = false).
  { clear -Hchars. induction h as [|a h IH]; [reflexivity|].
    apply forallb_cons_inv in Hchars as [Ha Hl]. cbn [existsb].
    now rewrite (host_char_not_forbidden a Ha), IH. }
  now rewrite Hforb.
Qed.

(** A URL with an http scheme has ":" right after its leading letters. *)
Lemma ci_eq_alpha a c :
  is_ascii_alpha a = true ->
  Ascii.eqb (ascii_lowercase_char a) (ascii_lowercase_char c) = true ->
  is_ascii_alpha c = true.
Proof.
  intros Ha He. apply Ascii.eqb_eq in He.
  now rewrite <- (case_alpha c), <- He, case_alpha.
Qed.

Lemma ci_eq_colon c :
  Ascii.eqb (ascii_lowercase_char ":") (ascii_lowercase_char c) = true -> c = ":"%char.
Proof. each_char c. Qed.

Lemma test_http_scheme_colon url :
  test_http_scheme url = true ->
  exists r, drop_while is_ascii_alpha url = ":"%char :: r.
Proof.
  unfold test_http_scheme, lit. cbn [list_ascii_of_string].
  intros H. apply orb_prop in H as [H|H].
  - destruct url as [|c1 [|c2 [|c3 [|c4 [|c5 r]]]]];
      cbn [starts_with_ci] in H; rewrite ?andb_false_r in H; try discriminate H.
    repeat (apply andb_prop in H as [?H H]).
    cbn [drop_while].
    rewrite (ci_eq_alpha "h" c1), (ci_eq_alpha "t" c2), (ci_eq_alpha "t" c3),
            (ci_eq_alpha "p" c4) by (reflexivity || assumption).
    rewrite (ci_eq_colon c5) by assumption. cbn. eauto.
  - destruct url as [|c1 [|c2 [|c3 [|c4 [|c5 [|c6 r]]]]]];
      cbn [starts_with_ci] in H; rewrite ?andb_false_r in H; try discriminate H.
    repeat (apply andb_prop in H as [?H H]).
    cbn [drop_while].
    rewrite (ci_eq_alpha "h" c1), (ci_eq_alpha "t" c2), (ci_eq_alpha "t" c3),
            (ci_eq_alpha "p" c4), (ci_eq_alpha "s" c5) by (reflexivity || assumption).
    rewrite (ci_eq_colon c6) by assumption. cbn. eauto.
Qed.

Lemma test_http_scheme_plain h rest :
  forallb host_char h = true -> rest_ok rest = true ->
  test_http_scheme (h ++ rest) = false.
Proof.
  intros Hplain Hrest.
  destruct (test_http_scheme (h ++ rest)) eqn:Ht; [|reflexivity]. exfalso.
  apply test_http_scheme_colon in Ht as [r Hr].
  induction h as [|c h IH].
  - destruct rest as [|c rest]; [discriminate|]. cbn in Hr.
    rewrite (end_not_alpha c Hrest) in Hr. injection Hr as -> _.
    discriminate Hrest.
  - apply forallb_cons_inv in Hplain as [Hc Hl]. cbn in Hr.
    destruct (is_ascii_alpha c); [now apply IH|].
    injection Hr as -> _. discriminate Hc.
Qed.

Lemma trim_plain h rest :
  plain_host h = true -> rest_ok rest = true ->
  exists rest', rest_ok rest' = true /\
                drop_while_end is_js_whitespace (h ++ rest) = h ++ rest' /\
                trim (h ++ rest) = h ++ rest'.
Proof.
  intros Hplain Hrest. pose proof (plain_host_chars h Hplain) as Hchars.
  destruct (strip_end_plain is_js_whitespace h rest host_char_not_ws end_not_ws
              Hchars Hrest) as (r1 & Hr1 & Heq).
  exists r1. split; [exact Hr1|]. split; [exact Heq|].
  unfold trim. destruct (plain_host_inv h Hplain) as (c & h' & -> & Hc & _).
  cbn [app]. rewrite drop_while_head by (apply host_char_not_ws, Hc). exact Heq.
Qed.

Lemma normalize_plain sch h rest :
  In sch scheme_spellings -> plain_host h = true -> rest_ok rest = true ->
  normalizeUrl_chars pf (sch ++ h ++ rest) = finish (Url.host_parser pf h).
Proof.
  intros Hsch Hplain Hrest.
  destruct (trim_plain h rest Hplain Hrest) as (r1 & Hr1 & Hend & Htrim).
  destruct Hsch as [<-|[<-|[<-|[]]]].
  - cbn [app]. rewrite normalizeUrl_chars_unfold, Htrim.
    rewrite (test_http_scheme_plain h r1 (plain_host_chars h Hplain) Hr1).
    destruct (plain_host_inv h Hplain) as (c & h' & Hh & _).
    replace (is_empty (h ++ r1)) with false by (subst h; reflexivity).
    now rewrite hostname_https, after_scheme_plain.
  - now rewrite normalize_http, Hend, after_scheme_plain.
  - now rewrite normalize_https, Hend, after_scheme_plain.
Qed.

End Normalizer.

(** ** Splitting on dots *)

Lemma split_on_not_nil sep l : split_on sep l <> [].
Proof.
  destruct l as [|c l]; cbn; [discriminate|].
  destruct (Ascii.eqb c sep); [discriminate|].
  destruct (split_on sep l); discriminate.
Qed.

Lemma split_on_single_empty sep l : split_on sep l = [[]] -> l = [].
Proof.
  destruct l as [|c l]; [reflexivity|]. cbn.
  destruct (Ascii.eqb c sep).
  - intros H. injection H as H. now apply split_on_not_nil in H.
  - destruct (split_on sep l); discriminate.
Qed.

Lemma split_on_www x :
  split_on "." (lit "www." ++ x) = lit "www" :: split_on "." x.
Proof. reflexivity. Qed.

Lemma split_on_app_sep sep x y :
  forallb (fun c => negb (is_char sep c)) x = true ->
  split_on sep (x ++ sep :: y) = x :: split_on sep y.
Proof.
  induction x as [|c x IH]; intros H.
  - cbn. now rewrite Ascii.eqb_refl.
  - apply forallb_cons_inv in H as [Hc Hx]. apply negb_true_iff in Hc.
    unfold is_char in Hc. cbn. rewrite Hc, IH by assumption. reflexivity.
Qed.

Lemma split_on_no_sep sep x :
  forallb (fun c => negb (is_char sep c)) x = true -> split_on sep x = [x].
Proof.
  induction x as [|c x IH]; intros H; [reflexivity|].
  apply forallb_cons_inv in H as [Hc Hx]. apply negb_true_iff in Hc.
  unfold is_char in Hc. cbn. rewrite Hc, IH by assumption. reflexivity.
Qed.

Module UrlParts.
Import Url.

Lemma rev_drop_empty_last parts :
  rev (drop_empty_last parts)
  = match rev parts with
    | [] :: y :: ys => y :: ys
    | other => other
    end.
Proof.
  unfold drop_empty_last.
  destruct (rev parts) as [|q qs] eqn:E; [now rewrite E|].
  destruct q as [|c q]; [|now rewrite E].
  destruct qs as [|y ys]; [now rewrite E|].
  apply rev_involutive.
Qed.

Lemma ends_in_a_number_alt input :
  ends_in_a_number input
  = match rev (split_on "." input) with
    | [[]] => false
    | [] :: y :: _ => numeric_part y
    | q :: _ => numeric_part q
    | [] => false
    end.
Proof.
  unfold ends_in_a_number. rewrite rev_drop_empty_last.
  destruct (rev (split_on "." input)) as [|q qs]; [reflexivity|].
  destruct q as [|c q]; [|reflexivity].
  destruct qs as [|y ys]; reflexivity.
Qed.

Lemma ends_in_a_number_www x :
  x <> [] -> ends_in_a_number (lit "www." ++ x) = ends_in_a_number x.
Proof.
  intros Hx. rewrite !ends_in_a_number_alt, split_on_www. cbn [rev].
  destruct (rev (split_on "." x)) as [|q qs] eqn:E.
  - exfalso. apply (split_on_not_nil "." x).
    apply (f_equal (@rev _)) in E. now rewrite rev_involutive in E.
  - destruct q as [|c q]; [|reflexivity].
    destruct qs as [|y ys]; [|reflexivity].
    exfalso. apply Hx, (split_on_single_empty ".").
    apply (f_equal (@rev _)) in E. now rewrite rev_involutive in E.
Qed.

Lemma drop_empty_last_head (a : chars) l :
  exists l', drop_empty_last (a :: l) = a :: l'.
Proof.
  unfold drop_empty_last.
  destruct (rev (a :: l)) as [|q qs] eqn:E; [eauto|].
  destruct q as [|c q]; [|eauto]. destruct qs as [|y ys]; [eauto|].
  apply (f_equal (@rev _)) in E. rewrite rev_involutive in E.
  change (rev ([] :: y :: ys)) with (rev (y :: ys) ++ [[]]) in E.
  destruct (rev (y :: ys)) as [|b bs] eqn:Eb.
  - apply (f_equal (@length _)) in Eb. rewrite length_rev in Eb. discriminate.
  - cbn in E. injection E as -> _. eauto.
Qed.

Lemma ipv4_parser_www x : ipv4_parser (lit "www." ++ x) = None.
Proof.
  unfold ipv4_parser. rewrite split_on_www.
  destruct (drop_empty_last_head (lit "www") (split_on "." x)) as [l' ->].
  destruct (4 <? length (lit "www" :: l'))%nat; reflexivity.
Qed.
End UrlParts.

(** ** IPv4 text is read back as the same address *)

Module Ipv4Text.
Import Url.

Lemma byte_table : forallb (fun k => byte_check (N.of_nat k)) (seq 0 256) = true.
Proof. vm_compute. reflexivity. Qed.

Lemma byte_facts n :
  (n < 256)%N ->
  forallb is_ascii_digit (decimal_text n) = true /\
  is_empty (decimal_text n) = false /\
  ipv4_number_parser (decimal_text n) = Some n.
Proof.
  intros Hn. pose proof byte_table as H. rewrite forallb_forall in H.
  specialize (H (N.to_nat n)). rewrite N2Nat.id in H.
  assert (Hin : In (N.to_nat n) (seq 0 256)) by (apply in_seq; lia).
  specialize (H Hin). unfold byte_check in H.
  apply andb_prop in H as [H H3]. apply andb_prop in H as [H1 H2].
  apply negb_true_iff in H2. repeat split; try assumption.
  destruct (ipv4_number_parser (decimal_text n)) as [m|]; [|discriminate].
  apply N.eqb_eq in H3. now subst.
Qed.

Lemma digit_not_dot c : is_ascii_digit c = true -> negb (is_char "." c) = true.
Proof. each_char c. Qed.
Lemma digit_or_dot_host c : digit_or_dot c = true -> host_char c = true.
Proof. each_char c. Qed.
Lemma digit_or_dot_lower c : digit_or_dot c = true -> ascii_lowercase_char c = c.
Proof. each_char c. Qed.
Lemma digit_not_w c : is_ascii_digit c = true -> Ascii.eqb "w" c = false.
Proof. each_char c. Qed.

Lemma digits_no_dot t :
  forallb is_ascii_digit t = true ->
  forallb (fun c => negb (is_char "." c)) t = true.
Proof.
  induction t as [|c t IH]; [reflexivity|]. intros H.
  apply forallb_cons_inv in H as [Hc Ht]. cbn [forallb].
  now rewrite (digit_not_dot c Hc), IH.
Qed.

Lemma digits_digit_or_dot t :
  forallb is_ascii_digit t = true -> forallb digit_or_dot t = true.
Proof.
  induction t as [|c t IH]; [reflexivity|]. intros H.
  apply forallb_cons_inv in H as [Hc Ht]. cbn [forallb]. unfold digit_or_dot at 1.
  now rewrite Hc, IH.
Qed.

Lemma dotted_chars a b c d :
  (a < 256)%N -> (b < 256)%N -> (c < 256)%N -> (d < 256)%N ->
  forallb digit_or_dot (Url.dotted a b c d) = true.
Proof.
  intros Ha Hb Hc Hd. unfold dotted.
  destruct (byte_facts a Ha) as (Da & _), (byte_facts b Hb) as (Db & _),
           (byte_facts c Hc) as (Dc & _), (byte_facts d Hd) as (Dd & _).
  rewrite !forallb_app. unfold lit. cbn [list_ascii_of_string forallb].
  rewrite !digits_digit_or_dot by assumption. reflexivity.
Qed.

Lemma dotted_split a b c d :
  (a < 256)%N -> (b < 256)%N -> (c < 256)%N -> (d < 256)%N ->
  split_on "." (Url.dotted a b c d)
  = [decimal_text a; decimal_text b; decimal_text c; decimal_text d].
Proof.
  intros Ha Hb Hc Hd. unfold dotted, lit. cbn [list_ascii_of_string app].
  destruct (byte_facts a Ha) as (Da & _), (byte_facts b Hb) as (Db & _),
           (byte_facts c Hc) as (Dc & _), (byte_facts d Hd) as (Dd & _).
  rewrite !split_on_app_sep by (apply digits_no_dot; assumption).
  now rewrite split_on_no_sep by (apply digits_no_dot; assumption).
Qed.

Lemma dotted_ends_in_a_number a b c d :
  (a < 256)%N -> (b < 256)%N -> (c < 256)%N -> (d < 256)%N ->
  ends_in_a_number (Url.dotted a b c d) = true.
Proof.
  intros Ha Hb Hc Hd. rewrite UrlParts.ends_in_a_number_alt, dotted_split by assumption.
  cbn [rev app]. destruct (byte_facts d Hd) as (Dd & Ed & _).
  destruct (decimal_text d) as [|x t] eqn:E; [discriminate|].
  unfold numeric_part. rewrite Dd. reflexivity.
Qed.

Lemma dotted_ipv4_parser a b c d :
  (a < 256)%N -> (b < 256)%N -> (c < 256)%N -> (d < 256)%N ->
  ipv4_parser (Url.dotted a b c d)
  = Some (d + a * 16777216 + b * 65536 + c * 256)%N.
Proof.
  intros Ha Hb Hc Hd. unfold ipv4_parser. rewrite dotted_split by assumption.
  destruct (byte_facts a Ha) as (_ & _ & Pa), (byte_facts b Hb) as (_ & _ & Pb),
           (byte_facts c Hc) as (_ & _ & Pc), (byte_facts d Hd) as (_ & Ed & Pd).
  assert (Hdrop : drop_empty_last
            [decimal_text a; decimal_text b; decimal_text c; decimal_text d]
          = [decimal_text a; decimal_text b; decimal_text c; decimal_text d]).
  { unfold drop_empty_last. cbn [rev app].
    destruct (decimal_text d); [discriminate|reflexivity]. }
  rewrite Hdrop. cbn [length Nat.ltb Nat.leb parse_all].
  rewrite Pa, Pb, Pc, Pd. cbn [rev app length existsb].
  replace (255 <? a)%N with false by (symmetry; apply N.ltb_ge; lia).
  replace (255 <? b)%N with false by (symmetry; apply N.ltb_ge; lia).
  replace (255 <? c)%N with false by (symmetry; apply N.ltb_ge; lia).
  cbn [orb].
  change (256 ^ (5 - N.of_nat 4))%N with 256%N.
  replace (256 <=? d)%N with false by (symmetry; apply N.leb_gt; lia).
  reflexivity.
Qed.

Lemma ipv4_serializer_dotted n :
  ipv4_serializer n
  = dotted ((n / 16777216) mod 256) ((n / 65536) mod 256) ((n / 256) mod 256) (n mod 256).
Proof. reflexivity. Qed.

Lemma serializer_of_bytes a b c d :
  (a < 256)%N -> (b < 256)%N -> (c < 256)%N -> (d < 256)%N ->
  ipv4_serializer (d + a * 16777216 + b * 65536 + c * 256) = dotted a b c d.
Proof.
  intros Ha Hb Hc Hd. rewrite ipv4_serializer_dotted.
  f_equal; zify; Z.to_euclidean_division_equations; lia.
Qed.
End Ipv4Text.

(** ** What the host parser returns, and that it returns it again *)

Module HostFacts.
Import Url.

Section OnPlatform.
Variable pf : Platform.

Lemma ascii_lowercase_idem l : ascii_lowercase (ascii_lowercase l) = ascii_lowercase l.
Proof.
  unfold ascii_lowercase. rewrite map_map. apply map_ext. intros c. apply lower_idem.
Qed.

Lemma lowercase_fixed (p : ascii -> bool) l :
  (forall c, p c = true -> ascii_lowercase_char c = c) ->
  forallb p l = true -> ascii_lowercase l = l.
Proof.
  intros Hp. induction l as [|c l IH]; [reflexivity|]. intros H.
  apply forallb_cons_inv in H as [Hc Hl]. unfold ascii_lowercase in *.
  cbn [map]. now rewrite (Hp c Hc), IH.
Qed.

Lemma forallb_impl (p q : ascii -> bool) l :
  (forall c, p c = true -> q c = true) -> forallb p l = true -> forallb q l = true.
Proof.
  intros Hpq. induction l as [|c l IH]; [reflexivity|]. intros H.
  apply forallb_cons_inv in H as [Hc Hl]. cbn [forallb]. now rewrite (Hpq c Hc), IH.
Qed.

Lemma has_xn_label_needs_x l :
  existsb (Ascii.eqb "x") l = false -> has_xn_label l = false.
Proof.
  unfold has_xn_label. induction l as [|c l IH]; [reflexivity|].
  cbn [existsb split_on]. intros H. apply orb_false_elim in H as [Hc Hl].
  specialize (IH Hl).
  destruct (Ascii.eqb c "."); [exact IH|].
  destruct (split_on "." l) as [|p ps]; cbn [existsb] in *.
  - unfold lit. cbn [list_ascii_of_string starts_with]. now rewrite Hc.
  - apply orb_false_elim in IH as [_ IH]. rewrite IH.
    unfold lit. cbn [list_ascii_of_string starts_with]. now rewrite Hc.
Qed.

Lemma digit_or_dot_not_x c : digit_or_dot c = true -> Ascii.eqb "x" c = false.
Proof. each_char c. Qed.

Lemma has_xn_label_digits l : forallb digit_or_dot l = true -> has_xn_label l = false.
Proof.
  intros H. apply has_xn_label_needs_x.
  induction l as [|c l IH]; [reflexivity|].
  apply forallb_cons_inv in H as [Hc Hl]. cbn [existsb].
  now rewrite (digit_or_dot_not_x c Hc), IH.
Qed.

Lemma has_xn_label_www d :
  has_xn_label (lit "www." ++ d) = has_xn_label d.
Proof. unfold has_xn_label. now rewrite split_on_www. Qed.

Lemma settled_domain h :
  plain_host h = true -> ascii_lowercase h = h -> has_xn_label h = false ->
  ends_in_a_number h = false ->
  settled h.
Proof.
  intros Hplain Hlow Hxn Hends. split; [exact Hplain|]. split; [exact Hlow|]. split.
  - now rewrite host_in_model_plain, Hlow, Hxn.
  - intros pf'. now rewrite host_parser_plain, Hlow, Hends by (now rewrite ?Hlow).
Qed.

Lemma settled_address n : settled (ipv4_serializer n).
Proof.
  rewrite Ipv4Text.ipv4_serializer_dotted.
  set (a := ((n / 16777216) mod 256)%N). set (b := ((n / 65536) mod 256)%N).
  set (c := ((n / 256) mod 256)%N). set (d := (n mod 256)%N).
  assert (Ha : (a < 256)%N) by (apply N.mod_lt; discriminate).
  assert (Hb : (b < 256)%N) by (apply N.mod_lt; discriminate).
  assert (Hc : (c < 256)%N) by (apply N.mod_lt; discriminate).
  assert (Hd : (d < 256)%N) by (apply N.mod_lt; discriminate).
  pose proof (Ipv4Text.dotted_chars a b c d Ha Hb Hc Hd) as Hchars.
  assert (Hplain : plain_host (Url.dotted a b c d) = true).
  { unfold plain_host.
    rewrite (forallb_impl _ _ _ Ipv4Text.digit_or_dot_host Hchars), andb_true_r.
    unfold dotted. destruct (Ipv4Text.byte_facts a Ha) as (_ & Ea & _).
    destruct (decimal_text a); [discriminate|reflexivity]. }
  assert (Hlow : ascii_lowercase (Url.dotted a b c d) = dotted a b c d)
    by exact (lowercase_fixed _ _ Ipv4Text.digit_or_dot_lower Hchars).
  assert (Hxn : has_xn_label (Url.dotted a b c d) = false)
    by exact (has_xn_label_digits _ Hchars).
  split; [exact Hplain|]. split; [exact Hlow|]. split.
  - now rewrite host_in_model_plain, Hlow, Hxn.
  - intros pf'. rewrite host_parser_plain, Hlow by (now rewrite ?Hlow).
    rewrite Ipv4Text.dotted_ends_in_a_number, Ipv4Text.dotted_ipv4_parser by assumption.
    cbn [option_map]. now rewrite Ipv4Text.serializer_of_bytes.
Qed.

(** Whatever the host parser returns for a host of the model is
    settled. *)
Lemma host_parser_settled input h :
  host_in_model input = true -> host_parser pf input = Some h -> settled h.
Proof.
  intros Hmodel. unfold host_parser. rewrite Hmodel.
  unfold host_in_model in Hmodel.
  apply andb_prop in Hmodel as [Hmodel Hxn]. apply andb_prop in Hmodel as [_ Hascii].
  apply negb_true_iff in Hxn.
  set (a := ascii_lowercase (percent_decode input)) in *.
  destruct (is_empty a) eqn:Hne; [discriminate|].
  destruct (existsb is_forbidden_domain_code_point a) eqn:Hforb; [discriminate|].
  destruct (ends_in_a_number a) eqn:Hends.
  - destruct (ipv4_parser a) as [n|]; [|discriminate].
    cbn. intros [= <-]. apply settled_address.
  - intros [= <-]. apply settled_domain; try assumption.
    + unfold plain_host. rewrite Hne. cbn [negb andb].
      assert (Ha : forallb is_ascii_code_point a = true).
      { unfold a, ascii_lowercase. now rewrite (forallb_map_class _ _ case_ascii). }
      clear -Ha Hforb. induction a as [|c a IH]; [reflexivity|].
      apply forallb_cons_inv in Ha as [Hc Ha]. cbn [existsb] in Hforb.
      apply orb_false_elim in Hforb as [Hf Hforb]. cbn [forallb]. unfold host_char at 1.
      now rewrite Hc, Hf, IH.
    + apply ascii_lowercase_idem.
Qed.

Lemma hostname_settled url h :
  in_model url = true -> hostname pf url = Some h -> settled h.
Proof.
  unfold in_model, host_text, hostname.
  destruct (scheme_start_state _) as [[scheme rest]|]; [|discriminate].
  destruct (is_special_authority_scheme scheme); [|discriminate].
  unfold authority_host_text, authority_hostname.
  destruct (authority_state false [] _) as [hostport|]; [|discriminate].
  destruct (host_state false [] hostport) as [[buffer port]|]; [|discriminate].
  cbn [option_map fst]. intros Hmodel.
  destruct (host_parser pf buffer) as [host|] eqn:Hhost; [|discriminate].
  destruct port as [p|].
  - destruct (port_state p); [|discriminate]. intros [= <-].
    exact (host_parser_settled _ _ Hmodel Hhost).
  - intros [= <-]. exact (host_parser_settled _ _ Hmodel Hhost).
Qed.

Lemma toLowerCase_plain h :
  forallb host_char h = true -> toLowerCase h = ascii_lowercase h.
Proof.
  induction h as [|c h IH]; [reflexivity|]. intros H.
  apply forallb_cons_inv in H as [Hc Hh]. unfold toLowerCase, ascii_lowercase in *.
  cbn [map]. now rewrite (host_char_js_lower c Hc), IH.
Qed.

Lemma toLowerCase_settled h : settled h -> toLowerCase h = h.
Proof.
  intros (Hplain & Hlow & _).
  now rewrite toLowerCase_plain, Hlow by (apply plain_host_chars; assumption).
Qed.

Lemma starts_with_split (p l : chars) : starts_with p l = true -> l = p ++ skipn (length p) l.
Proof.
  revert l. induction p as [|a p IH]; intros l H; [reflexivity|].
  destruct l as [|b l]; [discriminate|]. cbn in H.
  apply andb_prop in H as [Hab H]. apply Ascii.eqb_eq in Hab. subst b.
  cbn. f_equal. now apply IH.
Qed.

End OnPlatform.
End HostFacts.

Section NormalizerOutput.
Variable pf : Platform.

(** ** The normalizer on characters *)

Lemma finish_settled h :
  settled h ->
  finish (Some h) = Some (if starts_with (lit "www.") h then skipn 4 h else h).
Proof.
  intros Hs. unfold finish. now rewrite (HostFacts.toLowerCase_settled h Hs).
Qed.



(** The normalizer on some inputs. *)
Lemma normalizeUrl_examples :
  map (normalizeUrl pf)
      ["example.com"; "http://example.com"; "HTTPS://WWW.Example.COM/path?q#f";
       " https://user:pw@Example.com:8080/x "; "www.www.example.com"; "www.";
       "1.2.3.4"; "0x7f.1"; "www.1.2.3.4"; "exa mple.com"; "example.com:99999";
       "%65xample.com"; "   "]
  = [Some "example.com"; Some "example.com"; Some "example.com";
     Some "example.com"; Some "www.example.com"; Some EmptyString;
     Some "1.2.3.4"; Some "127.0.0.1"; None; None; None;
     Some "example.com"; None].
Proof. vm_compute. reflexivity. Qed.

(** One "www." in front of a plain host that has none. *)
Theorem www_prefix sch h rest d d' :
  In sch scheme_spellings -> plain_host h = true -> rest_ok rest = true ->
  starts_with (lit "www.") (ascii_lowercase h) = false ->
  Url.has_xn_label (ascii_lowercase h) = false ->
  normalizeUrl_chars pf (sch ++ h ++ rest) = Some d ->
  normalizeUrl_chars pf (sch ++ (lit "www." ++ h) ++ rest) = Some d' ->
  d = d'.
Proof.
  intros Hsch Hplain Hrest Hwww Hxn.
  assert (Hxn' : Url.has_xn_label (ascii_lowercase (lit "www." ++ h)) = false).
  { change (ascii_lowercase (lit "www." ++ h)) with (lit "www." ++ ascii_lowercase h).
    now rewrite HostFacts.has_xn_label_www. }
  assert (Hplain' : plain_host (lit "www." ++ h) = true).
  { unfold plain_host in *. apply andb_prop in Hplain as [_ Hchars].
    cbn [lit list_ascii_of_string app is_empty negb andb forallb].
    now rewrite Hchars. }
  rewrite !normalize_plain by assumption.
  intros H1 H2.
  destruct (Url.host_parser pf h) as [x|] eqn:Hx; [|discriminate].
  destruct (Url.host_parser pf (lit "www." ++ h)) as [y|] eqn:Hy; [|discriminate].
  assert (Mx : Url.host_in_model h = true)
    by (now rewrite host_in_model_plain, Hxn).
  assert (My : Url.host_in_model (lit "www." ++ h) = true)
    by (now rewrite host_in_model_plain, Hxn').
  pose proof (HostFacts.host_parser_settled pf _ _ Mx Hx) as Sx.
  pose proof (HostFacts.host_parser_settled pf _ _ My Hy) as Sy.
  rewrite finish_settled in H1, H2 by assumption.
  rewrite host_parser_plain in Hx, Hy by assumption.
  change (ascii_lowercase (lit "www." ++ h)) with (lit "www." ++ ascii_lowercase h) in Hy.
  assert (Hne : ascii_lowercase h <> []).
  { destruct (plain_host_inv h Hplain) as (c & h' & -> & _). discriminate. }
  rewrite UrlParts.ends_in_a_number_www in Hy by assumption.
  destruct (Url.ends_in_a_number (ascii_lowercase h)).
  - now rewrite UrlParts.ipv4_parser_www in Hy.
  - injection Hx as <-. injection Hy as <-.
    rewrite Hwww in H1.
    assert (H2' : Some (ascii_lowercase h) = Some d') by exact H2.
    congruence.
Qed.

Lemma lit_str l : lit (str l) = l.
Proof. apply list_ascii_of_string_of_list_ascii. Qed.

Lemma str_lit s : str (lit s) = s.
Proof. apply string_of_list_ascii_of_string. Qed.

Lemma lit_append a b : lit (a +:+ b) = lit a ++ lit b.
Proof.
  unfold lit. induction a as [|c a IH]; [reflexivity|].
  change (c :: list_ascii_of_string (a +:+ b)
          = c :: (list_ascii_of_string a ++ list_ascii_of_string b)).
  now rewrite IH.
Qed.

Lemma lit_inj a b : lit a = lit b -> a = b.
Proof. intros H. now rewrite <- (str_lit a), <- (str_lit b), H. Qed.

Lemma normalizeUrl_some raw d :
  normalizeUrl pf raw = Some d <-> normalizeUrl_chars pf (lit raw) = Some (lit d).
Proof.
  unfold normalizeUrl. destruct (normalizeUrl_chars pf (lit raw)) as [x|]; cbn.
  - split; intros [= H].
    + subst d. now rewrite lit_str.
    + subst x. now rewrite str_lit.
  - split; discriminate.
Qed.








End NormalizerOutput.

(** ** Fingerprint *)

(** The test vectors of the standard for the empty message and "abc". *)
Lemma hashString_test_vectors :
  hashString EmptyString
  = "e3b0c44298fc1c149afbf4c8996fb92427ae41e4649b934ca495991b7852b855" /\
  hashString "abc"
  = "ba7816bf8f01cfea414140de5dae2223b00361a396177a9cb410ff61f20015ad".
Proof. split; vm_compute; reflexivity. Qed.

(** ** Recommendation Engine *)

Lemma choose_tier_starter (x : float) :
  Number_isFinite x = true -> (85 <=? x)%float = true -> choose_tier x = Starter.
Proof. intros Hf H85. unfold choose_tier. now rewrite Hf, H85. Qed.

Lemma choose_tier_business (x : float) :
  Number_isFinite x = true -> (85 <=? x)%float = false -> (60 <=? x)%float = true ->
  choose_tier x = Business.
Proof. intros Hf H85 H60. unfold choose_tier. now rewrite Hf, H85, H60. Qed.

Lemma choose_tier_premium (x : float) :
  Number_isFinite x = true -> (85 <=? x)%float = false -> (60 <=? x)%float = false ->
  choose_tier x = Premium.
Proof. intros Hf H85 H60. unfold choose_tier. now rewrite Hf, H85, H60. Qed.

Lemma choose_tier_not_finite (x : float) :
  Number_isFinite x = false -> choose_tier x = Business.
Proof. intros Hf. unfold choose_tier. now rewrite Hf. Qed.

Lemma integer_scores_spec (i : Z) : (-1000 <= i <= 1000)%Z -> In i integer_scores.
Proof.
  intros Hi. unfold integer_scores. apply in_map_iff.
  exists (Z.to_nat (i + 1000)). split; [lia|]. apply in_seq. lia.
Qed.

Lemma choose_tier_integer (i : Z) :
  (-1000 <= i <= 1000)%Z -> choose_tier (float_of_Z i) = tier_of_integer i.
Proof.
  intros Hi.
  assert (H : forallb (fun i => match choose_tier (float_of_Z i), tier_of_integer i with
                                | Starter, Starter | Business, Business | Premium, Premium => true
                                | _, _ => false end) integer_scores = true)
    by (vm_compute; reflexivity).
  rewrite forallb_forall in H. specialize (H i (integer_scores_spec i Hi)).
  destruct (choose_tier _), (tier_of_integer _); congruence.
Qed.

Lemma recommend_constants (report : option Report) :
  discountPercent (recommendPackageFromReport report) = 15%float /\
  code (recommendPackageFromReport report) = "BEACON15" /\
  urgencyLine (recommendPackageFromReport report)
    = "Book within 48 hours to claim the discount.".
Proof. repeat split. Qed.

(** C6: for every report, whatever its score, the discounted price is the
    tier's base price (Starter 299, Business 499, Premium 899) times
    (1 - 15/100), rounded half up to two decimals (as the nearest binary64
    number to that amount of cents over 100); the discount percent (15),
    the code and the urgency line are the same for every tier; for a score
    of 70 the discounted price is 424.15. *)
Theorem C6_discounted_price (report : option Report) :
  let r := recommendPackageFromReport report in
  price r = float_of_Z (base_price (tier r)) /\
  discountedPrice r
    = Some (float_of_Z (half_up_cents (base_price (tier r)) 15) / 100)%float /\
  discountPercent r = 15%float /\
  code r = "BEACON15" /\
  urgencyLine r = "Book within 48 hours to claim the discount." /\
  discountedPrice
    (recommendPackageFromReport
       (Some {| url_hash := "h"; domain := "d"; score := JNum 70; summary := None |}))
    = Some (42415 / 100)%float.
Proof.
  cbv zeta. unfold recommendPackageFromReport. cbn [tier price discountedPrice discountPercent code urgencyLine].
  destruct (choose_tier (Number (report_score report))); repeat split; vm_compute; reflexivity.
Qed.

(** Of a report, the recommendation reads the score and nothing else: two
    reports with the same score, whatever their other fields, get
    recommendations that agree in every field. *)
Lemma recommendation_reads_the_score_only (r1 r2 : option Report) :
  report_score r1 = report_score r2 ->
  recommendPackageFromReport r1 = recommendPackageFromReport r2.
Proof. intros H. unfold recommendPackageFromReport. now rewrite H. Qed.

(** The tier boundaries of the spec, on the code. *)
Lemma tier_boundaries :
  map (fun x => choose_tier (Number x))
      [JNum 85; JNum 84; JNum 60; JNum 59; JNum 100; JNum 0; JUndefined;
       JNum nan; JNum infinity; JNum neg_infinity]
  = [Starter; Business; Business; Premium; Starter; Premium; Business;
     Business; Business; Business].
Proof. vm_compute. reflexivity. Qed.

Lemma recommend_without_report :
  tier (recommendPackageFromReport None) = Business.
Proof. reflexivity. Qed.

(** C2: a report whose score is [null] is given the tier Premium, not the
    default tier Business: [Number(null)] is 0, a finite number below 60.
    (The thresholds themselves are as the claim says: see
    [choose_tier_starter], [choose_tier_business], [choose_tier_premium],
    [choose_tier_not_finite], [choose_tier_integer], [tier_boundaries].) *)
Theorem C2_null_score_is_premium (h d : string) (s : option string) :
  tier (recommendPackageFromReport
          (Some {| url_hash := h; domain := d; score := JNull; summary := s |}))
  = Premium.
Proof. reflexivity. Qed.

(** ** Running a request *)

Lemma run_bind {A B : Type} (env : Env) (p : prog A) (f : A -> prog B) (w : World) :
  run env (bind p f) w =
  let '(a, w1, log1) := run env p w in
  let '(b, w2, log2) := run env (f a) w1 in
  (b, w2, log1 ++ log2).
Proof.
  revert w. induction p as [a|d k IH|h k IH|r k IH|r k IH|r k IH|m k IH]; intros w; cbn [bind run].
  - destruct (run env (f a) w) as [[b w2] log2]. reflexivity.
  - rewrite IH. destruct (run env (k _) w) as [[a w1] log1].
    destruct (run env (f a) w1) as [[b w2] log2]. reflexivity.
  - rewrite IH. destruct (run env (k _) w) as [[a w1] log1].
    destruct (run env (f a) w1) as [[b w2] log2]. reflexivity.
  - destruct (insert_report env w r) as [o w0]. rewrite IH.
    destruct (run env (k _) w0) as [[a w1] log1].
    destruct (run env (f a) w1) as [[b w2] log2]. reflexivity.
  - destruct (insert_lead env w r) as [o w0]. rewrite IH.
    destruct (run env (k _) w0) as [[a w1] log1].
    destruct (run env (f a) w1) as [[b w2] log2]. reflexivity.
  - destruct (insert_event env w r) as [o w0]. rewrite IH.
    destruct (run env (k _) w0) as [[a w1] log1].
    destruct (run env (f a) w1) as [[b w2] log2]. reflexivity.
  - destruct (send_email env w m) as [o w0]. rewrite IH.
    destruct (run env (k _) w0) as [[a w1] log1].
    destruct (run env (f a) w1) as [[b w2] log2]. reflexivity.
Qed.

(** [saveLead] makes one insert, returns nothing, and leaves every table
    but the leads as it was. *)
Lemma run_saveLead (env : Env) (a : LeadArgs) (w : World) :
  exists row w',
    run env (saveLead a) w = (tt, w', [CInsertLead row]) /\
    reports w' = reports w /\ events w' = events w /\ outbox w' = outbox w /\
    leads w' = match insert_lead_outcome env with
               | Done => leads w ++ [row]
               | _ => leads w
               end.
Proof.
  unfold saveLead. cbn [run]. unfold insert_lead.
  destruct (insert_lead_outcome env); eauto 10.
Qed.

Lemma is_blank_trim_default (b : string) :
  is_blank (let t := trim_string b in if is_blank t then "Unknown Business" else t) = false.
Proof. cbv zeta. destruct (is_blank (trim_string b)) eqn:H; [reflexivity|exact H]. Qed.

Lemma run_saveLead_row (env : Env) (a : LeadArgs) (w : World) (r : Report) :
  arg_urlHash a = hashString (arg_domain a) ->
  arg_score a = score r -> arg_summary a = summary r ->
  arg_recommendation a = Some (recommendPackageFromReport (Some r)) ->
  exists row w',
    run env (saveLead a) w = (tt, w', [CInsertLead row]) /\
    lead_snapshot row (arg_email a) (arg_domain a) r /\
    lead_names row (arg_businessName a) (arg_name a) /\
    reports w' = reports w /\ events w' = events w /\ outbox w' = outbox w /\
    leads w' = match insert_lead_outcome env with
               | Done => leads w ++ [row]
               | _ => leads w
               end.
Proof.
  intros Hh Hs Hsum Hrec. unfold saveLead. cbn [run].
  match goal with |- context [insert_lead env w ?row] =>
    exists row, (snd (insert_lead env w row)) end.
  split; [destruct (insert_lead env w _); reflexivity|].
  split.
  - unfold lead_snapshot. cbn [lead_email lead_domain lead_url_hash lead_score
      lead_summary recommended_tier recommended_discounted_price discount_code
      business_name].
    rewrite Hh, Hs, Hsum, Hrec. cbn [option_map].
    repeat split; try reflexivity. apply is_blank_trim_default.
  - split; [split; reflexivity|].
    unfold insert_lead. destruct (insert_lead_outcome env); cbn; auto.
Qed.

Lemma mail_on_spec (cfg : Config) :
  mail_on cfg = true <-> resend cfg = true /\ is_blank (EMAIL_FROM cfg) = false.
Proof.
  unfold mail_on. destruct (resend cfg), (is_blank (EMAIL_FROM cfg)); cbn;
    split; intros H; try discriminate H; try (destruct H; discriminate); auto.
Qed.

(** An email that can be rendered is not one whose rendering throws. *)
Lemma renders_not_failed (pf : Platform) (cfg : Config) (message : string) :
  renders pf cfg -> render_failed pf cfg message -> False.
Proof.
  intros Hr [Hon Hthrow]. apply mail_on_spec in Hon as [Hres Hfrom].
  destruct Hr as [H|[H|[href H]]]; congruence.
Qed.

(** [sendBeaconReportEmail] returns without a call, or after one send, or
    it throws, before any call, what the URL constructor threw. *)
Lemma run_send_mail (pf : Platform) (env : Env) (cfg : Config) (to_ subject_ : string)
    (r : Report) (b s : string) (w : World) :
  exists out w' sends,
    run env (sendBeaconReportEmail pf cfg to_ subject_ r b s) w = (out, w', sends) /\
    reports w' = reports w /\ leads w' = leads w /\ events w' = events w /\
    mail_sent env cfg to_ r sends (outbox w) (outbox w') /\
    (out = Returned tt \/
     exists message, out = Threw message /\ sends = [] /\ render_failed pf cfg message) /\
    (out = Returned tt -> is_blank to_ = false -> mail_on cfg = true ->
     exists m, sends = [CSendEmail m]).
Proof.
  unfold sendBeaconReportEmail, mail_sent, render_failed, mail_on.
  destruct (is_blank to_) eqn:Hto.
  { exists (Returned tt), w, []. repeat (split; [reflexivity|]).
    split; [now left|]. split; [now left|]. intros _ H; discriminate H. }
  destruct (resend cfg) eqn:Hres; cbn [negb orb andb].
  2:{ exists (Returned tt), w, []. repeat (split; [reflexivity|]).
      split; [now left|]. split; [now left|]. intros _ _ H; discriminate H. }
  destruct (is_blank (EMAIL_FROM cfg)) eqn:Hfrom.
  { exists (Returned tt), w, []. repeat (split; [reflexivity|]).
    split; [now left|]. split; [now left|]. intros _ _ H; discriminate H. }
  destruct (buildTrackedUrl pf cfg) as [href|message] eqn:Hurl.
  - cbn [run]. unfold send_email.
    destruct (send_outcome env); cbn; do 3 eexists;
      (split; [reflexivity|]); repeat (split; [reflexivity|]);
      (split; [right; eexists; repeat (split; [reflexivity|]); reflexivity|]);
      (split; [now left|]); intros _ _ _; eexists; reflexivity.
  - exists (Threw message), w, []. repeat (split; [reflexivity|]).
    split; [now left|]. split; [right; exists message; auto|].
    intros H; discriminate H.
Qed.

(** The hit branch: the lead, then the email when [refresh] is [true],
    then the answer. *)
Lemma run_hit_full (env : Env) (pf : Platform) (cfg : Config) (req : AnalyzeRequest)
    (w : World) (cleanEmail fbn website normalized : string) (r : Report) :
  exists resp w' lead sends,
    run env (on_cache_hit pf cfg req cleanEmail fbn website normalized
               (hashString normalized) r) w
    = (resp, w', CInsertLead lead :: sends) /\
    answered pf cfg resp true r sends /\
    lead_snapshot lead cleanEmail normalized r /\
    lead_names lead fbn (body_name req) /\
    reports w' = reports w /\ events w' = events w /\
    leads w' = match insert_lead_outcome env with
               | Done => leads w ++ [lead]
               | _ => leads w
               end /\
    mail_sent env cfg cleanEmail r sends (outbox w) (outbox w') /\
    (sends <> [] -> is_true (body_refresh req) = true) /\
    (resp = Json 200 (ReportBody true r) -> is_true (body_refresh req) = true ->
     is_blank cleanEmail = false -> mail_on cfg = true ->
     exists m, sends = [CSendEmail m]) /\
    (is_true (body_refresh req) = false -> resp = Json 200 (ReportBody true r)).
Proof.
  unfold on_cache_hit. rewrite run_bind.
  match goal with |- context [run env (saveLead ?a) ?w0] =>
    destruct (run_saveLead_row env a w0 r eq_refl eq_refl eq_refl eq_refl)
      as (lead & w1 & -> & Hsnap & Hnames & Hr1 & He1 & Ho1 & Hl1) end.
  cbn [arg_email arg_domain] in Hsnap. cbn [arg_businessName arg_name] in Hnames.
  rewrite run_bind.
  destruct (is_true (body_refresh req)) eqn:Href.
  - match goal with |- context [run env (sendBeaconReportEmail ?p ?c ?t ?s ?r0 ?b ?ws) ?w0] =>
      destruct (run_send_mail p env c t s r0 b ws w0)
        as (out & w2 & sends & -> & Hr2 & Hl2 & He2 & Hmail & Hout & Hsent) end.
    rewrite Ho1 in Hmail.
    destruct Hout as [-> | (message & -> & -> & Hfail)]; cbn.
    + exists (Json 200 (ReportBody true r)), w2, lead, sends. rewrite app_nil_r.
      split; [reflexivity|]. split; [now left|].
      split; [exact Hsnap|]. split; [exact Hnames|].
      split; [congruence|]. split; [congruence|]. split; [congruence|].
      split; [exact Hmail|]. split; [reflexivity|].
      split; [|reflexivity].
      intros _ _ Hto Hon. exact (Hsent eq_refl Hto Hon).
    + exists (error_response 500 message), w2, lead, [].
      split; [reflexivity|]. split; [right; exists message; auto|].
      split; [exact Hsnap|]. split; [exact Hnames|].
      split; [congruence|]. split; [congruence|]. split; [congruence|].
      split; [exact Hmail|]. split; [reflexivity|].
      split; intros H; discriminate H.
  - cbn. exists (Json 200 (ReportBody true r)), w1, lead, [].
    split; [reflexivity|]. split; [now left|]. split; [exact Hsnap|].
    split; [exact Hnames|].
    repeat (split; [assumption|]). split; [left; auto|].
    split; [congruence|]. split; [intros _ H; discriminate H|reflexivity].
Qed.

(** The miss branch when the insert of the fresh report works: the lead,
    the email, the answer. *)
Lemma run_miss_full (env : Env) (pf : Platform) (cfg : Config) (req : AnalyzeRequest)
    (w : World) (cleanEmail fbn website normalized : string) :
  insert_report_outcome env = Done ->
  reports w !! hashString normalized = None ->
  exists resp w' lead sends,
    run env (on_cache_miss pf cfg req cleanEmail fbn website normalized
               (hashString normalized)) w
    = (resp, w',
       CInsertReport (fresh_report (hashString normalized) normalized)
       :: CInsertLead lead :: sends) /\
    answered pf cfg resp false (fresh_report (hashString normalized) normalized) sends /\
    lead_snapshot lead cleanEmail normalized
                  (fresh_report (hashString normalized) normalized) /\
    lead_names lead fbn (body_name req) /\
    reports w'
    = <[hashString normalized := fresh_report (hashString normalized) normalized]>
        (reports w) /\
    events w' = events w /\
    leads w' = match insert_lead_outcome env with
               | Done => leads w ++ [lead]
               | _ => leads w
               end /\
    mail_sent env cfg cleanEmail (fresh_report (hashString normalized) normalized)
              sends (outbox w) (outbox w') /\
    (resp = Json 200 (ReportBody false (fresh_report (hashString normalized) normalized)) ->
     is_blank cleanEmail = false -> mail_on cfg = true ->
     exists m, sends = [CSendEmail m]).
Proof.
  intros Hins Hrow. unfold on_cache_miss. cbn [run]. unfold insert_report.
  rewrite Hins. cbn [url_hash fresh_report]. rewrite Hrow.
  rewrite run_bind.
  match goal with |- context [run env (saveLead ?a) ?w0] =>
    destruct (run_saveLead_row env a w0
                (fresh_report (hashString normalized) normalized)
                eq_refl eq_refl eq_refl eq_refl)
      as (lead & w1 & -> & Hsnap & Hnames & Hr1 & He1 & Ho1 & Hl1) end.
  cbn [arg_email arg_domain] in Hsnap. cbn [arg_businessName arg_name] in Hnames.
  rewrite run_bind.
  match goal with |- context [run env (sendBeaconReportEmail ?p ?c ?t ?s ?r0 ?b ?ws) ?w0] =>
    destruct (run_send_mail p env c t s r0 b ws w0)
      as (out & w2 & sends & -> & Hr2 & Hl2 & He2 & Hmail & Hout & Hsent) end.
  rewrite Ho1 in Hmail.
  destruct Hout as [-> | (message & -> & -> & Hfail)]; cbn.
  - eexists. exists w2, lead, sends. rewrite app_nil_r. split; [reflexivity|].
    split; [now left|].
    split; [exact Hsnap|]. split; [exact Hnames|]. split; [now rewrite Hr2, Hr1|].
    split; [now rewrite He2, He1|]. split; [now rewrite Hl2, Hl1|].
    split; [exact Hmail|]. intros _ Hto Hon. exact (Hsent eq_refl Hto Hon).
  - exists (error_response 500 message), w2, lead, []. split; [reflexivity|].
    split; [right; exists message; auto|].
    split; [exact Hsnap|]. split; [exact Hnames|]. split; [now rewrite Hr2, Hr1|].
    split; [now rewrite He2, He1|]. split; [now rewrite Hl2, Hl1|].
    split; [exact Hmail|]. intros H; discriminate H.
Qed.

Lemma run_emailHasMx_none (env : Env) (value : string) (w : World) :
  (forall d, mx_domain value = Some d ->
             resolveMx env d = MxThrown \/ resolveMx env d = MxRecords 0) ->
  exists log, run env (emailHasMx value) w = (false, w, log) /\
              Forall (fun c => exists d, c = CResolveMx d) log.
Proof.
  intros H. unfold emailHasMx. destruct (mx_domain value) as [d|]; [|eauto].
  cbn [run]. destruct (H d eq_refl) as [-> | ->]; cbn; eauto 10.
Qed.

Lemma run_emailHasMx_some (env : Env) (value d : string) (n : nat) (w : World) :
  mx_domain value = Some d -> resolveMx env d = MxRecords (S n) ->
  run env (emailHasMx value) w = (true, w, [CResolveMx d]).
Proof. intros Hd Hmx. unfold emailHasMx. rewrite Hd. cbn [run]. now rewrite Hmx. Qed.

Lemma valid_email_not_blank (email : string) :
  isValidEmailFormat (clean_email email) = true -> is_blank email = false.
Proof. destruct email as [|c email]; [discriminate|reflexivity]. Qed.

(** C4: a request whose email is well formed but whose domain has no MX
    record, or whose resolution fails, is answered 400; the only call made
    is the MX resolution, and no table and no outbox has changed. With a
    website in the request the message is the one of the MX check. *)
Theorem C4_unreachable_email_domain (env : Env) (pf : Platform) (cfg : Config) (req : AnalyzeRequest)
    (w : World) (email : string) :
  body_email req = Some email ->
  isValidEmailFormat (clean_email email) = true ->
  (forall d, mx_domain (clean_email email) = Some d ->
             resolveMx env d = MxThrown \/ resolveMx env d = MxRecords 0) ->
  exists message log,
    run env (post_api_analyze pf cfg req) w = (error_response 400 message, w, log) /\
    Forall (fun c => exists d, c = CResolveMx d) log /\
    (forall website,
       body_website req = Some website -> is_blank website = false ->
       message = "That email domain cannot receive email. Please use a real email.").
Proof.
  intros He Hfmt Hmx. pose proof (valid_email_not_blank email Hfmt) as Hbe.
  unfold post_api_analyze. rewrite He.
  destruct (body_website req) as [website|].
  - rewrite Hbe. cbn [orb]. destruct (is_blank website) eqn:Hbw.
    + do 2 eexists. split; [reflexivity|]. split; [constructor|].
      intros website' [= <-] Hne. congruence.
    + rewrite Hfmt. cbn [negb]. rewrite run_bind.
      destruct (run_emailHasMx_none env (clean_email email) w Hmx) as (log & -> & Hlog).
      cbn. exists "That email domain cannot receive email. Please use a real email.", log.
      rewrite app_nil_r. auto.
  - do 2 eexists. split; [reflexivity|]. split; [constructor|]. discriminate.
Qed.

(** An email that is not well formed is answered 400 before any call. *)
Lemma analyze_invalid_email_format (env : Env) (pf : Platform) (cfg : Config) (req : AnalyzeRequest)
    (w : World) (email website : string) :
  body_email req = Some email -> body_website req = Some website ->
  is_blank email = false -> is_blank website = false ->
  isValidEmailFormat (clean_email email) = false ->
  run env (post_api_analyze pf cfg req) w
  = (error_response 400 "Invalid email. Please enter a real email address.", w, []).
Proof.
  intros He Hw Hbe Hbw Hfmt.
  unfold post_api_analyze. now rewrite He, Hw, Hbe, Hbw, Hfmt.
Qed.

(** A request that reaches the lookup is the lookup followed by the hit or
    the miss branch. *)
Lemma analyze_reaches_lookup (env : Env) (pf : Platform) (cfg : Config) (req : AnalyzeRequest)
    (w : World) (email website normalized : string) :
  reaches_lookup pf env req email website normalized ->
  exists d,
    mx_domain (clean_email email) = Some d /\
    steps 2 env (post_api_analyze pf cfg req) w
    = (match select_report env w (hashString normalized) with
       | SelectThrown message => Ret (error_response 500 message)
       | SelectFailed message => Ret (error_response 500 message)
       | Found cachedReport =>
           on_cache_hit pf cfg req (clean_email email) (final_business_name req) website
                        normalized (hashString normalized) cachedReport
       | NotFound =>
           on_cache_miss pf cfg req (clean_email email) (final_business_name req) website
                         normalized (hashString normalized)
       end, w) /\
    run env (post_api_analyze pf cfg req) w
    = let '(resp, w', log) :=
        run env (match select_report env w (hashString normalized) with
                 | SelectThrown message => Ret (error_response 500 message)
                 | SelectFailed message => Ret (error_response 500 message)
                 | Found cachedReport =>
                     on_cache_hit pf cfg req (clean_email email) (final_business_name req)
                                  website normalized (hashString normalized) cachedReport
                 | NotFound =>
                     on_cache_miss pf cfg req (clean_email email) (final_business_name req)
                                   website normalized (hashString normalized)
                 end) w in
      (resp, w', CResolveMx d :: CSelectReport (hashString normalized) :: log).
Proof.
  intros (He & Hw & Hbe & Hbw & Hfmt & (d & n & Hd & Hmx) & Hn & Hbn).
  exists d. split; [exact Hd|].
  unfold post_api_analyze. rewrite He, Hw, Hbe, Hbw, Hfmt. cbn [orb negb].
  unfold emailHasMx. rewrite Hd. cbn [bind steps step run]. rewrite Hmx.
  cbn [bind Nat.ltb Nat.leb negb]. rewrite Hn, Hbn. cbn [steps step run].
  split; [reflexivity|].
  destruct (run env _ w) as [[resp w'] log]. reflexivity.
Qed.



Lemma run_on_cache_miss_failed (env : Env) (pf : Platform) (cfg : Config) (req : AnalyzeRequest)
    (w : World) (cleanEmail fbn website normalized urlHash message : string) :
  insert_report_outcome env = Failed message \/
  insert_report_outcome env = Thrown message ->
  run env (on_cache_miss pf cfg req cleanEmail fbn website normalized urlHash) w
  = (error_response 500 message, w, [CInsertReport (fresh_report urlHash normalized)]).
Proof.
  intros H. unfold on_cache_miss. cbn [run]. unfold insert_report.
  destruct H as [-> | ->]; reflexivity.
Qed.

(** C8: when the insert of the lead fails, by an error object or by an
    exception, a request that is valid otherwise (the reports table works
    and the email can be rendered) is still answered 200, with
    [cached = true] and the stored report on a hit, and with
    [cached = false] and the fresh report on a miss. *)
Theorem C8_lead_failure_is_isolated (pf : Platform) (env : Env) (cfg : Config)
    (req : AnalyzeRequest) (w : World) (email website normalized message : string) :
  reaches_lookup pf env req email website normalized ->
  select_outcome env = Done -> insert_report_outcome env = Done ->
  insert_lead_outcome env = Failed message \/ insert_lead_outcome env = Thrown message ->
  renders pf cfg ->
  exists w' log,
    run env (post_api_analyze pf cfg req) w
    = (match reports w !! hashString normalized with
       | Some stored => Json 200 (ReportBody true stored)
       | None => Json 200 (ReportBody false (fresh_report (hashString normalized) normalized))
       end, w', log) /\
    leads w' = leads w.
Proof.
  intros Hreach Hsel Hins Hlead Hrenders.
  destruct (analyze_reaches_lookup env pf cfg req w email website normalized Hreach)
    as (d & _ & _ & ->).
  unfold select_report. rewrite Hsel.
  destruct (reports w !! hashString normalized) as [stored|] eqn:Hrow.
  - destruct (run_hit_full env pf cfg req w (clean_email email) (final_business_name req)
                website normalized stored)
      as (resp & w' & lead & sends & -> & Hans & _ & _ & _ & _ & Hl & _).
    assert (resp = Json 200 (ReportBody true stored)) as ->.
    { destruct Hans as [H|(m & _ & _ & Hfail)]; [exact H|].
      destruct (renders_not_failed pf cfg m Hrenders Hfail). }
    exists w'. eexists. split; [reflexivity|].
    rewrite Hl. destruct Hlead as [-> | ->]; reflexivity.
  - destruct (run_miss_full env pf cfg req w (clean_email email)
                (final_business_name req) website normalized Hins Hrow)
      as (resp & w' & lead & sends & -> & Hans & _ & _ & _ & _ & Hl & _).
    assert (resp = Json 200 (ReportBody false
                               (fresh_report (hashString normalized) normalized))) as ->.
    { destruct Hans as [H|(m & _ & _ & Hfail)]; [exact H|].
      destruct (renders_not_failed pf cfg m Hrenders Hfail). }
    exists w'. eexists. split; [reflexivity|].
    rewrite Hl. destruct Hlead as [-> | ->]; reflexivity.
Qed.

(** C1, as amended: a request that missed the cache and then finds, at
    its insert, that a report with the same fingerprint is present (a
    concurrent writer won) is answered 500 with the message of the insert
    error; it makes no other call (no second lookup, no lead, no email)
    and changes nothing. *)
Theorem C1_insert_conflict_is_an_error (env : Env) (pf : Platform) (cfg : Config) (req : AnalyzeRequest)
    (w : World) (email website normalized : string) :
  reaches_lookup pf env req email website normalized ->
  select_outcome env = Done -> insert_report_outcome env = Done ->
  reports w !! hashString normalized = None ->
  forall (w2 : World) (winner : Report),
    reports w2 !! hashString normalized = Some winner ->
    run env (fst (steps 2 env (post_api_analyze pf cfg req) w)) w2
    = (error_response 500 conflict_message, w2,
       [CInsertReport (fresh_report (hashString normalized) normalized)]).
Proof.
  intros Hreach Hsel Hins Hmiss w2 winner Hwin.
  destruct (analyze_reaches_lookup env pf cfg req w email website normalized Hreach)
    as (d & _ & -> & _).
  unfold select_report. rewrite Hsel, Hmiss. cbn [fst].
  unfold on_cache_miss. cbn [run]. unfold insert_report. rewrite Hins.
  cbn [url_hash fresh_report]. rewrite Hwin. reflexivity.
Qed.

Lemma or_none_idem (s : string) :
  match or_none s with Some e => or_none e | None => None end = or_none s.
Proof. unfold or_none. destruct (is_blank s) eqn:H; [reflexivity|]. now rewrite H. Qed.

(** C5, as amended: with [to] and [e] the query parameters as strings,
    trimmed: when [to] is empty (missing or blank) or does not start with
    http:// or https:// (in any letter case), the answer is 400, nothing is
    called and nothing changes; otherwise exactly one event insert is
    attempted, with the event type [e] ("click" when [e] is empty) and no
    email, and the answer is a 302 redirect to [to] whether or not the
    insert succeeded. *)
Theorem C5_redirect_tracker (env : Env) (req : RedirectRequest) (w : World) :
  let to_ := safeString (query_to req) in
  let '(resp, w', log) := run env (get_r req) w in
  if is_blank to_ || negb (test_http_scheme (lit to_))
  then resp = Text 400 "Bad redirect" /\ w' = w /\ log = []
  else resp = Redirect 302 to_ /\
       log = [CInsertEvent (redirect_event req)] /\
       event_email (redirect_event req) = None /\
       event_type (redirect_event req)
         = (if is_blank (safeString (query_e req)) then "click"
            else safeString (query_e req)) /\
       reports w' = reports w /\ leads w' = leads w /\ outbox w' = outbox w /\
       events w' = match insert_event_outcome env with
                   | Done => events w ++ [redirect_event req]
                   | _ => events w
                   end.
Proof.
  cbv zeta. unfold get_r.
  destruct (is_blank (safeString (query_to req)) || negb (test_http_scheme _)) eqn:Hbad.
  - cbn. auto.
  - unfold logEvent. rewrite !or_none_idem. cbn [bind run]. unfold insert_event.
    fold (redirect_event req).
    destruct (insert_event_outcome env); cbn; repeat split; reflexivity.
Qed.

(** C5 as stated fails: a [to] that begins with a space does not begin
    with http:// or https://, and the answer is a redirect, not a 400. *)
Lemma C5_counterexample :
  let to_ := " https://example.com" in
  test_http_scheme (lit to_) = false /\
  fst (fst (run (quiet_env (fun _ => MxThrown))
                (get_r {| query_to := QString to_; query_e := QAbsent;
                          query_h := QAbsent; query_d := QAbsent; query_t := QAbsent;
                          header_user_agent := None; header_referer := None |})
                empty_world))
  = Redirect 302 "https://example.com".
Proof. split; vm_compute; reflexivity. Qed.

Lemma safeString_missing : safeString QAbsent = EmptyString.
Proof. reflexivity. Qed.

(** The two requests of the spec: [/r?to=javascript:alert(1)] and
    [/r?to=https://example.com&e=click&h=abc]. *)
Lemma redirect_examples :
  run (quiet_env (fun _ => MxThrown))
      (get_r {| query_to := QString "javascript:alert(1)"; query_e := QAbsent;
                query_h := QAbsent; query_d := QAbsent; query_t := QAbsent;
                header_user_agent := None; header_referer := None |})
      empty_world
  = (Text 400 "Bad redirect", empty_world, []) /\
  (let '(resp, w, log) :=
     run (quiet_env (fun _ => MxThrown))
         (get_r {| query_to := QString "https://example.com"; query_e := QString "click";
                   query_h := QString "abc"; query_d := QAbsent; query_t := QAbsent;
                   header_user_agent := None; header_referer := None |})
         empty_world in
   resp = Redirect 302 "https://example.com" /\
   map event_type (events w) = ["click"] /\
   map event_url_hash (events w) = [Some "abc"] /\
   length log = 1%nat).
Proof. split; vm_compute; auto. Qed.








(** ** The properties at sample values *)

Lemma sample_reaches_lookup (env : Env) (refresh : js_scalar) :
  resolveMx env "example.org" = MxRecords 1 ->
  reaches_lookup sample_platform env (sample_request refresh) " Ann@Example.org "
                 "https://WWW.Example.com/pricing" "example.com".
Proof.
  intros Hmx. unfold reaches_lookup.
  repeat (split; [vm_compute; reflexivity|]).
  split; [|split; vm_compute; reflexivity].
  exists "example.org", 0%nat. split; [vm_compute; reflexivity|exact Hmx].
Qed.

(** C4 at the sample request, with a resolver that finds no record. *)
Lemma C4_witness :
  exists message log,
    run (quiet_env (fun _ => MxRecords 0))
        (post_api_analyze sample_platform sample_config (sample_request (JBool false))) empty_world
    = (error_response 400 message, empty_world, log) /\
    Forall (fun c => exists d, c = CResolveMx d) log /\
    (forall website,
       body_website (sample_request (JBool false)) = Some website ->
       is_blank website = false ->
       message = "That email domain cannot receive email. Please use a real email.").
Proof.
  apply (C4_unreachable_email_domain _ _ _ _ _ " Ann@Example.org ").
  - reflexivity.
  - vm_compute. reflexivity.
  - intros d _. right. reflexivity.
Defined.

Lemma sample_renders : renders sample_platform sample_config.
Proof. right. right. exists "http://localhost:3001/r". reflexivity. Qed.


(** C8 at the sample request, with a leads table that throws. *)
Lemma C8_witness :
  exists w' log,
    run lead_store_down
        (post_api_analyze sample_platform sample_config (sample_request (JBool false))) empty_world
    = (Json 200 (ReportBody false (fresh_report (hashString "example.com") "example.com")),
       w', log) /\
    leads w' = leads empty_world.
Proof.
  destruct (C8_lead_failure_is_isolated sample_platform lead_store_down sample_config
              (sample_request (JBool false)) empty_world " Ann@Example.org "
              "https://WWW.Example.com/pricing" "example.com" "fetch failed")
    as (w' & log & Hrun & Hleads).
  - apply sample_reaches_lookup. reflexivity.
  - reflexivity.
  - reflexivity.
  - right. reflexivity.
  - exact sample_renders.
  - unfold empty_world in Hrun at 2. cbn [reports] in Hrun. rewrite lookup_empty in Hrun.
    exists w', log. split; [exact Hrun|exact Hleads].
Defined.

(** C1 at the sample request: the lookup runs on the empty world, the
    insert on a world where the report is present. *)
Lemma C1_witness :
  run (quiet_env (fun _ => MxRecords 1))
      (fst (steps 2 (quiet_env (fun _ => MxRecords 1))
                  (post_api_analyze sample_platform sample_config (sample_request (JBool false)))
                  empty_world))
      world_with_report
  = (error_response 500 conflict_message, world_with_report,
     [CInsertReport (fresh_report (hashString "example.com") "example.com")]).
Proof.
  assert (Hreach : reaches_lookup sample_platform (quiet_env (fun _ => MxRecords 1))
                     (sample_request (JBool false)) " Ann@Example.org "
                     "https://WWW.Example.com/pricing" "example.com")
    by (apply sample_reaches_lookup; reflexivity).
  assert (Hmiss : reports empty_world !! hashString "example.com" = None)
    by (unfold empty_world; cbn [reports]; apply lookup_empty).
  assert (Hwin : reports world_with_report !! hashString "example.com" = Some stored_report)
    by (unfold world_with_report; cbn [reports]; apply lookup_singleton_eq).
  exact (C1_insert_conflict_is_an_error _ sample_platform sample_config _ _ _ _ _ Hreach eq_refl eq_refl
           Hmiss world_with_report stored_report Hwin).
Defined.

(** C1 as stated fails: of two identical requests in flight, both miss,
    the first insert wins, and the second request is answered 500 with the
    conflict; it does not read the row again. *)
Lemma C1_counterexample :
  let env := quiet_env (fun _ => MxRecords 1) in
  let request := post_api_analyze sample_platform sample_config (sample_request (JBool false)) in
  let '(first, second, w) :=
    interleave env [true; false; true; false; true; false; true; true]
               request request empty_world in
  result_of first
    = Some (Json 200 (ReportBody false (fresh_report (hashString "example.com") "example.com"))) /\
  result_of second = Some (error_response 500 conflict_message) /\
  reports w !! (hashString "example.com") = Some (fresh_report (hashString "example.com") "example.com") /\
  length (leads w) = 1%nat.
Proof. vm_compute. repeat split. Qed.

(** ** HTML escaping *)

Lemma replace_all_app c rep a b :
  replace_all c rep (a ++ b) = replace_all c rep a ++ replace_all c rep b.
Proof. unfold replace_all. apply flat_map_app. Qed.

Lemma escapeHtml_chars_app a b :
  escapeHtml_chars (a ++ b) = escapeHtml_chars a ++ escapeHtml_chars b.
Proof. unfold escapeHtml_chars. now rewrite !replace_all_app. Qed.

Lemma escapeHtml_chars_one c : escapeHtml_chars [c] = entity c.
Proof. each_char c. Qed.

Lemma escapeHtml_chars_entities text : escapeHtml_chars text = flat_map entity text.
Proof.
  induction text as [|c text IH]; [reflexivity|].
  change (c :: text) with ([c] ++ text).
  rewrite escapeHtml_chars_app, escapeHtml_chars_one, IH. reflexivity.
Qed.

Lemma entity_no_markup c : existsb is_markup_char (entity c) = false.
Proof. each_char c. Qed.

Lemma existsb_flat_map {A B : Type} (p : B -> bool) (f : A -> list B) (l : list A) :
  (forall x, existsb p (f x) = false) -> existsb p (flat_map f l) = false.
Proof.
  intros H. induction l as [|x l IH]; [reflexivity|].
  cbn [flat_map]. now rewrite existsb_app, H, IH.
Qed.

Lemma entity_prefix_free c d a b :
  entity c ++ a = entity d ++ b -> c = d /\ a = b.
Proof.
  unfold entity.
  destruct (Ascii.eqb_spec c "&") as [->|Hc1]; [|
  destruct (Ascii.eqb_spec c "<") as [->|Hc2]; [|
  destruct (Ascii.eqb_spec c ">") as [->|Hc3]; [|
  destruct (Ascii.eqb_spec c double_quote) as [->|Hc4]; [|
  destruct (Ascii.eqb_spec c "'") as [->|Hc5]]]]];
  (destruct (Ascii.eqb_spec d "&") as [->|Hd1]; [|
   destruct (Ascii.eqb_spec d "<") as [->|Hd2]; [|
   destruct (Ascii.eqb_spec d ">") as [->|Hd3]; [|
   destruct (Ascii.eqb_spec d double_quote) as [->|Hd4]; [|
   destruct (Ascii.eqb_spec d "'") as [->|Hd5]]]]]);
  cbn; intros E; try discriminate E;
  try (injection E as <-; split; reflexivity);
  try (injection E as E1 E2; subst; try congruence; split; reflexivity).
Qed.

Lemma flat_map_entity_inj a : forall b,
  flat_map entity a = flat_map entity b -> a = b.
Proof.
  assert (Hne : forall c r, entity c ++ r <> []).
  { intros c r. unfold entity.
    repeat match goal with |- context [if ?t then _ else _] => destruct t end;
    discriminate. }
  induction a as [|c a IH]; intros [|d b] E; cbn [flat_map] in E.
  - reflexivity.
  - symmetry in E. now apply Hne in E.
  - now apply Hne in E.
  - apply entity_prefix_free in E as [-> E]. f_equal. now apply IH.
Qed.

(** ** The fingerprint is sixty-four digits *)

Lemma hex_digit_lower n : (n < 16)%N -> is_lower_hex (Sha256.hex_digit n) = true.
Proof.
  intros H.
  assert (Hall : forallb (fun k => is_lower_hex (Sha256.hex_digit (N.of_nat k)))
                         (seq 0 16) = true) by (vm_compute; reflexivity).
  rewrite forallb_forall in Hall.
  specialize (Hall (N.to_nat n)). rewrite N2Nat.id in Hall.
  apply Hall. apply in_seq. lia.
Qed.

Lemma hex_length bytes : length (Sha256.hex bytes) = (2 * length bytes)%nat.
Proof.
  unfold Sha256.hex. induction bytes as [|b bytes IH]; [reflexivity|].
  cbn [flat_map length app]. rewrite IH. lia.
Qed.

Lemma hex_lower bytes :
  Forall (fun b => (b < 256)%N) bytes ->
  forallb is_lower_hex (Sha256.hex bytes) = true.
Proof.
  unfold Sha256.hex. induction 1 as [|b bytes Hb _ IH]; [reflexivity|].
  cbn [flat_map app forallb]. rewrite IH, !hex_digit_lower; [reflexivity| |].
  - apply N.mod_lt. discriminate.
  - apply N.Div0.div_lt_upper_bound. exact Hb.
Qed.

Lemma be_bytes_length count x : length (Sha256.be_bytes count x) = count.
Proof. unfold Sha256.be_bytes. now rewrite length_map, length_rev, length_seq. Qed.

Lemma be_bytes_small count x : Forall (fun b => (b < 256)%N) (Sha256.be_bytes count x).
Proof.
  unfold Sha256.be_bytes. apply Forall_map, Forall_forall. intros i _.
  change 255%N with (N.ones 8). rewrite N.land_ones.
  apply N.mod_lt. discriminate.
Qed.

Lemma digest_shape msg :
  length (Sha256.digest msg) = 32%nat /\
  Forall (fun b => (b < 256)%N) (Sha256.digest msg).
Proof.
  unfold Sha256.digest.
  destruct (Sha256.blocks _ Sha256.H0 _) as [[[[[[[a b] c] d] e] f] g] h].
  cbn [flat_map]. rewrite !length_app, !be_bytes_length, app_nil_r.
  split; [reflexivity|].
  repeat (apply Forall_app; split); apply be_bytes_small.
Qed.

(** ** Trimming twice, and cleaning an email *)

Lemma drop_while_stops (p : ascii -> bool) l :
  drop_while p l = [] \/ exists c r, drop_while p l = c :: r /\ p c = false.
Proof.
  induction l as [|c l IH]; [now left|]. cbn.
  destruct (p c) eqn:Hc; [exact IH|]. right. eauto.
Qed.

Lemma drop_while_idem (p : ascii -> bool) l :
  drop_while p (drop_while p l) = drop_while p l.
Proof.
  destruct (drop_while_stops p l) as [->|(c & r & -> & Hc)]; [reflexivity|].
  now apply drop_while_head.
Qed.

Lemma drop_while_end_idem (p : ascii -> bool) l :
  drop_while_end p (drop_while_end p l) = drop_while_end p l.
Proof. unfold drop_while_end. now rewrite rev_involutive, drop_while_idem. Qed.

Lemma trim_trim l : trim (trim l) = trim l.
Proof.
  unfold trim.
  destruct (drop_while_stops is_js_whitespace l) as [->|(c & r & -> & Hc)];
    [reflexivity|].
  rewrite (drop_while_end_keep _ c r Hc), (drop_while_head _ c _ Hc),
          (drop_while_end_keep _ c _ Hc), drop_while_end_idem.
  reflexivity.
Qed.

Lemma js_lower_whitespace c : is_js_whitespace (js_lowercase_char c) = is_js_whitespace c.
Proof. each_char c. Qed.
Lemma js_lower_not_space_at c : not_space_at (js_lowercase_char c) = not_space_at c.
Proof. each_char c. Qed.
Lemma js_lower_at c : is_char "@" (js_lowercase_char c) = is_char "@" c.
Proof. each_char c. Qed.
Lemma js_lower_dot c : is_char "." (js_lowercase_char c) = is_char "." c.
Proof. each_char c. Qed.

Lemma trim_toLowerCase l : trim (toLowerCase l) = toLowerCase (trim l).
Proof.
  unfold trim, toLowerCase.
  now rewrite drop_while_map, drop_while_end_map by apply js_lower_whitespace.
Qed.

Lemma removelast_map {A B : Type} (f : A -> B) (l : list A) :
  removelast (map f l) = map f (removelast l).
Proof.
  induction l as [|a [|b l] IH]; [reflexivity|reflexivity|].
  change (f a :: removelast (map f (b :: l)) = f a :: map f (removelast (b :: l))).
  now rewrite IH.
Qed.

Lemma has_inner_dot_toLowerCase l : has_inner_dot (toLowerCase l) = has_inner_dot l.
Proof.
  destruct l as [|c l]; [reflexivity|]. unfold toLowerCase. cbn [map has_inner_dot].
  now rewrite removelast_map, (existsb_map_class _ _ js_lower_dot).
Qed.

Lemma valid_toLowerCase l :
  isValidEmailFormat_chars (toLowerCase l) = isValidEmailFormat_chars l.
Proof.
  unfold isValidEmailFormat_chars. rewrite trim_toLowerCase. unfold toLowerCase.
  rewrite (take_while_map _ _ js_lower_not_space_at),
          (drop_while_map _ _ js_lower_not_space_at).
  destruct (drop_while not_space_at (trim l)) as [|c dom]; [reflexivity|].
  cbn [map].
  rewrite js_lower_at, is_empty_map, (forallb_map_class _ _ js_lower_not_space_at).
  fold (toLowerCase dom). now rewrite has_inner_dot_toLowerCase.
Qed.

Lemma valid_trim l : isValidEmailFormat_chars (trim l) = isValidEmailFormat_chars l.
Proof. unfold isValidEmailFormat_chars. now rewrite trim_trim. Qed.

Lemma valid_clean_email e : isValidEmailFormat (clean_email e) = isValidEmailFormat e.
Proof.
  unfold isValidEmailFormat, clean_email, lower_string, trim_string.
  now rewrite !lit_str, valid_toLowerCase, valid_trim.
Qed.

(** ** The shape of a well formed email *)

Lemma take_drop_while (p : ascii -> bool) l : take_while p l ++ drop_while p l = l.
Proof.
  induction l as [|c l IH]; [reflexivity|]. cbn.
  destruct (p c); [cbn; now rewrite IH|reflexivity].
Qed.

Lemma take_while_all (p : ascii -> bool) l : forallb p (take_while p l) = true.
Proof.
  induction l as [|c l IH]; [reflexivity|]. cbn.
  destruct (p c) eqn:Hc; [cbn; now rewrite Hc|reflexivity].
Qed.

Lemma take_drop_stop (p : ascii -> bool) a c r :
  forallb p a = true -> p c = false ->
  take_while p (a ++ c :: r) = a /\ drop_while p (a ++ c :: r) = c :: r.
Proof.
  intros Ha Hc. induction a as [|x a IH]; cbn.
  - now rewrite Hc.
  - apply forallb_cons_inv in Ha as [Hx Ha]. rewrite Hx.
    destruct (IH Ha) as [-> ->]. auto.
Qed.

Lemma valid_email_shape value :
  isValidEmailFormat_chars value = true <->
  exists local_part domain_part,
    trim value = local_part ++ "@"%char :: domain_part /\
    local_part <> [] /\
    forallb not_space_at local_part = true /\
    forallb not_space_at domain_part = true /\
    has_inner_dot domain_part = true.
Proof.
  unfold isValidEmailFormat_chars. split.
  - pose proof (take_drop_while not_space_at (trim value)) as Hsplit.
    pose proof (take_while_all not_space_at (trim value)) as Hlocal.
    destruct (drop_while not_space_at (trim value)) as [|c dom]; [discriminate|].
    intros H. repeat (apply andb_prop in H as [H ?]).
    apply Ascii.eqb_eq in H. subst c.
    exists (take_while not_space_at (trim value)), dom.
    repeat split; auto.
    destruct (take_while not_space_at (trim value)); [discriminate|discriminate].
  - intros (loc & dom & -> & Hne & Hloc & Hdom & Hdot).
    destruct (take_drop_stop not_space_at loc "@" dom Hloc eq_refl) as [-> ->].
    rewrite Hdom, Hdot. destruct loc; [contradiction|reflexivity].
Qed.

Lemma not_space_at_no_at l :
  forallb not_space_at l = true ->
  forallb (fun c => negb (is_char "@" c)) (toLowerCase l) = true.
Proof.
  induction l as [|c l IH]; [reflexivity|]. intros H.
  apply forallb_cons_inv in H as [Hc Hl]. cbn [toLowerCase map forallb].
  rewrite js_lower_at. fold (toLowerCase l). rewrite (IH Hl), andb_true_r.
  unfold not_space_at in Hc. now apply andb_prop in Hc as [_ Hc].
Qed.

Lemma valid_mx_domain value :
  isValidEmailFormat value = true ->
  exists local_part domain_part,
    trim (lit value) = local_part ++ "@"%char :: domain_part /\
    mx_domain value = Some (str (toLowerCase domain_part)).
Proof.
  intros H. apply valid_email_shape in H as (loc & dom & Ht & _ & Hloc & Hdom & Hdot).
  exists loc, dom. split; [exact Ht|].
  unfold mx_domain. rewrite Ht. unfold toLowerCase at 1. rewrite map_app. cbn [map].
  change (js_lowercase_char "@") with "@"%char.
  fold (toLowerCase loc). fold (toLowerCase dom).
  rewrite split_on_app_sep by (apply not_space_at_no_at, Hloc).
  rewrite split_on_no_sep by (apply not_space_at_no_at, Hdom).
  destruct dom as [|c dom]; [discriminate|]. reflexivity.
Qed.

Lemma run_emailHasMx_valid (env : Env) (value : string) (w : World) :
  isValidEmailFormat value = true ->
  exists d, mx_domain value = Some d /\
    run env (emailHasMx value) w
    = (match resolveMx env d with MxRecords (S _) => true | _ => false end,
       w, [CResolveMx d]).
Proof.
  intros H. destruct (valid_mx_domain value H) as (loc & dom & _ & Hd).
  exists (str (toLowerCase dom)). split; [exact Hd|].
  unfold emailHasMx. rewrite Hd. cbn [run].
  destruct (resolveMx env _) as [[|n]|]; reflexivity.
Qed.

(** ** Every run of the analysis *)

Lemma is_blank_empty (s : string) : is_blank s = true -> s = EmptyString.
Proof. destruct s; [reflexivity|discriminate]. Qed.

(** A request is turned away with 400, for one of four causes, after at
    most the MX resolution and with nothing changed, or it reaches the
    lookup. *)
Lemma analyze_validation (env : Env) (pf : Platform) (cfg : Config) (req : AnalyzeRequest)
    (w : World) :
  (exists message log,
     run env (post_api_analyze pf cfg req) w = (error_response 400 message, w, log) /\
     (log = [] \/ exists d, log = [CResolveMx d]) /\
     rejection_cause pf env req message) \/
  (exists email website normalized, reaches_lookup pf env req email website normalized).
Proof.
  unfold post_api_analyze, rejection_cause.
  destruct (body_email req) as [email|] eqn:He.
  2:{ left. destruct (body_website req); do 2 eexists;
      (split; [reflexivity|]); (split; [now left|]); left; split; reflexivity. }
  destruct (body_website req) as [website|] eqn:Hw.
  2:{ left. do 2 eexists. split; [reflexivity|]. split; [now left|]. left.
      split; [reflexivity|]. cbn [or_empty]. apply orb_true_r. }
  cbn [or_empty].
  destruct (is_blank email || is_blank website) eqn:Hblank.
  { left. do 2 eexists. split; [reflexivity|]. split; [now left|]. left. now split. }
  apply orb_false_elim in Hblank as [Hbe Hbw].
  destruct (isValidEmailFormat (clean_email email)) eqn:Hfmt; cbn [negb].
  2:{ left. do 2 eexists. split; [reflexivity|]. split; [now left|]. right.
      exists email, website. repeat (split; [reflexivity || assumption|]).
      left. split; [reflexivity|exact Hfmt]. }
  destruct (run_emailHasMx_valid env (clean_email email) w Hfmt) as (d & Hd & Hrun).
  rewrite run_bind, Hrun.
  destruct (resolveMx env d) as [[|n]|] eqn:Hmx; cbn [negb].
  - left. do 2 eexists. split; [reflexivity|]. split; [right; eauto|]. right.
    exists email, website. repeat (split; [reflexivity || assumption|]).
    right. split; [exact Hfmt|]. exists d. split; [exact Hd|]. left. auto.
  - destruct (normalizeUrl pf website) as [normalized|] eqn:Hn.
    + destruct (is_blank normalized) eqn:Hbn.
      * left. do 2 eexists. split; [reflexivity|]. split; [right; eauto|]. right.
        exists email, website. repeat (split; [reflexivity || assumption|]).
        right. split; [exact Hfmt|]. exists d. split; [exact Hd|]. right.
        apply is_blank_empty in Hbn. subst normalized. eauto.
      * right. exists email, website, normalized. unfold reaches_lookup.
        repeat (split; [assumption|]). split; [eauto|]. auto.
    + left. do 2 eexists. split; [reflexivity|]. split; [right; eauto|]. right.
      exists email, website. repeat (split; [reflexivity || assumption|]).
      right. split; [exact Hfmt|]. exists d. split; [exact Hd|]. right. eauto.
  - left. do 2 eexists. split; [reflexivity|]. split; [right; eauto|]. right.
    exists email, website. repeat (split; [reflexivity || assumption|]).
    right. split; [exact Hfmt|]. exists d. split; [exact Hd|]. left. auto.
Qed.

(** The four ways a request goes on from the lookup. After the lead is
    written the answer is the report, or the error thrown by the
    rendering of the email. *)
Lemma analyze_after_lookup (env : Env) (pf : Platform) (cfg : Config)
    (req : AnalyzeRequest) (w : World) (email website normalized : string) :
  reaches_lookup pf env req email website normalized ->
  exists d resp w' rest,
    mx_domain (clean_email email) = Some d /\
    run env (post_api_analyze pf cfg req) w
    = (resp, w', CResolveMx d :: CSelectReport (hashString normalized) :: rest) /\
    ((exists message,
        (select_outcome env = Failed message \/ select_outcome env = Thrown message) /\
        resp = error_response 500 message /\ w' = w /\ rest = [])
     \/ (exists r lead sends,
           select_outcome env = Done /\ reports w !! hashString normalized = Some r /\
           answered pf cfg resp true r sends /\ rest = CInsertLead lead :: sends /\
           lead_snapshot lead (clean_email email) normalized r /\
           lead_names lead (final_business_name req) (body_name req) /\
           reports w' = reports w /\ events w' = events w /\
           leads w' = match insert_lead_outcome env with
                      | Done => leads w ++ [lead]
                      | _ => leads w
                      end /\
           mail_sent env cfg (clean_email email) r sends (outbox w) (outbox w') /\
           (sends <> [] -> is_true (body_refresh req) = true))
     \/ (exists message,
           select_outcome env = Done /\ reports w !! hashString normalized = None /\
           (insert_report_outcome env = Failed message \/
            insert_report_outcome env = Thrown message) /\
           resp = error_response 500 message /\ w' = w /\
           rest = [CInsertReport (fresh_report (hashString normalized) normalized)])
     \/ (exists lead sends,
           select_outcome env = Done /\ reports w !! hashString normalized = None /\
           insert_report_outcome env = Done /\
           answered pf cfg resp false
                    (fresh_report (hashString normalized) normalized) sends /\
           rest = CInsertReport (fresh_report (hashString normalized) normalized)
                  :: CInsertLead lead :: sends /\
           lead_snapshot lead (clean_email email) normalized
                         (fresh_report (hashString normalized) normalized) /\
           lead_names lead (final_business_name req) (body_name req) /\
           reports w'
           = <[hashString normalized := fresh_report (hashString normalized) normalized]>
               (reports w) /\
           events w' = events w /\
           leads w' = match insert_lead_outcome env with
                      | Done => leads w ++ [lead]
                      | _ => leads w
                      end /\
           mail_sent env cfg (clean_email email)
                     (fresh_report (hashString normalized) normalized)
                     sends (outbox w) (outbox w'))).
Proof.
  intros Hreach.
  destruct (analyze_reaches_lookup env pf cfg req w email website normalized Hreach)
    as (d & Hd & _ & ->).
  exists d. unfold select_report.
  destruct (select_outcome env) as [|message|message] eqn:Hsel.
  - destruct (reports w !! hashString normalized) as [r|] eqn:Hrow.
    + destruct (run_hit_full env pf cfg req w (clean_email email) (final_business_name req)
                  website normalized r)
        as (resp & w' & lead & sends & -> & Hans & Hsnap & Hnames & Hr & He & Hl & Hmail
            & Href & _).
      do 3 eexists. split; [exact Hd|]. split; [reflexivity|].
      right; left. exists r, lead, sends. auto 14.
    + destruct (insert_report_outcome env) as [|message|message] eqn:Hins.
      * destruct (run_miss_full env pf cfg req w (clean_email email)
                    (final_business_name req) website normalized Hins Hrow)
          as (resp & w' & lead & sends & -> & Hans & Hsnap & Hnames & Hr & He & Hl & Hmail
              & _).
        do 3 eexists. split; [exact Hd|]. split; [reflexivity|].
        right; right; right. exists lead, sends. auto 14.
      * rewrite (run_on_cache_miss_failed env pf cfg req w _ _ _ _ _ message
                   (or_introl Hins)).
        do 3 eexists. split; [exact Hd|]. split; [reflexivity|].
        right; right; left. exists message. auto 10.
      * rewrite (run_on_cache_miss_failed env pf cfg req w _ _ _ _ _ message
                   (or_intror Hins)).
        do 3 eexists. split; [exact Hd|]. split; [reflexivity|].
        right; right; left. exists message. auto 10.
  - do 3 eexists. split; [exact Hd|]. split; [reflexivity|].
    left. exists message. auto 10.
  - do 3 eexists. split; [exact Hd|]. split; [reflexivity|].
    left. exists message. auto 10.
Qed.

(** An answer that is not an error is the report. *)
Lemma answered_200 (pf : Platform) (cfg : Config) (resp : Response) (cached : bool)
    (r : Report) (sends : list Call) (body : Body) :
  answered pf cfg resp cached r sends -> resp = Json 200 body ->
  body = ReportBody cached r.
Proof.
  intros [->|(message & -> & _)] H; [now injection H as <-|discriminate H].
Qed.

(** With an email that can be rendered the answer is the report. *)
Lemma answered_renders (pf : Platform) (cfg : Config) (resp : Response) (cached : bool)
    (r : Report) (sends : list Call) :
  renders pf cfg -> answered pf cfg resp cached r sends ->
  resp = Json 200 (ReportBody cached r).
Proof.
  intros Hr [H|(message & _ & _ & Hfail)]; [exact H|].
  destruct (renders_not_failed pf cfg message Hr Hfail).
Qed.

(** ** Further properties of the server's helpers *)

(** X1: the text returned by [escapeHtml] holds no "<", no ">", no double
    quote and no apostrophe, whatever the input: it cannot open or close a
    tag or an attribute value. *)
Theorem X1_escapeHtml_leaves_no_markup (v : option string) :
  existsb is_markup_char (lit (escapeHtml v)) = false.
Proof.
  unfold escapeHtml. rewrite lit_str, escapeHtml_chars_entities.
  apply existsb_flat_map, entity_no_markup.
Qed.

(** X2: [escapeHtml] replaces every character by its own entity, once: the
    five replacements in a row do not escape the "&" of an entity that an
    earlier replacement wrote. So the result of a concatenation is the
    concatenation of the results. *)
Theorem X2_escapeHtml_escapes_each_character_once (a b : string) :
  lit (escapeHtml (Some a)) = flat_map entity (lit a) /\
  escapeHtml (Some (a +:+ b)) = escapeHtml (Some a) +:+ escapeHtml (Some b).
Proof.
  unfold escapeHtml. cbn [or_empty]. split.
  - now rewrite lit_str, escapeHtml_chars_entities.
  - apply lit_inj.
    now rewrite ?lit_append, ?lit_str, ?lit_append, ?lit_str, escapeHtml_chars_app.
Qed.

(** X3: [escapeHtml] loses nothing: two different texts are escaped to two
    different texts. *)
Theorem X3_escapeHtml_is_injective (a b : string) :
  a <> b -> escapeHtml (Some a) <> escapeHtml (Some b).
Proof.
  intros Hne E. apply Hne, lit_inj, flat_map_entity_inj.
  apply (f_equal lit) in E. unfold escapeHtml in E. cbn [or_empty] in E.
  now rewrite !lit_str, !escapeHtml_chars_entities in E.
Qed.

(** X3 at a text and at its own escaped form. *)
Lemma X3_witness : escapeHtml (Some "a<b") <> escapeHtml (Some "a&lt;b").
Proof. apply X3_escapeHtml_is_injective. discriminate. Defined.

(** X4: the fingerprint of any text is sixty-four characters long, each a
    digit or a letter from a to f. *)
Theorem X4_hashString_is_64_lowercase_hex_digits (s : string) :
  length (lit (hashString s)) = 64%nat /\
  forallb is_lower_hex (lit (hashString s)) = true.
Proof.
  unfold hashString. rewrite lit_str.
  destruct (digest_shape (Sha256.utf8 (lit s))) as [Hlen Hsmall].
  split; [now rewrite hex_length, Hlen|now apply hex_lower].
Qed.

(** X5: what [isValidEmailFormat] accepts. After trimming, the value is a
    local part, one "@" and a domain part; neither part holds white space
    or another "@"; the local part is not empty; and the domain part has a
    "." that is neither its first nor its last character. *)
Theorem X5_valid_email_shape (value : string) :
  isValidEmailFormat value = true <->
  exists local_part domain_part,
    trim (lit value) = local_part ++ "@"%char :: domain_part /\
    local_part <> [] /\
    forallb not_space_at local_part = true /\
    forallb not_space_at domain_part = true /\
    has_inner_dot domain_part = true.
Proof. apply valid_email_shape. Qed.

(** X6: for a well formed email, [emailHasMx] always asks the resolver,
    once, for the lowercased text after the "@"; it answers [true] when at
    least one record comes back, and [false] for an empty answer or a
    rejection. Nothing else is called and nothing is stored. *)
Theorem X6_emailHasMx_resolves_the_domain_part (env : Env) (value : string) (w : World) :
  isValidEmailFormat value = true ->
  exists local_part domain_part,
    trim (lit value) = local_part ++ "@"%char :: domain_part /\
    run env (emailHasMx value) w
    = (match resolveMx env (str (toLowerCase domain_part)) with
       | MxRecords (S _) => true
       | _ => false
       end, w, [CResolveMx (str (toLowerCase domain_part))]).
Proof.
  intros H. destruct (valid_mx_domain value H) as (loc & dom & Ht & Hd).
  exists loc, dom. split; [exact Ht|].
  unfold emailHasMx. rewrite Hd. cbn [run].
  destruct (resolveMx env _) as [[|n]|]; reflexivity.
Qed.

(** X6 at an address with capitals and with spaces around it. *)
Lemma X6_witness :
  exists local_part domain_part,
    trim (lit " Ann@Example.org ") = local_part ++ "@"%char :: domain_part /\
    run (quiet_env (fun _ => MxRecords 0)) (emailHasMx " Ann@Example.org ") empty_world
    = (match resolveMx (quiet_env (fun _ => MxRecords 0))
               (str (toLowerCase domain_part)) with
       | MxRecords (S _) => true
       | _ => false
       end, empty_world, [CResolveMx (str (toLowerCase domain_part))]).
Proof. apply X6_emailHasMx_resolves_the_domain_part. vm_compute. reflexivity. Defined.

(** X7: trimming and lowercasing an email does not change the verdict of
    the format test. So the test that [POST /api/analyze] makes on the
    cleaned address gives what [isValidEmail] of the page gives on the
    address as typed. *)
Theorem X7_cleaning_keeps_the_verdict (email : string) :
  isValidEmailFormat (clean_email email) = isValidEmailFormat email /\
  isValidEmailFormat (clean_email email) = Ui.isValidEmail email.
Proof. split; apply valid_clean_email. Qed.

(** ** Further properties of [POST /api/analyze] *)

Ltac in_log H :=
  repeat (destruct H as [H|H]; [try discriminate H|]); try contradiction.

(** X8: a request without an email or without a website, or with an empty
    one, is answered 400 "Website and email are required." before any
    call: no MX resolution, no lookup, and nothing is stored. *)
Theorem X8_missing_field_is_rejected_first (env : Env) (pf : Platform) (cfg : Config)
    (req : AnalyzeRequest) (w : World) :
  is_blank (or_empty (body_email req)) || is_blank (or_empty (body_website req)) = true ->
  run env (post_api_analyze pf cfg req) w
  = (error_response 400 "Website and email are required.", w, []).
Proof.
  unfold post_api_analyze.
  destruct (body_email req) as [email|], (body_website req) as [website|];
    cbn [or_empty]; try reflexivity.
  now intros ->.
Qed.

(** X8 at a request that has a website and no email. *)
Lemma X8_witness :
  run (quiet_env (fun _ => MxRecords 1))
      (post_api_analyze sample_platform sample_config
         {| body_name := None; body_email := None;
            body_website := Some "example.com"; body_businessName := None;
            body_business_name := None; body_refresh := JUndefined |})
      world_with_report
  = (error_response 400 "Website and email are required.", world_with_report, []).
Proof. apply X8_missing_field_is_rejected_first. reflexivity. Defined.

(** X9: the website is checked after the email. When the email is well
    formed and its domain has an MX record, a website that the normalizer
    rejects, or turns into the empty text, is answered 400 "Invalid
    website URL."; the MX resolution is the only call that was made, and
    nothing is stored. *)
Theorem X9_invalid_website_is_rejected_after_the_mx_check (env : Env) (pf : Platform) (cfg : Config)
    (req : AnalyzeRequest) (w : World) (email website d : string) (n : nat) :
  body_email req = Some email -> body_website req = Some website ->
  is_blank website = false ->
  isValidEmailFormat (clean_email email) = true ->
  mx_domain (clean_email email) = Some d -> resolveMx env d = MxRecords (S n) ->
  normalizeUrl pf website = None \/ normalizeUrl pf website = Some EmptyString ->
  run env (post_api_analyze pf cfg req) w
  = (error_response 400 "Invalid website URL.", w, [CResolveMx d]).
Proof.
  intros He Hw Hbw Hfmt Hd Hmx Hn.
  unfold post_api_analyze.
  rewrite He, Hw, (valid_email_not_blank email Hfmt), Hbw, Hfmt. cbn [orb negb].
  rewrite run_bind, (run_emailHasMx_some env _ d n w Hd Hmx). cbn [negb].
  destruct Hn as [-> | ->]; reflexivity.
Qed.

(** X9 at the website "www.", which the normalizer turns into the empty
    text. *)
Lemma X9_witness :
  run (quiet_env (fun _ => MxRecords 1))
      (post_api_analyze sample_platform sample_config
         {| body_name := None; body_email := Some "ann@example.org";
            body_website := Some "www."; body_businessName := None;
            body_business_name := None; body_refresh := JUndefined |})
      empty_world
  = (error_response 400 "Invalid website URL.", empty_world, [CResolveMx "example.org"]).
Proof.
  apply (X9_invalid_website_is_rejected_after_the_mx_check _ _ _ _ _
           "ann@example.org" "www." "example.org" 0);
    try (vm_compute; reflexivity).
  right. vm_compute. reflexivity.
Defined.

(** X10: when the store fails, at the lookup or at the insert of the fresh
    report, by an error object or by an exception, the request is answered
    500 with the message of the store; the world is as it was, no lead is
    written and no email is sent. *)
Theorem X10_storage_failure_is_a_500 (env : Env) (pf : Platform) (cfg : Config) (req : AnalyzeRequest)
    (w : World) (email website normalized message : string) :
  reaches_lookup pf env req email website normalized ->
  (select_outcome env = Failed message \/ select_outcome env = Thrown message) \/
  (select_outcome env = Done /\ reports w !! hashString normalized = None /\
   (insert_report_outcome env = Failed message \/
    insert_report_outcome env = Thrown message)) ->
  exists log,
    run env (post_api_analyze pf cfg req) w = (error_response 500 message, w, log) /\
    existsb is_lead_write log = false /\ existsb is_send log = false.
Proof.
  intros Hreach Hfail.
  destruct (analyze_after_lookup env pf cfg req w email website normalized Hreach)
    as (d & resp & w' & rest & _ & Hrun & Hcases).
  rewrite Hrun.
  destruct Hcases as [(m & Hsel & -> & -> & ->)
                     |[(r & lead & sends & Hsel & Hrow & _)
                      |[(m & Hsel & Hrow & Hins & -> & -> & ->)
                       |(lead & sends & Hsel & Hrow & Hins & _)]]].
  - assert (m = message) as -> by (destruct Hfail as [[H|H]|[H _]], Hsel; congruence).
    eexists. split; [reflexivity|]. split; reflexivity.
  - exfalso. destruct Hfail as [[H|H]|(_ & H & _)]; congruence.
  - assert (m = message) as ->
      by (destruct Hfail as [[H|H]|(_ & _ & [H|H])], Hins; congruence).
    eexists. split; [reflexivity|]. split; reflexivity.
  - exfalso. destruct Hfail as [[H|H]|(_ & _ & [H|H])]; congruence.
Qed.

(** X10 at the sample request, with a reports table whose insert fails. *)
Lemma X10_witness :
  exists log,
    run {| resolveMx := fun _ => MxRecords 1; select_outcome := Done;
           insert_report_outcome := Failed "connection refused";
           insert_lead_outcome := Done; insert_event_outcome := Done;
           send_outcome := Done |}
        (post_api_analyze sample_platform sample_config (sample_request (JBool false))) empty_world
    = (error_response 500 "connection refused", empty_world, log) /\
    existsb is_lead_write log = false /\ existsb is_send log = false.
Proof.
  apply (X10_storage_failure_is_a_500 _ _ _ _ _ " Ann@Example.org "
           "https://WWW.Example.com/pricing" "example.com").
  - apply sample_reaches_lookup. reflexivity.
  - right. split; [reflexivity|]. split; [apply lookup_empty|]. left. reflexivity.
Defined.



(** X12: a report is returned only when it is stored. After a request
    answered 200, the report of the answer is in the reports table under
    the hash of the normalized website. With [cached = true] it was there
    before and the table is as it was; with [cached = false] no row was
    there before and the report is the fresh one. *)
Theorem X12_a_returned_report_is_stored (env : Env) (pf : Platform) (cfg : Config)
    (req : AnalyzeRequest) (w w' : World) (body : Body) (log : list Call) :
  run env (post_api_analyze pf cfg req) w = (Json 200 body, w', log) ->
  exists cached r website normalized,
    body = ReportBody cached r /\
    body_website req = Some website /\ normalizeUrl pf website = Some normalized /\
    reports w' !! hashString normalized = Some r /\
    if cached
    then reports w !! hashString normalized = Some r /\ reports w' = reports w
    else reports w !! hashString normalized = None /\
         r = fresh_report (hashString normalized) normalized.
Proof.
  intros Hrun.
  destruct (analyze_validation env pf cfg req w)
    as [(m & log0 & Hrun0 & _)|(email & website & normalized & Hreach)].
  - rewrite Hrun0 in Hrun. discriminate Hrun.
  - pose proof Hreach as (_ & Hw & _ & _ & _ & _ & Hn & _).
    destruct (analyze_after_lookup env pf cfg req w email website normalized Hreach)
      as (d & resp & w1 & rest & _ & Hrun1 & Hcases).
    rewrite Hrun1 in Hrun. injection Hrun as -> -> <-.
    destruct Hcases as [(m & _ & Hresp & _)
                       |[(r & lead & sends & _ & Hrow & Hans & _ & _ & _ & Hrep & _)
                        |[(m & _ & _ & _ & Hresp & _)
                         |(lead & sends & _ & Hrow & _ & Hans & _ & _ & _ & Hrep & _)]]];
      try discriminate Hresp.
    + rewrite (answered_200 _ _ _ _ _ _ _ Hans eq_refl).
      exists true, r, website, normalized. rewrite Hrep. auto 10.
    + rewrite (answered_200 _ _ _ _ _ _ _ Hans eq_refl).
      exists false, (fresh_report (hashString normalized) normalized), website, normalized.
      rewrite Hrep, lookup_insert_eq. auto 10.
Qed.

(** X12 at the sample request, the report stored. *)
Lemma X12_witness :
  exists cached r website normalized,
    ReportBody true stored_report = ReportBody cached r /\
    body_website (sample_request JNull) = Some website /\
    normalizeUrl sample_platform website = Some normalized /\
    reports (snd (fst (run (quiet_env (fun _ => MxRecords 1))
                           (post_api_analyze sample_platform sample_config (sample_request JNull))
                           world_with_report)))
    !! hashString normalized = Some r.
Proof.
  destruct (run (quiet_env (fun _ => MxRecords 1))
                (post_api_analyze sample_platform sample_config (sample_request JNull))
                world_with_report) as [[resp w'] log] eqn:Hrun.
  assert (Hresp : resp = Json 200 (ReportBody true stored_report)).
  { apply (f_equal (fun x => fst (fst x))) in Hrun. cbn [fst] in Hrun.
    rewrite <- Hrun. vm_compute. reflexivity. }
  subst resp.
  destruct (X12_a_returned_report_is_stored _ _ _ _ _ _ _ _ Hrun)
    as (cached & r & website & normalized & Hb & Hw & Hn & Hrow & _).
  exists cached, r, website, normalized. auto.
Defined.



(** X14: an email is sent only for a request that is answered 200, once,
    with mail configured; it goes to the cleaned address of the request
    and carries the report of the answer; on a cache hit it is sent only
    when [refresh] is [true]. *)
Theorem X14_the_email_carries_the_answer (env : Env) (pf : Platform) (cfg : Config)
    (req : AnalyzeRequest) (w w' : World) (resp : Response) (log : list Call)
    (m : Email) :
  run env (post_api_analyze pf cfg req) w = (resp, w', log) ->
  In (CSendEmail m) log ->
  exists cached r email,
    resp = Json 200 (ReportBody cached r) /\ body_email req = Some email /\
    to m = clean_email email /\ body_report m = r /\ from m = EMAIL_FROM cfg /\
    (cached = true -> is_true (body_refresh req) = true) /\
    resend cfg = true /\ is_blank (EMAIL_FROM cfg) = false /\
    List.filter is_send log = [CSendEmail m].
Proof.
  intros Hrun Hin.
  destruct (analyze_validation env pf cfg req w)
    as [(msg & log0 & Hrun0 & Hlog & _)|(email & website & normalized & Hreach)].
  - rewrite Hrun0 in Hrun. injection Hrun as <- <- <-.
    destruct Hlog as [->|(d & ->)]; in_log Hin.
  - pose proof Hreach as (He & _).
    destruct (analyze_after_lookup env pf cfg req w email website normalized Hreach)
      as (d & resp1 & w1 & rest & _ & Hrun1 & Hcases).
    rewrite Hrun1 in Hrun. injection Hrun as -> -> <-.
    destruct Hcases as [(msg & _ & _ & _ & ->)
                       |[(r & lead0 & sends & _ & _ & Hans & -> & _ & _ & _ & _ & _ & Hmail & Href)
                        |[(msg & _ & _ & _ & _ & _ & ->)
                         |(lead0 & sends & _ & _ & _ & Hans & -> & _ & _ & _ & _ & _ & Hmail)]]].
    + in_log Hin.
    + exists true, r, email.
      destruct Hmail as [[-> _]|(m0 & -> & Hto & Hrep & Hfrom & Hres & Hbl & _)];
        in_log Hin. injection Hin as <-.
      destruct Hans as [->|(message & _ & H & _)]; [|discriminate H].
      repeat (split; [assumption || reflexivity|]).
      split; [intros _; apply Href; discriminate|]. auto.
    + in_log Hin.
    + exists false, (fresh_report (hashString normalized) normalized), email.
      destruct Hmail as [[-> _]|(m0 & -> & Hto & Hrep & Hfrom & Hres & Hbl & _)];
        in_log Hin. injection Hin as <-.
      destruct Hans as [->|(message & _ & H & _)]; [|discriminate H].
      repeat (split; [assumption || reflexivity|]).
      split; [discriminate|]. auto.
Qed.

(** X14 at the sample request with [refresh = true], the report stored. *)
Lemma X14_witness :
  exists m cached r email,
    fst (fst (run (quiet_env (fun _ => MxRecords 1))
                  (post_api_analyze sample_platform sample_config (sample_request (JBool true)))
                  world_with_report))
    = Json 200 (ReportBody cached r) /\
    body_email (sample_request (JBool true)) = Some email /\
    to m = clean_email email /\ body_report m = r.
Proof.
  destruct (run (quiet_env (fun _ => MxRecords 1))
                (post_api_analyze sample_platform sample_config (sample_request (JBool true)))
                world_with_report) as [[resp w'] log] eqn:Hrun.
  assert (Hlog : exists m, In (CSendEmail m) log).
  { apply (f_equal snd) in Hrun. cbn [snd] in Hrun. rewrite <- Hrun.
    vm_compute. eexists. right. right. right. left. reflexivity. }
  destruct Hlog as [m Hin].
  destruct (X14_the_email_carries_the_answer _ _ _ _ _ _ _ _ _ Hrun Hin)
    as (cached & r & email & Hresp & He & Hto & Hrep & _).
  exists m, cached, r, email. auto.
Defined.

(** X15: get or create, one request after the other. When no report is
    stored for a domain and the store works, a first request creates the
    fresh report; a second request whose website normalizes to the same
    domain, run on the world that the first one left, finds it: it
    attempts no insert into the reports table and leaves that table as the
    first request left it. With an email that can be rendered the first
    request is answered with [cached = false] and the fresh report, and
    the second with [cached = true] and the same report. *)
Theorem X15_the_second_request_is_a_hit (env : Env) (pf : Platform) (cfg : Config)
    (req1 req2 : AnalyzeRequest) (w : World)
    (email1 website1 email2 website2 normalized : string) :
  reaches_lookup pf env req1 email1 website1 normalized ->
  reaches_lookup pf env req2 email2 website2 normalized ->
  select_outcome env = Done -> insert_report_outcome env = Done ->
  reports w !! hashString normalized = None ->
  exists resp1 w1 log1 resp2 w2 log2,
    run env (post_api_analyze pf cfg req1) w = (resp1, w1, log1) /\
    run env (post_api_analyze pf cfg req2) w1 = (resp2, w2, log2) /\
    existsb is_report_write log2 = false /\
    reports w2 = reports w1 /\
    reports w1
    = <[hashString normalized := fresh_report (hashString normalized) normalized]>
        (reports w) /\
    (renders pf cfg ->
     resp1 = Json 200 (ReportBody false (fresh_report (hashString normalized) normalized)) /\
     resp2 = Json 200 (ReportBody true (fresh_report (hashString normalized) normalized))).
Proof.
  intros Hreach1 Hreach2 Hsel Hins Hrow.
  destruct (analyze_after_lookup env pf cfg req1 w email1 website1 normalized Hreach1)
    as (d1 & resp1 & w1 & rest1 & _ & Hrun1 & Hcases1).
  destruct Hcases1 as [(m & [H|H] & _)
                      |[(r & lead & sends & _ & H & _)
                       |[(m & _ & _ & [H|H] & _)
                        |(lead1 & sends1 & _ & _ & _ & Hans1 & _ & _ & _ & Hrep1 & _)]]];
    try congruence.
  assert (Hrow1 : reports w1 !! hashString normalized
                  = Some (fresh_report (hashString normalized) normalized))
    by (rewrite Hrep1; apply lookup_insert_eq).
  destruct (analyze_after_lookup env pf cfg req2 w1 email2 website2 normalized Hreach2)
    as (d2 & resp2 & w2 & rest2 & _ & Hrun2 & Hcases2).
  destruct Hcases2 as [(m & [H|H] & _)
                      |[(r & lead2 & sends2 & _ & Hr & Hans2 & -> & _ & _ & Hrep2 & _ & _ & Hmail & _)
                       |[(m & _ & H & _)
                        |(lead2 & sends2 & _ & H & _)]]];
    try congruence.
  assert (r = fresh_report (hashString normalized) normalized) as -> by congruence.
  exists resp1, w1. eexists. exists resp2, w2. eexists.
  split; [exact Hrun1|]. split; [exact Hrun2|].
  split; [destruct Hmail as [[-> _]|(m & -> & _)]; reflexivity|].
  split; [exact Hrep2|]. split; [exact Hrep1|].
  intros Hrenders. split; eapply answered_renders; eassumption.
Qed.

(** X15 at the sample request, followed by a request that names the same
    site without scheme, without "www." and without path. *)
Lemma X15_witness :
  exists w1 log1 w2 log2,
    run (quiet_env (fun _ => MxRecords 1))
        (post_api_analyze sample_platform sample_config (sample_request (JBool false)))
        empty_world
    = (Json 200 (ReportBody false (fresh_report (hashString "example.com") "example.com")),
       w1, log1) /\
    run (quiet_env (fun _ => MxRecords 1))
        (post_api_analyze sample_platform sample_config
           {| body_name := None; body_email := Some "bob@example.net";
              body_website := Some "example.com"; body_businessName := None;
              body_business_name := None; body_refresh := JBool false |}) w1
    = (Json 200 (ReportBody true (fresh_report (hashString "example.com") "example.com")),
       w2, log2) /\
    existsb is_report_write log2 = false /\
    reports w2 = reports w1 /\
    reports w1
    = <[hashString "example.com" := fresh_report (hashString "example.com") "example.com"]>
        (reports empty_world).
Proof.
  destruct (X15_the_second_request_is_a_hit (quiet_env (fun _ => MxRecords 1))
              sample_platform sample_config (sample_request (JBool false))
              {| body_name := None; body_email := Some "bob@example.net";
                 body_website := Some "example.com"; body_businessName := None;
                 body_business_name := None; body_refresh := JBool false |}
              empty_world
              " Ann@Example.org " "https://WWW.Example.com/pricing"
              "bob@example.net" "example.com" "example.com")
    as (resp1 & w1 & log1 & resp2 & w2 & log2 & Hrun1 & Hrun2 & Hlog & Hrep2 & Hrep1 & Hok).
  - apply sample_reaches_lookup. reflexivity.
  - unfold reaches_lookup. repeat (split; [vm_compute; reflexivity|]).
    split; [|split; vm_compute; reflexivity].
    exists "example.net", 0%nat. split; [vm_compute; reflexivity|reflexivity].
  - reflexivity.
  - reflexivity.
  - apply lookup_empty.
  - destruct (Hok sample_renders) as [-> ->].
    exists w1, log1, w2, log2. auto.
Defined.

(** X16: the reports table stays keyed by fingerprint. When every stored
    row is filed under its own [url_hash] and that is the hash of its
    [domain], the same holds after any request to [POST /api/analyze],
    whatever the resolver and the store answer. *)
Theorem X16_reports_stay_fingerprinted (env : Env) (pf : Platform) (cfg : Config)
    (req : AnalyzeRequest) (w : World) :
  fingerprinted w ->
  fingerprinted (snd (fst (run env (post_api_analyze pf cfg req) w))).
Proof.
  intros Hw.
  destruct (analyze_validation env pf cfg req w)
    as [(m & log0 & -> & _)|(email & website & normalized & Hreach)]; [exact Hw|].
  destruct (analyze_after_lookup env pf cfg req w email website normalized Hreach)
    as (d & resp & w' & rest & _ & -> & Hcases). cbn [fst snd].
  destruct Hcases as [(m & _ & _ & -> & _)
                     |[(r & lead & sends & _ & _ & _ & _ & _ & _ & Hrep & _)
                      |[(m & _ & _ & _ & _ & -> & _)
                       |(lead & sends & _ & _ & _ & _ & _ & _ & _ & Hrep & _)]]];
    try exact Hw.
  - intros k r0. rewrite Hrep. apply Hw.
  - intros k r0. rewrite Hrep. intros H.
    apply lookup_insert_Some in H as [[<- <-]|[_ H]]; [|now apply Hw].
    split; reflexivity.
Qed.

(** X16 at the sample request and a world with one stored report. *)
Lemma X16_witness :
  fingerprinted world_with_report /\
  fingerprinted
    (snd (fst (run (quiet_env (fun _ => MxRecords 1))
                   (post_api_analyze sample_platform sample_config (sample_request (JBool true)))
                   world_with_report))).
Proof.
  assert (H : fingerprinted world_with_report).
  { intros k r. unfold world_with_report. cbn [reports]. intros Hk.
    apply lookup_singleton_Some in Hk as [<- <-].
    unfold stored_report. cbn [url_hash domain]. split; reflexivity. }
  split; [exact H|]. apply X16_reports_stay_fingerprinted. exact H.
Defined.

(** ** Further properties of the normalizer *)

Lemma normalize_host_chars (pf : Platform) raw d :
  Url.in_model (prepared raw) = true ->
  normalizeUrl_chars pf raw = Some d -> forallb host_char d = true.
Proof.
  intros Hmodel. rewrite normalizeUrl_chars_unfold.
  destruct (is_empty (trim raw)); [discriminate|].
  fold (prepared raw).
  destruct (Url.hostname pf _) as [h|] eqn:Hh; [|discriminate].
  pose proof (HostFacts.hostname_settled pf _ _ Hmodel Hh) as Hs.
  rewrite (finish_settled h Hs).
  pose proof Hs as (Hplain & _ & _). apply plain_host_chars in Hplain.
  destruct (starts_with (lit "www.") h) eqn:Hwww; intros E; injection E as <-;
    [|exact Hplain].
  apply HostFacts.starts_with_split in Hwww. rewrite Hwww, forallb_app in Hplain.
  now apply andb_prop in Hplain as [_ H].
Qed.

(** *** A port after the host *)

Lemma digit_host_char c : is_ascii_digit c = true -> host_char c = true.
Proof. each_char c. Qed.

Lemma digits_host_chars l : forallb is_ascii_digit l = true -> forallb host_char l = true.
Proof.
  induction l as [|c l IH]; [reflexivity|]. intros H.
  apply forallb_cons_inv in H as [Hc Hl]. cbn. now rewrite (digit_host_char c Hc), IH.
Qed.

Lemma strip_end_port (p : ascii -> bool) h port rest :
  (forall c, host_char c = true -> p c = false) ->
  (forall c, Url.is_authority_end c = true -> p c = false) ->
  p ":"%char = false ->
  forallb is_ascii_digit port = true -> rest_ok rest = true ->
  exists rest', rest_ok rest' = true /\
    drop_while_end p (h ++ ":"%char :: port ++ rest) = h ++ ":"%char :: port ++ rest'.
Proof.
  intros Hh He Hcolon Hport Hrest.
  destruct (strip_end_plain p port rest Hh He (digits_host_chars port Hport) Hrest)
    as (rest' & Hrest' & Heq).
  exists rest'. split; [exact Hrest'|].
  now rewrite (drop_while_end_app_keep p h ":" (port ++ rest) Hcolon), Heq.
Qed.

Lemma remove_port h port rest :
  forallb host_char h = true -> forallb is_ascii_digit port = true ->
  rest_ok rest = true ->
  exists rest', rest_ok rest' = true /\
    Url.remove_tab_or_newline (h ++ ":"%char :: port ++ rest)
    = h ++ ":"%char :: port ++ rest'.
Proof.
  intros Hh Hport Hrest.
  destruct (remove_plain port rest (digits_host_chars port Hport) Hrest)
    as (rest' & Hrest' & Heq).
  exists rest'. split; [exact Hrest'|].
  destruct (remove_plain h [] Hh eq_refl) as (r0 & Hr0 & Hh0).
  unfold Url.remove_tab_or_newline in *. rewrite List.filter_app.
  rewrite app_nil_r in Hh0.
  assert (Hfh : List.filter (fun c => negb (Url.is_ascii_tab_or_newline c)) h = h).
  { clear -Hh. induction h as [|c h IH]; [reflexivity|].
    apply forallb_cons_inv in Hh as [Hc Hl]. cbn.
    rewrite (host_char_not_tab c Hc). cbn. now rewrite IH. }
  rewrite Hfh. cbn [List.filter]. change (Url.is_ascii_tab_or_newline ":") with false.
  cbn [negb]. now rewrite Heq.
Qed.

Lemma authority_state_port h port rest buffer :
  forallb host_char h = true -> forallb is_ascii_digit port = true ->
  rest_ok rest = true ->
  Url.authority_state false buffer (h ++ ":"%char :: port ++ rest)
  = Some (buffer ++ h ++ ":"%char :: port).
Proof.
  revert buffer. induction h as [|c h IH]; intros buffer Hh Hport Hrest.
  - cbn [app Url.authority_state].
    change (is_char "@" ":") with false. change (Url.is_authority_end ":") with false.
    cbv iota.
    rewrite (authority_state_plain port (buffer ++ [":"%char]) rest
               (digits_host_chars port Hport) Hrest).
    now rewrite <- app_assoc.
  - apply forallb_cons_inv in Hh as [Hc Hl]. cbn.
    rewrite (host_char_not_at c Hc), (host_char_not_end c Hc).
    rewrite IH by assumption. now rewrite <- app_assoc.
Qed.

Lemma host_state_port h port buffer :
  forallb host_char h = true -> is_empty (buffer ++ h) = false ->
  Url.host_state false buffer (h ++ ":"%char :: port) = Some (buffer ++ h, Some port).
Proof.
  revert buffer. induction h as [|c h IH]; intros buffer Hh Hne.
  - rewrite app_nil_r in *. cbn. now rewrite Hne.
  - apply forallb_cons_inv in Hh as [Hc Hl]. cbn.
    rewrite (host_char_not_colon c Hc), (host_char_not_open c Hc),
            (host_char_not_close c Hc). cbn.
    rewrite IH; [now rewrite <- app_assoc|assumption|].
    rewrite <- app_assoc. exact Hne.
Qed.

Lemma port_state_digits port :
  Url.port_state port = true -> forallb is_ascii_digit port = true.
Proof. unfold Url.port_state. intros H. now apply andb_prop in H as [H _]. Qed.

Lemma after_scheme_port (pf : Platform) h port rest :
  plain_host h = true -> Url.port_state port = true -> rest_ok rest = true ->
  after_scheme pf (h ++ ":"%char :: port ++ rest) = Url.host_parser pf h.
Proof.
  intros Hplain Hport Hrest. pose proof (plain_host_chars h Hplain) as Hchars.
  pose proof (port_state_digits port Hport) as Hdigits.
  unfold after_scheme.
  destruct (strip_end_port Url.is_c0_control_or_space h port rest
              host_char_not_c0 end_not_c0 eq_refl Hdigits Hrest) as (r1 & Hr1 & ->).
  destruct (remove_port h port r1 Hchars Hdigits Hr1) as (r2 & Hr2 & ->).
  destruct (plain_host_inv h Hplain) as (c & h' & -> & Hc & Hh').
  cbn [app]. rewrite drop_while_head by (apply host_char_not_slash, Hc).
  unfold Url.authority_hostname.
  change (c :: h' ++ ":"%char :: port ++ r2) with ((c :: h') ++ ":"%char :: port ++ r2).
  rewrite authority_state_port by assumption. cbn [app].
  change (c :: h' ++ ":"%char :: port) with ((c :: h') ++ ":"%char :: port).
  rewrite (host_state_port (c :: h') port []) by (assumption || reflexivity).
  cbn [app]. rewrite Hport. destruct (Url.host_parser pf (c :: h')); reflexivity.
Qed.

Lemma ci_eq_slash c :
  Ascii.eqb (ascii_lowercase_char "/") (ascii_lowercase_char c) = true -> c = "/"%char.
Proof. each_char c. Qed.

Lemma test_http_scheme_slash url :
  test_http_scheme url = true ->
  exists r, drop_while is_ascii_alpha url = ":"%char :: "/"%char :: r.
Proof.
  unfold test_http_scheme, lit. cbn [list_ascii_of_string].
  intros H. apply orb_prop in H as [H|H].
  - destruct url as [|c1 [|c2 [|c3 [|c4 [|c5 [|c6 r]]]]]];
      cbn [starts_with_ci] in H; rewrite ?andb_false_r in H; try discriminate H.
    repeat (apply andb_prop in H as [?H H]).
    cbn [drop_while].
    rewrite (ci_eq_alpha "h" c1), (ci_eq_alpha "t" c2), (ci_eq_alpha "t" c3),
            (ci_eq_alpha "p" c4) by (reflexivity || assumption).
    rewrite (ci_eq_colon c5), (ci_eq_slash c6) by assumption. cbn. eauto.
  - destruct url as [|c1 [|c2 [|c3 [|c4 [|c5 [|c6 [|c7 r]]]]]]];
      cbn [starts_with_ci] in H; rewrite ?andb_false_r in H; try discriminate H.
    repeat (apply andb_prop in H as [?H H]).
    cbn [drop_while].
    rewrite (ci_eq_alpha "h" c1), (ci_eq_alpha "t" c2), (ci_eq_alpha "t" c3),
            (ci_eq_alpha "p" c4), (ci_eq_alpha "s" c5) by (reflexivity || assumption).
    rewrite (ci_eq_colon c6), (ci_eq_slash c7) by assumption. cbn. eauto.
Qed.

Lemma test_http_scheme_port h p port rest :
  forallb host_char h = true -> is_ascii_digit p = true ->
  test_http_scheme (h ++ ":"%char :: p :: port ++ rest) = false.
Proof.
  intros Hh Hp.
  destruct (test_http_scheme _) eqn:Ht; [|reflexivity]. exfalso.
  apply test_http_scheme_slash in Ht as [r Hr].
  induction h as [|c h IH].
  - cbn in Hr. injection Hr as -> _. discriminate Hp.
  - apply forallb_cons_inv in Hh as [Hc Hl]. cbn in Hr.
    destruct (is_ascii_alpha c); [now apply IH|].
    injection Hr as -> _. discriminate Hc.
Qed.

Lemma normalize_port (pf : Platform) sch h port rest :
  In sch scheme_spellings -> plain_host h = true ->
  Url.port_state port = true -> is_empty port = false -> rest_ok rest = true ->
  normalizeUrl_chars pf (sch ++ h ++ ":"%char :: port ++ rest) = finish (Url.host_parser pf h).
Proof.
  intros Hsch Hplain Hport Hne Hrest.
  pose proof (plain_host_chars h Hplain) as Hchars.
  pose proof (port_state_digits port Hport) as Hdigits.
  destruct (strip_end_port is_js_whitespace h port rest host_char_not_ws end_not_ws
              eq_refl Hdigits Hrest) as (r1 & Hr1 & Hend).
  destruct Hsch as [<-|[<-|[<-|[]]]].
  - cbn [app]. rewrite normalizeUrl_chars_unfold.
    assert (Htrim : trim (h ++ ":"%char :: port ++ rest) = h ++ ":"%char :: port ++ r1).
    { unfold trim. destruct (plain_host_inv h Hplain) as (c & h' & -> & Hc & _).
      cbn [app]. rewrite drop_while_head by (apply host_char_not_ws, Hc). exact Hend. }
    rewrite Htrim.
    destruct port as [|p port]; [discriminate|].
    apply forallb_cons_inv in Hdigits as [Hp _].
    change ((p :: port) ++ r1) with (p :: port ++ r1).
    rewrite (test_http_scheme_port h p port r1 Hchars Hp).
    destruct (plain_host_inv h Hplain) as (c & h' & Hh & _).
    replace (is_empty (h ++ ":"%char :: p :: port ++ r1)) with false
      by (subst h; reflexivity).
    rewrite hostname_https.
    change (p :: port ++ r1) with ((p :: port) ++ r1).
    now rewrite after_scheme_port.
  - now rewrite normalize_http, Hend, after_scheme_port.
  - now rewrite normalize_https, Hend, after_scheme_port.
Qed.

(** X17: a domain returned by [normalizeUrl] for an input whose host is a
    host of the model (ASCII after percent-decoding, not in square
    brackets, no label that starts with "xn--") is made of ASCII
    characters that a domain may hold: no control character, no space, and
    none of # / : < > ? @ [ \ ] ^ | and %. *)
Theorem X17_a_normalized_domain_has_only_host_characters (pf : Platform) (raw d : string) :
  modelled raw = true ->
  normalizeUrl pf raw = Some d -> forallb host_char (lit d) = true.
Proof.
  intros Hmodel H. apply normalizeUrl_some in H.
  exact (normalize_host_chars pf _ _ Hmodel H).
Qed.

(** X17 at a URL with credentials, a port, a path with a space, a query
    and a fragment. *)
Lemma X17_witness :
  normalizeUrl sample_platform " HTTPS://Ann:pw@WWW.Example.COM:8080/a b?q=1#top "
  = Some "example.com" /\
  forallb host_char (lit "example.com") = true.
Proof.
  assert (Hmodel : modelled " HTTPS://Ann:pw@WWW.Example.COM:8080/a b?q=1#top " = true)
    by (vm_compute; reflexivity).
  assert (H : normalizeUrl sample_platform
                " HTTPS://Ann:pw@WWW.Example.COM:8080/a b?q=1#top "
              = Some "example.com") by (vm_compute; reflexivity).
  split; [exact H|].
  exact (X17_a_normalized_domain_has_only_host_characters sample_platform _ _ Hmodel H).
Defined.

(** Beyond the model the domain can hold other characters: for the
    platform of the examples, which reads "[::1]" as Node does, the domain
    of "[::1]" is "[::1]". *)
Lemma bracketed_host_example :
  modelled "[::1]" = false /\
  normalizeUrl sample_platform "[::1]" = Some "[::1]" /\
  forallb host_char (lit "[::1]") = false.
Proof. repeat split; vm_compute; reflexivity. Qed.

(** X18: only the host counts. For a raw URL made of an optional http://
    or https://, a host of plain characters, an optional port (digits, at
    most 65535) and a path, query or fragment, [normalizeUrl] returns what
    it returns for the host alone. *)
Theorem X18_scheme_port_and_path_do_not_count (pf : Platform) (sch h port rest : string) :
  In (lit sch) scheme_spellings -> plain_host (lit h) = true ->
  Url.port_state (lit port) = true -> is_blank port = false ->
  rest_ok (lit rest) = true ->
  normalizeUrl pf (sch +:+ h +:+ rest) = normalizeUrl pf h /\
  normalizeUrl pf (sch +:+ h +:+ ":" +:+ port +:+ rest) = normalizeUrl pf h.
Proof.
  intros Hsch Hplain Hport Hne Hrest. unfold normalizeUrl.
  rewrite !lit_append.
  assert (Hh : normalizeUrl_chars pf (lit h) = finish (Url.host_parser pf (lit h))).
  { rewrite <- (normalize_plain pf [] (lit h) [] (or_introl eq_refl) Hplain eq_refl).
    cbn [app]. now rewrite app_nil_r. }
  rewrite Hh. split.
  - now rewrite normalize_plain.
  - change (lit ":" ++ lit port ++ lit rest) with (":"%char :: lit port ++ lit rest).
    now rewrite normalize_port.
Qed.

(** X18 at a host with a port and a path. *)
Lemma X18_witness :
  normalizeUrl sample_platform ("http://" +:+ "Shop.Example.com" +:+ "/cart?item=1")
  = normalizeUrl sample_platform "Shop.Example.com" /\
  normalizeUrl sample_platform ("http://" +:+ "Shop.Example.com" +:+ ":" +:+ "8080" +:+ "/cart?item=1")
  = normalizeUrl sample_platform "Shop.Example.com".
Proof.
  apply X18_scheme_port_and_path_do_not_count; try reflexivity.
  right. left. reflexivity.
Defined.

Lemma trim_string_idem s : trim_string (trim_string s) = trim_string s.
Proof. unfold trim_string. now rewrite lit_str, trim_trim. Qed.

Lemma analyze_lead_row (env : Env) (pf : Platform) (cfg : Config) (req : AnalyzeRequest)
    (w w' : World) (resp : Response) (log : list Call) (lead : Lead) :
  run env (post_api_analyze pf cfg req) w = (resp, w', log) ->
  In (CInsertLead lead) log ->
  lead_names lead (final_business_name req) (body_name req).
Proof.
  intros Hrun Hin.
  destruct (analyze_validation env pf cfg req w)
    as [(m & log0 & Hrun0 & Hlog & _)|(email & website & normalized & Hreach)].
  - rewrite Hrun0 in Hrun. injection Hrun as <- <- <-.
    destruct Hlog as [->|(d & ->)]; in_log Hin.
  - destruct (analyze_after_lookup env pf cfg req w email website normalized Hreach)
      as (d & resp1 & w1 & rest & _ & Hrun1 & Hcases).
    rewrite Hrun1 in Hrun. injection Hrun as -> -> <-.
    destruct Hcases as [(m & _ & _ & _ & ->)
                       |[(r & lead0 & sends & _ & _ & _ & -> & _ & Hnames & _ & _ & _ & Hmail & _)
                        |[(m & _ & _ & _ & _ & _ & ->)
                         |(lead0 & sends & _ & _ & _ & _ & -> & _ & Hnames & _ & _ & _ & Hmail)]]];
      try (in_log Hin; fail);
      destruct Hmail as [[-> _]|(m & -> & _)]; in_log Hin;
      injection Hin as <-; exact Hnames.
Qed.

Lemma analyze_cause (env : Env) (pf : Platform) (cfg : Config) (req : AnalyzeRequest)
    (w w' : World) (message : string) (log : list Call) :
  run env (post_api_analyze pf cfg req) w = (error_response 400 message, w', log) ->
  rejection_cause pf env req message.
Proof.
  intros Hrun.
  destruct (analyze_validation env pf cfg req w)
    as [(m & log0 & Hrun0 & _ & Hcause)|(email & website & normalized & Hreach)].
  - rewrite Hrun0 in Hrun. injection Hrun as <- _ _. exact Hcause.
  - exfalso.
    destruct (analyze_after_lookup env pf cfg req w email website normalized Hreach)
      as (d & resp1 & w1 & rest & _ & Hrun1 & Hcases).
    rewrite Hrun1 in Hrun. injection Hrun as -> _ _.
    destruct Hcases as [(m & _ & H & _)
                       |[(r & lead0 & sends & _ & _ & [H|(m & H & _)] & _)
                        |[(m & _ & _ & _ & H & _)
                         |(lead0 & sends & _ & _ & _ & [H|(m & H & _)] & _)]]];
      discriminate H.
Qed.

(** X19: the names on a lead. The business name is the trimmed
    [businessName] of the request, or its [business_name] when the first
    is missing or empty, and "Unknown Business" when nothing is left; the
    contact name is the trimmed [name], or [null] when nothing is left. *)
Theorem X19_the_names_on_a_lead (env : Env) (pf : Platform) (cfg : Config) (req : AnalyzeRequest)
    (w w' : World) (resp : Response) (log : list Call) (lead : Lead) :
  run env (post_api_analyze pf cfg req) w = (resp, w', log) ->
  In (CInsertLead lead) log ->
  business_name lead
  = (if is_blank (final_business_name req) then "Unknown Business"
     else final_business_name req) /\
  contact_name lead = or_none (trim_string (or_empty (body_name req))).
Proof.
  intros Hrun Hin.
  destruct (analyze_lead_row env pf cfg req w w' resp log lead Hrun Hin) as [Hb Hc].
  split; [|exact Hc]. rewrite Hb. unfold final_business_name.
  now rewrite trim_string_idem.
Qed.

(** X19 at the sample request on the empty world. *)
Lemma X19_witness :
  exists lead,
    business_name lead = "Ann's Bakery" /\ contact_name lead = Some "Ann" /\
    In (CInsertLead lead)
       (snd (run (quiet_env (fun _ => MxRecords 1))
                 (post_api_analyze sample_platform sample_config (sample_request JNull)) empty_world)).
Proof.
  destruct (run (quiet_env (fun _ => MxRecords 1))
                (post_api_analyze sample_platform sample_config (sample_request JNull))
                empty_world) as [[resp w'] log] eqn:Hrun.
  assert (Hlog : exists lead, In (CInsertLead lead) log).
  { apply (f_equal snd) in Hrun. cbn [snd] in Hrun. rewrite <- Hrun.
    vm_compute. eexists. right. right. right. left. reflexivity. }
  destruct Hlog as [lead Hin].
  destruct (X19_the_names_on_a_lead _ _ _ _ _ _ _ _ _ Hrun Hin) as [Hb Hc].
  exists lead. split; [exact Hb|]. split; [exact Hc|exact Hin].
Defined.

(** X20: every 400 has its cause. The four messages stand for four
    different faults, checked in this order, each one found only when the
    checks before it have passed: a field is missing or empty; both fields
    are there and the cleaned email is not well formed; the email is well
    formed and its domain has no MX record or does not resolve; the domain
    of the email has an MX record and the website is rejected by the
    normalizer or normalized to nothing. *)
Theorem X20_every_400_has_its_cause (env : Env) (pf : Platform) (cfg : Config) (req : AnalyzeRequest)
    (w w' : World) (message : string) (log : list Call) :
  run env (post_api_analyze pf cfg req) w = (error_response 400 message, w', log) ->
  rejection_cause pf env req message.
Proof. apply analyze_cause. Qed.

(** X20 at a request whose email has no "@", and at one whose website is
    "www.". *)
Lemma X20_witness :
  rejection_cause sample_platform (quiet_env (fun _ => MxRecords 1))
    {| body_name := None; body_email := Some "ann.example.org";
       body_website := Some "example.com"; body_businessName := None;
       body_business_name := None; body_refresh := JUndefined |}
    "Invalid email. Please enter a real email address." /\
  rejection_cause sample_platform (quiet_env (fun _ => MxRecords 1))
    {| body_name := None; body_email := Some "ann@example.org";
       body_website := Some "www."; body_businessName := None;
       body_business_name := None; body_refresh := JUndefined |}
    "Invalid website URL.".
Proof.
  split.
  - apply (X20_every_400_has_its_cause _ sample_platform sample_config _
             empty_world empty_world _ []).
    vm_compute. reflexivity.
  - apply (X20_every_400_has_its_cause _ sample_platform sample_config _
             empty_world empty_world _ [CResolveMx "example.org"]).
    vm_compute. reflexivity.
Defined.

(** ** The page *)

Lemma normalizeUrl_chars_trim (pf : Platform) l : normalizeUrl_chars pf (trim l) = normalizeUrl_chars pf l.
Proof. rewrite !normalizeUrl_chars_unfold. now rewrite trim_trim. Qed.

Lemma drop_while_end_trim l : drop_while_end is_js_whitespace (trim l) = trim l.
Proof. unfold trim. apply drop_while_end_idem. Qed.

(** X21: the page and the server agree on the site. When the typed
    website has no http:// or https:// in front, or has one in lowercase,
    the text that the page posts is normalized by the server to the same
    domain as the text that was typed. *)
Theorem X21_the_posted_website_names_the_same_site (pf : Platform) (input : string) :
  test_http_scheme (trim (lit input))
  = startsWith (trim (lit input)) (lit "http://")
    || startsWith (trim (lit input)) (lit "https://") ->
  normalizeUrl pf (Ui.normalizeWebsite input) = normalizeUrl pf input.
Proof.
  intros Hcase. unfold Ui.normalizeWebsite, normalizeUrl.
  destruct (is_empty (trim (lit input))) eqn:Hempty.
  - rewrite (normalizeUrl_chars_unfold pf (lit input)), Hempty. reflexivity.
  - destruct (startsWith (trim (lit input)) (lit "http://")
              || startsWith (trim (lit input)) (lit "https://")) eqn:Hs.
    + now rewrite lit_str, normalizeUrl_chars_trim.
    + rewrite lit_str, normalize_https, drop_while_end_trim.
      rewrite (normalizeUrl_chars_unfold pf (lit input)), Hempty, Hcase.
      now rewrite hostname_https.
Qed.

(** X21 at a website typed without a scheme. *)
Lemma X21_witness :
  normalizeUrl sample_platform (Ui.normalizeWebsite "  WWW.Example.com/shop ")
  = normalizeUrl sample_platform "  WWW.Example.com/shop ".
Proof.
  apply X21_the_posted_website_names_the_same_site. vm_compute. reflexivity.
Defined.

(** With a scheme in capitals the page puts a second scheme in front, and
    the server takes the first one for the host. *)
Lemma capital_scheme_example :
  Ui.normalizeWebsite "HTTP://example.com" = "https://HTTP://example.com" /\
  normalizeUrl sample_platform "https://HTTP://example.com" = Some "http" /\
  normalizeUrl sample_platform "HTTP://example.com" = Some "example.com".
Proof. repeat split; vm_compute; reflexivity. Qed.

Lemma fold_score_le (issues : list Ui.Issue) (start : Z) :
  (fold_left (fun score i =>
                match Ui.severity i with
                | Ui.high => score - 20
                | Ui.medium => score - 10
                | Ui.low => score - 5
                end) issues start <= start)%Z.
Proof.
  revert start. induction issues as [|i issues IH]; intros start; cbn [fold_left]; [lia|].
  etransitivity; [apply IH|]. destruct (Ui.severity i); lia.
Qed.

Lemma fold_score_lt (issues : list Ui.Issue) (start : Z) :
  issues <> [] ->
  (fold_left (fun score i =>
                match Ui.severity i with
                | Ui.high => score - 20
                | Ui.medium => score - 10
                | Ui.low => score - 5
                end) issues start <= start - 5)%Z.
Proof.
  destruct issues as [|i issues]; [contradiction|]. intros _. cbn [fold_left].
  etransitivity; [apply fold_score_le|]. destruct (Ui.severity i); lia.
Qed.

(** X22: the score of the page. For any list of issues the score is
    between 0 and 100, and it is 100 only for the empty list. For the
    issues that [buildIssues] finds in a report the score is at least 50,
    so its label is never "High Priority". *)
Theorem X22_the_score_of_the_page (issues : list Ui.Issue) (report : Ui.Result) :
  (0 <= Ui.scoreFromIssues issues <= 100)%Z /\
  (Ui.scoreFromIssues issues = 100%Z <-> issues = []) /\
  (50 <= Ui.scoreFromIssues (Ui.buildIssues report))%Z /\
  Ui.text (Ui.scoreLabel (Ui.scoreFromIssues (Ui.buildIssues report))) <> "High Priority".
Proof.
  split; [unfold Ui.scoreFromIssues; lia|]. split.
  - split.
    + intros H. destruct issues as [|i issues]; [reflexivity|]. exfalso.
      unfold Ui.scoreFromIssues in H.
      pose proof (fold_score_lt (i :: issues) 100 ltac:(discriminate)). cbv zeta in H. lia.
    + intros ->. reflexivity.
  - assert (H : (50 <= Ui.scoreFromIssues (Ui.buildIssues report))%Z).
    { unfold Ui.buildIssues.
      destruct (is_empty (trim (lit (or_empty (Ui.title report))))),
               (is_empty (trim (lit (or_empty (Ui.meta_description report))))),
               (match Ui.h1_count report with
                | JUndefined | JNull => true
                | _ => false
                end || is_nan (Number (Ui.h1_count report))),
               (Number (Ui.h1_count report) =? 0)%float,
               (1 <? Number (Ui.h1_count report))%float;
        vm_compute; discriminate. }
    split; [exact H|]. unfold Ui.scoreLabel.
    destruct (90 <=? _)%Z; [discriminate|].
    destruct (70 <=? _)%Z; [discriminate|].
    destruct (50 <=? _)%Z eqn:H50; [discriminate|]. lia.
Qed.

(** X23: the recommendation of the page for the issues of a report, with
    the score made from them. It is "Growth + Performance Tune Up" exactly
    when no issue was found, and it is never the general "Website
    Improvement Audit": every issue that [buildIssues] can find selects
    one of the two fix packs. *)
Theorem X23_the_recommendation_of_the_page (bn : string) (report : Ui.Result) :
  (Ui.name (Ui.recommendPackage bn (Ui.scoreFromIssues (Ui.buildIssues report))
                                (Ui.buildIssues report))
   = "Growth + Performance Tune Up" <-> Ui.buildIssues report = []) /\
  Ui.name (Ui.recommendPackage bn (Ui.scoreFromIssues (Ui.buildIssues report))
                               (Ui.buildIssues report))
  <> "Website Improvement Audit".
Proof.
  unfold Ui.buildIssues.
  destruct (is_empty (trim (lit (or_empty (Ui.title report))))),
           (is_empty (trim (lit (or_empty (Ui.meta_description report))))),
           (match Ui.h1_count report with
            | JUndefined | JNull => true
            | _ => false
            end || is_nan (Number (Ui.h1_count report))),
           (Number (Ui.h1_count report) =? 0)%float,
           (1 <? Number (Ui.h1_count report))%float;
    cbn; (split; [split; intros H; (reflexivity || discriminate H)|discriminate]).
Qed.

Lemma runAnalysis_posted (form : Ui.Form) (refresh : bool) (payload : AnalyzeRequest) :
  Ui.runAnalysis form refresh = Ui.Post payload ->
  payload = {| body_name := Some (Ui.contact form);
               body_email := Some (trim_string (Ui.email form));
               body_website := Some (Ui.normalizeWebsite (Ui.website form));
               body_businessName := None;
               body_business_name := None;
               body_refresh := JBool refresh |} /\
  is_blank (Ui.normalizeWebsite (Ui.website form)) = false /\
  is_blank (trim_string (Ui.businessName form)) = false /\
  is_blank (trim_string (Ui.email form)) = false /\
  isValidEmailFormat (clean_email (trim_string (Ui.email form))) = true.
Proof.
  unfold Ui.runAnalysis.
  destruct (is_blank (Ui.normalizeWebsite (Ui.website form))); [discriminate|].
  destruct (is_blank (trim_string (Ui.businessName form))); [discriminate|].
  destruct (is_blank (trim_string (Ui.email form))); [discriminate|].
  destruct (Ui.isValidEmail (trim_string (Ui.email form))) eqn:Hv; [|discriminate].
  cbn [negb]. intros E. injection E as <-.
  repeat (split; [reflexivity|]). rewrite valid_clean_email. exact Hv.
Qed.

(** X24: what the page posts. A body that [runAnalysis] posts has an email
    and a website that are not empty, and an email that passes the
    server's format test: the server never answers it with "Website and
    email are required." or with "Invalid email. Please enter a real email
    address.". The business name, which the form requires, is not in the
    body: every lead written for such a request has the business name
    "Unknown Business". *)
Theorem X24_what_the_page_posts (form : Ui.Form) (refresh : bool)
    (payload : AnalyzeRequest) (env : Env) (pf : Platform) (cfg : Config) (w w' : World)
    (resp : Response) (log : list Call) :
  Ui.runAnalysis form refresh = Ui.Post payload ->
  run env (post_api_analyze pf cfg payload) w = (resp, w', log) ->
  resp <> error_response 400 "Website and email are required." /\
  resp <> error_response 400 "Invalid email. Please enter a real email address." /\
  forall lead, In (CInsertLead lead) log ->
               business_name lead = "Unknown Business" /\
               contact_name lead = or_none (trim_string (Ui.contact form)).
Proof.
  intros Hpost Hrun.
  destruct (runAnalysis_posted form refresh payload Hpost)
    as (Hp & Hbw & _ & Hbe & Hfmt).
  split; [|split].
  - intros ->. apply analyze_cause in Hrun.
    destruct Hrun as [(_ & H)
                     |(email & website & _ & _ & _ & _
                       & [(H & _)|(_ & d & _ & [(H & _)|(H & _)])])];
      try discriminate H.
    subst payload. cbn [body_email body_website or_empty] in H.
    rewrite Hbe, Hbw in H. discriminate H.
  - intros ->. apply analyze_cause in Hrun.
    destruct Hrun as [(H & _)
                     |(email & website & He & _ & _ & _
                       & [(_ & H)|(_ & d & _ & [(H & _)|(H & _)])])];
      try discriminate H.
    subst payload. cbn [body_email] in He. injection He as <-. congruence.
  - intros lead Hin.
    destruct (analyze_lead_row env pf cfg payload w w' resp log lead Hrun Hin) as [Hb Hc].
    subst payload. split; [exact Hb|exact Hc].
Qed.

(** X24 at a filled form, posted to a server with an empty store. *)
Lemma X24_witness :
  exists lead,
    In (CInsertLead lead)
       (snd (run (quiet_env (fun _ => MxRecords 1))
                 (post_api_analyze sample_platform sample_config
                    {| body_name := Some "Ann"; body_email := Some "ann@example.org";
                       body_website := Some "https://example.com";
                       body_businessName := None; body_business_name := None;
                       body_refresh := JBool false |}) empty_world)) /\
    business_name lead = "Unknown Business".
Proof.
  assert (Hpost : Ui.runAnalysis {| Ui.website := " example.com";
                                    Ui.businessName := "Ann's Bakery";
                                    Ui.contact := "Ann";
                                    Ui.email := "ann@example.org " |} false
                  = Ui.Post {| body_name := Some "Ann";
                               body_email := Some "ann@example.org";
                               body_website := Some "https://example.com";
                               body_businessName := None; body_business_name := None;
                               body_refresh := JBool false |})
    by (vm_compute; reflexivity).
  destruct (run (quiet_env (fun _ => MxRecords 1)) _ empty_world)
    as [[resp w'] log] eqn:Hrun.
  assert (Hlog : exists lead, In (CInsertLead lead) log).
  { apply (f_equal snd) in Hrun. cbn [snd] in Hrun. rewrite <- Hrun.
    vm_compute. eexists. right. right. right. left. reflexivity. }
  destruct Hlog as [lead Hin].
  destruct (X24_what_the_page_posts _ _ _ _ sample_platform sample_config _ _ _ _ Hpost Hrun)
    as (_ & _ & Hlead).
  exists lead. split; [exact Hin|]. apply (Hlead lead Hin).
Defined.

(** ** The discount on whole amounts *)

Lemma whole_amounts_spec (n : nat) (i : Z) :
  (0 <= i <= Z.of_nat n)%Z -> In i (whole_amounts n).
Proof.
  intros Hi. unfold whole_amounts. apply in_map_iff.
  exists (Z.to_nat i). split; [lia|]. apply in_seq. lia.
Qed.

(** X25: on whole amounts the discount is exact. For a price of 0 to 1000
    whole dollars and a discount of 0, 5, 10, ... or 100 percent,
    [calcDiscountedPrice] returns the exact amount of cents, price * (100
    - percent), divided by 100: the rounding to cents never moves the
    result by a cent. *)
Theorem X25_the_discount_is_exact_on_whole_amounts (p k : Z) :
  (0 <= p <= 1000)%Z -> (0 <= k <= 20)%Z ->
  calcDiscountedPrice (float_of_Z p) (float_of_Z (5 * k))
  = Some (float_of_Z (p * (100 - 5 * k)) / 100)%float.
Proof.
  intros Hp Hk.
  assert (H : forallb (fun p => forallb (fun k => discount_is_exact p (5 * k))
                                        (whole_amounts 20))
                      (whole_amounts 1000) = true)
    by (vm_compute; reflexivity).
  rewrite forallb_forall in H. specialize (H p (whole_amounts_spec 1000 p Hp)).
  rewrite forallb_forall in H. specialize (H k (whole_amounts_spec 20 k Hk)).
  unfold discount_is_exact in H.
  destruct (calcDiscountedPrice _ _) as [x|]; [|discriminate H].
  apply FloatAxioms.Leibniz.eqb_spec in H. now subst x.
Qed.

(** X25 at the Business price and the discount of the server. *)
Lemma X25_witness :
  calcDiscountedPrice (float_of_Z 499) (float_of_Z (5 * 3))
  = Some (float_of_Z (499 * (100 - 5 * 3)) / 100)%float.
Proof. apply X25_the_discount_is_exact_on_whole_amounts; lia. Defined.

(** ** The website as the page shows it *)

Lemma starts_with_app (p l : chars) : starts_with p (p ++ l) = true.
Proof. induction p as [|a p IH]; [reflexivity|]. cbn. now rewrite Ascii.eqb_refl. Qed.

(** X26: [normalizeWebsite] gives the empty text exactly for a blank
    input; any other result starts with http:// or https://, and applying
    [normalizeWebsite] to it again changes nothing. *)
Theorem X26_normalizeWebsite_is_stable (input : string) :
  is_blank (Ui.normalizeWebsite input) = is_empty (trim (lit input)) /\
  (is_blank (Ui.normalizeWebsite input) = false ->
   startsWith (lit (Ui.normalizeWebsite input)) (lit "http://")
   || startsWith (lit (Ui.normalizeWebsite input)) (lit "https://") = true) /\
  Ui.normalizeWebsite (Ui.normalizeWebsite input) = Ui.normalizeWebsite input.
Proof.
  destruct (is_empty (trim (lit input))) eqn:Hempty.
  { assert (E : Ui.normalizeWebsite input = EmptyString)
      by (unfold Ui.normalizeWebsite; now rewrite Hempty).
    rewrite E. split; [reflexivity|]. split; [discriminate|reflexivity]. }
  destruct (startsWith (trim (lit input)) (lit "http://")
            || startsWith (trim (lit input)) (lit "https://")) eqn:Hs.
  - assert (E : Ui.normalizeWebsite input = str (trim (lit input)))
      by (unfold Ui.normalizeWebsite; now rewrite Hempty, Hs).
    rewrite E. unfold is_blank. rewrite lit_str.
    split; [exact Hempty|]. split; [intros _; exact Hs|].
    unfold Ui.normalizeWebsite. now rewrite lit_str, trim_trim, Hempty, Hs.
  - assert (E : Ui.normalizeWebsite input = str (lit "https://" ++ trim (lit input)))
      by (unfold Ui.normalizeWebsite; now rewrite Hempty, Hs).
    assert (Hp : startsWith (lit "https://" ++ trim (lit input)) (lit "http://")
                 || startsWith (lit "https://" ++ trim (lit input)) (lit "https://")
                 = true).
    { unfold startsWith. rewrite (starts_with_app (lit "https://")).
      apply orb_true_r. }
    rewrite E. unfold is_blank. rewrite lit_str.
    split; [reflexivity|]. split; [intros _; exact Hp|].
    unfold Ui.normalizeWebsite.
    rewrite lit_str, trim_https, drop_while_end_trim, Hp. reflexivity.
Qed.

(** X26 at a website typed with spaces around it. *)
Lemma X26_witness :
  startsWith (lit (Ui.normalizeWebsite " example.com ")) (lit "http://")
  || startsWith (lit (Ui.normalizeWebsite " example.com ")) (lit "https://") = true.
Proof. apply X26_normalizeWebsite_is_stable. reflexivity. Defined.
